(** * Passport MRZ extraction and validation: a model of [passport_ocr.py]

    The development follows the four classes of the module:
    [MRZDetector] (region location), [MRZParser] (check digits, dates and
    the TD3 layout), [PassportValidator] (business rules) and [PassportOCR]
    (the pipeline).  Python values are modelled as follows.

    - [str] is a list of Unicode code points; the literals of the source are
      written [py "..."] and a single character [ch "c"].
    - Exceptions are [None] in the option monad; a [try]/[except] is a
      [match] on the option.
    - [int] is [Z]; [float] is the kernel's binary64 [float], which is the
      arithmetic CPython uses.
    - The classification of the code points above 127 ([str.isalpha],
      [str.isdigit], ...) is a table of the interpreter, not of this
      program: it is the class [Unicode], over which everything is
      parametric.  On ASCII the classification is written out. *)

From Stdlib Require Import ZArith NArith Floats Uint63 List Ascii String Lia.
From stdpp Require Import gmap strings list pretty.

Set Warnings "-inexact-float".

Local Open Scope Z_scope.

(** ** Python strings *)

Definition char : Type := N.
Bind Scope N_scope with char.
Definition str : Type := list char.

Definition ch (a : ascii) : char := N_of_ascii a.
Arguments ch _%_char.

Definition py (s : string) : str := map N_of_ascii (list_ascii_of_string s).
Arguments py _%_string.

Definition ord (c : char) : Z := Z.of_N c.

Definition char_eqb (a b : char) : bool := N.eqb a b.

Definition char_in (c : char) (cs : str) : bool := existsb (char_eqb c) cs.

Definition between (lo hi c : char) : bool := (N.leb lo c) && (N.leb c hi).

Definition is_ascii (c : char) : bool := N.ltb c 128.

(** The interpreter's Unicode tables, consulted for code points above 127
    only. [uni_decimal] gives the value of a decimal digit (category Nd),
    [uni_digit] the further characters [str.isdigit] accepts (superscripts
    and the like, on which [int] raises), [uni_numeric] the further ones
    [str.isnumeric] accepts, [uni_alpha] the letters, and [uni_upper] the
    upper-case mapping, which may produce several characters. *)
Class Unicode := {
  uni_decimal : char -> option Z;
  uni_digit : char -> bool;
  uni_numeric : char -> bool;
  uni_alpha : char -> bool;
  uni_upper : char -> str;
  uni_decimal_range : forall c d, uni_decimal c = Some d -> 0 <= d <= 9
}.

Module Py.
Section WithUnicode.
Context {U : Unicode}.

(** [str.isspace] on one character: the table is short and fixed. *)
Definition isspace (c : char) : bool :=
  between 9 13 c || between 28 32 c
  || char_in c [133; 160; 5760; 8232; 8233; 8239; 8287; 12288]%N
  || between 8192 8202 c.

Definition decimal_value (c : char) : option Z :=
  if is_ascii c
  then if between (ch "0") (ch "9") c then Some (ord c - ord (ch "0")) else None
  else uni_decimal c.

Definition isdecimal (c : char) : bool :=
  match decimal_value c with Some _ => true | None => false end.

Definition isdigit (c : char) : bool :=
  isdecimal c || (negb (is_ascii c) && uni_digit c).

Definition isnumeric (c : char) : bool :=
  isdigit c || (negb (is_ascii c) && uni_numeric c).

Definition isalpha (c : char) : bool :=
  if is_ascii c
  then between (ch "A") (ch "Z") c || between (ch "a") (ch "z") c
  else uni_alpha c.

Definition isalnum (c : char) : bool :=
  isalpha c || isdecimal c || isdigit c || isnumeric c.

(** [s.isdigit()]: every character is a digit and there is at least one. *)
Definition str_isdigit (s : str) : bool :=
  match s with [] => false | _ => forallb isdigit s end.

(** The positional value of a string of decimal digits; [None] when a
    character is no decimal digit. *)
Fixpoint int_digits (acc : Z) (s : str) : option Z :=
  match s with
  | [] => Some acc
  | c :: s' => d ← decimal_value c; int_digits (10 * acc + d) s'
  end.

(** [sys.int_info.default_max_str_digits]: the interpreter refuses to
    convert a decimal string of more digits. *)
Definition max_str_digits : Z := 4300.

(** [int(s)] for a string on which [s.isdigit()] holds: the positional
    value when every character is a decimal digit and there are at most
    [max_str_digits] of them, [ValueError] ([None]) otherwise. *)
Definition int_of_str (s : str) : option Z :=
  match s with
  | [] => None
  | _ => if max_str_digits <? Z.of_nat (length s) then None else int_digits 0 s
  end.

Definition upper_char (c : char) : str :=
  if is_ascii c
  then if between (ch "a") (ch "z") c then [(c - 32)%N] else [c]
  else uni_upper c.

Definition upper (s : str) : str := flat_map upper_char s.
End WithUnicode.

(** [s.lstrip(...)] and [s.rstrip(...)] over a predicate on characters. *)
Fixpoint lstrip_with (p : char -> bool) (s : str) : str :=
  match s with
  | [] => []
  | c :: s' => if p c then lstrip_with p s' else s
  end.

Definition rstrip_with (p : char -> bool) (s : str) : str :=
  rev (lstrip_with p (rev s)).

(** [s.strip()] *)
Definition strip (s : str) : str := rstrip_with isspace (lstrip_with isspace s).

(** [s.rstrip(cs)] *)
Definition rstrip (cs : str) (s : str) : str :=
  rstrip_with (fun c => char_in c cs) s.

(** [s.ljust(n, fill)] *)
Definition ljust (n : nat) (fill : char) (s : str) : str :=
  s ++ replicate (n - length s) fill.

(** [s[a:b]] for [0 <= a <= b]; past the end the slice is cut short. *)
Definition slice (a b : nat) (s : str) : str := take (b - a) (drop a s).

(** [s[i]]: [IndexError] is [None]. *)
Definition index (i : nat) (s : str) : option char := nth_error s i.

(** [s.replace(c, r)] for a pattern of one character. *)
Definition replace (c : char) (r : str) (s : str) : str :=
  flat_map (fun x => if char_eqb x c then r else [x]) s.

Fixpoint startswith (p s : str) : bool :=
  match p, s with
  | [], _ => true
  | a :: p', b :: s' => char_eqb a b && startswith p' s'
  | _ :: _, [] => false
  end.

Definition endswith (p s : str) : bool := startswith (rev p) (rev s).

(** [s.count(c)] for a pattern of one character. *)
Definition count (c : char) (s : str) : Z :=
  Z.of_nat (length (filter (fun x => char_eqb x c = true) s)).

Definition str_eqb (a b : str) : bool := bool_decide (a = b).

(** [s.split(sep)] for a non-empty separator: the occurrences are
    found from the left and do not overlap. [skip] counts the characters
    of a separator still to pass over, [cur] is the piece being read, in
    reverse. *)
Fixpoint split_go (sep : str) (skip : nat) (cur : str) (s : str) : list str :=
  match s with
  | [] => [rev cur]
  | c :: s' =>
      match skip with
      | S k => split_go sep k cur s'
      | O =>
          if startswith sep s
          then rev cur :: split_go sep (length sep - 1) [] s'
          else split_go sep 0 (c :: cur) s'
      end
  end.

Definition split (sep : str) (s : str) : list str := split_go sep 0 [] s.

(** [sep.join(parts)] *)
Fixpoint join (sep : str) (parts : list str) : str :=
  match parts with
  | [] => []
  | [p] => p
  | p :: rest => p ++ sep ++ join sep rest
  end.

(** [f"{n:0wd}"] for [n >= 0]. *)
Definition format_d (w : nat) (n : Z) : str :=
  let digits := py (pretty (Z.to_N n)) in
  replicate (w - length digits) (ch "0") ++ digits.
End Py.

(** ** Python floats

    [float_of_int] is the conversion an [int] undergoes next to a [float],
    for the non-negative ints the program meets (lengths, pixel counts); it
    is exact below 2^53. [int_of_float] is [int(f)], truncation towards
    zero, for a finite [f]. Comparisons of an int with a float, and [a / b]
    on two ints, are exact in Python; on ints below 2^53 they are the
    float operations on the converted ints. *)

Module PyFloat.

Definition float_of_int (z : Z) : float := PrimFloat.of_uint63 (Uint63.of_Z z).

Definition int_of_float (f : float) : Z :=
  match Prim2SF f with
  | S754_finite s m e =>
      let v := if 0 <=? e then Z.pos m * 2 ^ e else Z.pos m / 2 ^ (- e) in
      if s then - v else v
  | _ => 0
  end.

(** [a / b] on two ints. *)
Definition true_div (a b : Z) : float :=
  PrimFloat.div (float_of_int a) (float_of_int b).

(** [a > f] and [a < f] for an int [a] and a float [f]. *)
Definition int_gt (a : Z) (f : float) : bool := PrimFloat.ltb f (float_of_int a).
Definition int_lt (a : Z) (f : float) : bool := PrimFloat.ltb (float_of_int a) f.

(** [n * f] for an int [n] and a float [f]. *)
Definition int_mul (n : Z) (f : float) : float := PrimFloat.mul (float_of_int n) f.

End PyFloat.

(** ** The [datetime] values the program uses *)

Module Datetime.

Record datetime := {
  year : Z; month : Z; day : Z;
  hour : Z; minute : Z; second : Z; microsecond : Z
}.

Definition is_leap (y : Z) : bool :=
  (y mod 4 =? 0) && (negb (y mod 100 =? 0) || (y mod 400 =? 0)).

Definition days_in_month (y m : Z) : Z :=
  if (m =? 2) && is_leap y then 29
  else nth (Z.to_nat m) [-1; 31; 28; 31; 30; 31; 30; 31; 31; 30; 31; 30; 31] 0.

(** [datetime(y, m, d)]: midnight of that day, or [ValueError] when the
    fields are out of range. *)
Definition new (y m d : Z) : option datetime :=
  if (1 <=? y) && (y <=? 9999) && (1 <=? m) && (m <=? 12)
     && (1 <=? d) && (d <=? days_in_month y m)
  then Some {| year := y; month := m; day := d;
               hour := 0; minute := 0; second := 0; microsecond := 0 |}
  else None.

Fixpoint lexico (cs : list comparison) : comparison :=
  match cs with
  | [] => Eq
  | Eq :: rest => lexico rest
  | c :: _ => c
  end.

(** Naive datetimes are ordered field by field. *)
Definition compare (a b : datetime) : comparison :=
  lexico [year a ?= year b; month a ?= month b; day a ?= day b;
          hour a ?= hour b; minute a ?= minute b; second a ?= second b;
          microsecond a ?= microsecond b].

Definition ltb (a b : datetime) : bool :=
  match compare a b with Lt => true | _ => false end.

Definition gtb (a b : datetime) : bool := ltb b a.

Section WithUnicode.
Context {U : Unicode}.

(** The month of the format [%m]: [1[0-2]|0[1-9]|[1-9]]. The digits of
    these classes are the ASCII ones. Returns the text matched and the rest. *)
Definition match_month (s : str) : option (str * str) :=
  match s with
  | a :: b :: rest =>
      if char_eqb a (ch "1") && between (ch "0") (ch "2") b then Some ([a; b], rest)
      else if char_eqb a (ch "0") && between (ch "1") (ch "9") b then Some ([a; b], rest)
      else if between (ch "1") (ch "9") a then Some ([a], b :: rest)
      else None
  | [a] => if between (ch "1") (ch "9") a then Some ([a], []) else None
  | [] => None
  end.

(** The day of the format [%d]: [3[0-1]|[1-2]\d|0[1-9]|[1-9]| [1-9]],
    where [\d] is any decimal digit. The matched text is returned without
    the leading space, which [int] ignores. *)
Definition match_day (s : str) : option (str * str) :=
  match s with
  | a :: b :: rest =>
      if char_eqb a (ch "3") && between (ch "0") (ch "1") b then Some ([a; b], rest)
      else if between (ch "1") (ch "2") a && Py.isdecimal b then Some ([a; b], rest)
      else if char_eqb a (ch "0") && between (ch "1") (ch "9") b then Some ([a; b], rest)
      else if between (ch "1") (ch "9") a then Some ([a], b :: rest)
      else if char_eqb a (ch " ") && between (ch "1") (ch "9") b then Some ([b], rest)
      else None
  | [a] => if between (ch "1") (ch "9") a then Some ([a], []) else None
  | [] => None
  end.

Definition expect (c : char) (s : str) : option str :=
  match s with
  | x :: rest => if char_eqb x c then Some rest else None
  | [] => None
  end.

(** [datetime.strptime(s, '%Y-%m-%d')]: the text must match
    [(\d\d\d\d)-(month)-(day)] with nothing left over, and the three
    numbers must form a date; [ValueError] is [None]. *)
Definition strptime_ymd (s : str) : option datetime :=
  match s with
  | y1 :: y2 :: y3 :: y4 :: rest =>
      y ← Py.int_digits 0 [y1; y2; y3; y4];
      rest ← expect (ch "-") rest;
      '(mtxt, rest) ← match_month rest;
      rest ← expect (ch "-") rest;
      '(dtxt, rest) ← match_day rest;
      m ← Py.int_of_str mtxt;
      d ← Py.int_of_str dtxt;
      match rest with
      | [] => new y m d
      | _ => None
      end
  | _ => None
  end.

End WithUnicode.
End Datetime.

(** ** [class MRZParser] *)

Module MRZParser.

(** The dictionary [parse_td3_mrz] returns. [check_digits] is the inner
    dictionary of verification outcomes, keyed by field name. *)
Record ParsedRecord := {
  document_type : str;
  issuing_country : str;
  surname : str;
  given_names : str;
  passport_number : str;
  nationality : str;
  date_of_birth : option str;
  sex : str;
  date_of_expiry : option str;
  personal_number : str;
  check_digits : gmap string bool;
  valid_mrz_checksum : bool
}.

Section WithUnicode.
Context {U : Unicode}.

Definition weights : list Z := [7; 3; 1].

(** The body of the loop of [calculate_check_digit]: the value of one
    character; [int(char)] may raise. *)
Definition char_value (c : char) : option Z :=
  if char_eqb c (ch "<") then Some 0
  else if Py.isdigit c then Py.int_of_str [c]
  else if Py.isalpha c then Some (ord c - ord (ch "A") + 10)
  else Some 0.

Fixpoint check_digit_loop (i : nat) (total : Z) (data : str) : option Z :=
  match data with
  | [] => Some total
  | c :: rest =>
      value ← char_value c;
      check_digit_loop (S i) (total + value * nth (i mod 3) weights 0) rest
  end.

Definition calculate_check_digit (data : str) : option Z :=
  total ← check_digit_loop 0 0 data;
  Some (total mod 10).

(** The bare [except] turns any exception into [False]. *)
Definition verify_check_digit (data check_digit : str) : bool :=
  match calculate_check_digit data with
  | None => false
  | Some expected =>
      if Py.str_isdigit check_digit
      then match Py.int_of_str check_digit with
           | Some actual => expected =? actual
           | None => false
           end
      else expected =? -1
  end.

Definition iso_format (y m d : Z) : str :=
  Py.format_d 4 y ++ py "-" ++ Py.format_d 2 m ++ py "-" ++ Py.format_d 2 d.

Definition parse_date (date_str : str) : option str :=
  if negb (length date_str =? 6)%nat || negb (Py.str_isdigit date_str) then None
  else
    match Py.int_of_str (Py.slice 0 2 date_str),
          Py.int_of_str (Py.slice 2 4 date_str),
          Py.int_of_str (Py.slice 4 6 date_str) with
    | Some yy, Some mm, Some dd =>
        let year := if yy <? 50 then 2000 + yy else 1900 + yy in
        match Datetime.new year mm dd with
        | Some _ => Some (iso_format year mm dd)
        | None => None
        end
    | _, _, _ => None
    end.

(** The correction both country codes get: a leading or trailing [1] of a
    three-character code becomes [I]. *)
Definition fix_country_code (code : str) : str :=
  let code :=
    if Py.startswith (py "1") code && (length code =? 3)%nat
    then py "I" ++ drop 1 code else code in
  if Py.endswith (py "1") code && (length code =? 3)%nat
  then take (length code - 1) code ++ py "I" else code.

Definition name_part (s : str) : str :=
  Py.strip (Py.replace (ch "<") (py " ") s).

Definition parse_td3_mrz (mrz_lines : list str) : option ParsedRecord :=
  match mrz_lines with
  | l1 :: l2 :: _ =>
      let line1 := Py.strip l1 in
      let line2 := Py.strip l2 in
      if (length line1 <? 35)%nat || (length line2 <? 35)%nat then None
      else
        let line1 := Py.rstrip (py "KX") line1 in
        let line2 := Py.rstrip (py "KX") line2 in
        let line1 := take 44 (Py.ljust 44 (ch "<") line1) in
        let line2 := take 44 (Py.ljust 44 (ch "<") line2) in
        document_type ← Py.index 0 line1;
        let issuing_country :=
          fix_country_code (Py.replace (ch "<") [] (Py.slice 2 5 line1)) in
        let names := Py.rstrip (py "<") (drop 5 line1) in
        let name_parts := Py.split (py "<<") names in
        let surname :=
          match name_parts with p :: _ => name_part p | [] => [] end in
        let given_names :=
          match name_parts with _ :: p :: _ => name_part p | _ => [] end in
        let passport_number := Py.replace (ch "<") [] (Py.slice 0 9 line2) in
        passport_check ← Py.index 9 line2;
        let nationality :=
          fix_country_code (Py.replace (ch "<") [] (Py.slice 10 13 line2)) in
        let dob := Py.slice 13 19 line2 in
        dob_check ← Py.index 19 line2;
        sex ← Py.index 20 line2;
        let expiry := Py.slice 21 27 line2 in
        expiry_check ← Py.index 27 line2;
        let personal_number := Py.replace (ch "<") [] (Py.slice 28 42 line2) in
        personal_check ← Py.index 42 line2;
        final_check ← Py.index 43 line2;
        let date_of_birth := parse_date dob in
        let date_of_expiry := parse_date expiry in
        let checks : gmap string bool :=
          {[ "passport_number"%string :=
               verify_check_digit (Py.slice 0 9 line2) [passport_check];
             "date_of_birth"%string := verify_check_digit dob [dob_check];
             "date_of_expiry"%string := verify_check_digit expiry [expiry_check];
             "personal_number"%string :=
               match personal_number with
               | [] => true
               | _ => verify_check_digit (Py.slice 28 42 line2) [personal_check]
               end ]} in
        let composite_data :=
          Py.slice 0 10 line2 ++ Py.slice 13 20 line2 ++ Py.slice 21 43 line2 in
        let checks :=
          <["composite"%string := verify_check_digit composite_data [final_check]]>
            checks in
        Some {|
          document_type := [document_type];
          issuing_country := issuing_country;
          surname := surname;
          given_names := given_names;
          passport_number := passport_number;
          nationality := nationality;
          date_of_birth := date_of_birth;
          sex := if char_in sex (py "MFX") then [sex] else py "X";
          date_of_expiry := date_of_expiry;
          personal_number := personal_number;
          check_digits := checks;
          valid_mrz_checksum := forallb snd (map_to_list checks)
        |}
  | _ => None
  end.

(** The first loop of [parse_mrz]: what one non-blank line becomes. *)
Definition clean_line (line : str) : str :=
  let line :=
    Py.replace (ch "-") (py "<")
      (Py.replace 8212%N (py "<")
         (Py.replace (ch " ") [] (Py.strip line))) in
  if Py.endswith (py "K") line || Py.endswith (py "X") line
  then if (length line <? 44)%nat then Py.rstrip (py "KX") line else line
  else line.

Definition is_blank (line : str) : bool :=
  match Py.strip line with [] => true | _ => false end.

Definition cleaned_lines (mrz_text : str) : list str :=
  map clean_line
    (List.filter (fun line => negb (is_blank line))
       (Py.split [10%N] (Py.strip mrz_text))).

Definition valid_chars (line : str) : Z :=
  Z.of_nat (length (List.filter
                      (fun c => Py.isalnum c || char_eqb c (ch "<")) line)).

Definition starts_with_doc_type (line : str) : bool :=
  match line with
  | c :: _ => char_in c (py "PACIV")
  | [] => false
  end.

(** The test of the second loop of [parse_mrz]: whether a cleaned line is
    kept as a line of the MRZ. *)
Definition looks_like_mrz (line : str) : bool :=
  if char_in (ch " ") line then false
  else
    let len := Z.of_nat (length line) in
    let has_mrz_markers := char_in (ch "<") line in
    (35 <=? len) && (len <=? 50)
    && PrimFloat.ltb 0.9%float (PyFloat.true_div (valid_chars line) len)
    && has_mrz_markers
    && (starts_with_doc_type line || (5 <=? Py.count (ch "<") line)).

Definition mrz_lines_of (mrz_text : str) : list str :=
  List.filter looks_like_mrz (cleaned_lines mrz_text).

Definition parse_mrz (mrz_text : str) : option ParsedRecord :=
  match mrz_lines_of mrz_text with
  | [] => None
  | mrz_lines => parse_td3_mrz mrz_lines
  end.

End WithUnicode.
End MRZParser.


(** ** [class MRZDetector]

    The image enters [detect_mrz] through three things only: its height and
    width, and the bounding rectangles of the contours OpenCV extracts from
    it. The morphology that produces the contours is OpenCV's and is not
    modelled; [detect_mrz] takes its result. The area stored beside each
    candidate is never read and is left out. *)

Module MRZDetector.

(** [cv2.boundingRect]: [(x, y, cw, ch)]. *)
Record Rect := { rx : Z; ry : Z; rw : Z; rh : Z }.

(** The region cut out of the image: rows [y0:y1], columns [x0:x1]. *)
Record Region := { y0 : Z; y1 : Z; x0 : Z; x1 : Z }.

Definition region_rows (r : Region) : Z := Z.max 0 (y1 r - y0 r).
Definition region_cols (r : Region) : Z := Z.max 0 (x1 r - x0 r).

Definition is_candidate (h w : Z) (c : Rect) : bool :=
  let bottom_third_y := PyFloat.int_of_float (PyFloat.int_mul h 0.5%float) in
  (bottom_third_y <? ry c)
  && PyFloat.int_gt (ry c + rh c) (PyFloat.int_mul h 0.7%float)
  && PyFloat.int_gt (rw c) (PyFloat.int_mul w 0.4%float)
  && (15 <? rh c) && PyFloat.int_lt (rh c) (PyFloat.int_mul h 0.2%float)
  && PrimFloat.ltb 4%float (PyFloat.true_div (rw c) (rh c)).

Definition mrz_candidates (h w : Z) (contours : list Rect) : list Rect :=
  List.filter (is_candidate h w) contours.

(** [max(..., key=...)] over the vertical offset: the first of the lowest. *)
Definition lowest (first : Rect) (rest : list Rect) : Rect :=
  fold_left (fun best c => if ry best <? ry c then c else best) rest first.

Definition bottom_height (h : Z) : Z :=
  PyFloat.int_of_float (PyFloat.int_mul h 0.15%float).

Definition padding_horizontal : Z := 10.
Definition padding_vertical_up : Z := 42.
Definition padding_vertical_down : Z := 6.

Definition detect_mrz (h w : Z) (contours : list Rect) : option Region :=
  match contours with
  | [] => None
  | _ =>
      match mrz_candidates h w contours with
      | [] =>
          if 40 <? bottom_height h
          then let y_start := h - bottom_height h in
               Some {| y0 := y_start; y1 := h; x0 := 0; x1 := w |}
          else None
      | c :: rest =>
          let mrz_contour := lowest c rest in
          let x := Z.max 0 (rx mrz_contour - padding_horizontal) in
          let y := Z.max 0 (ry mrz_contour - padding_vertical_up) in
          let w' := Z.min (w - x) (rw mrz_contour + 2 * padding_horizontal) in
          let h' := Z.min (h - y)
                      (rh mrz_contour + padding_vertical_up + padding_vertical_down) in
          Some {| y0 := y; y1 := y + h'; x0 := x; x1 := x + w' |}
      end
  end.

End MRZDetector.

(** ** [class PassportValidator] *)

Module PassportValidator.
Import MRZParser.

Definition VALID_COUNTRY_CODES : list string := [
  "AFG"; "ALB"; "DZA"; "AND"; "AGO"; "ATG"; "ARG"; "ARM"; "AUS"; "AUT";
  "AZE"; "BHS"; "BHR"; "BGD"; "BRB"; "BLR"; "BEL"; "BLZ"; "BEN"; "BTN";
  "BOL"; "BIH"; "BWA"; "BRA"; "BRN"; "BGR"; "BFA"; "BDI"; "KHM"; "CMR";
  "CAN"; "CPV"; "CAF"; "TCD"; "CHL"; "CHN"; "COL"; "COM"; "COG"; "CRI";
  "CIV"; "HRV"; "CUB"; "CYP"; "CZE"; "PRK"; "COD"; "DNK"; "DJI"; "DMA";
  "DOM"; "ECU"; "EGY"; "SLV"; "GNQ"; "ERI"; "EST"; "ETH"; "FJI"; "FIN";
  "FRA"; "GAB"; "GMB"; "GEO"; "DEU"; "GHA"; "GRC"; "GRD"; "GTM"; "GIN";
  "GNB"; "GUY"; "HTI"; "HND"; "HUN"; "ISL"; "IND"; "IDN"; "IRN"; "IRQ";
  "IRL"; "ISR"; "ITA"; "JAM"; "JPN"; "JOR"; "KAZ"; "KEN"; "KIR"; "KWT";
  "KGZ"; "LAO"; "LVA"; "LBN"; "LSO"; "LBR"; "LBY"; "LIE"; "LTU"; "LUX";
  "MKD"; "MDG"; "MWI"; "MYS"; "MDV"; "MLI"; "MLT"; "MHL"; "MRT"; "MUS";
  "MEX"; "FSM"; "MCO"; "MNG"; "MNE"; "MAR"; "MOZ"; "MMR"; "NAM"; "NRU";
  "NPL"; "NLD"; "NZL"; "NIC"; "NER"; "NGA"; "NOR"; "OMN"; "PAK"; "PLW";
  "PAN"; "PNG"; "PRY"; "PER"; "PHL"; "POL"; "PRT"; "QAT"; "KOR"; "MDA";
  "ROU"; "RUS"; "RWA"; "KNA"; "LCA"; "VCT"; "WSM"; "SMR"; "STP"; "SAU";
  "SEN"; "SRB"; "SYC"; "SLE"; "SGP"; "SVK"; "SVN"; "SLB"; "SOM"; "ZAF";
  "SSD"; "ESP"; "LKA"; "SDN"; "SUR"; "SWZ"; "SWE"; "CHE"; "SYR"; "TJK";
  "THA"; "TLS"; "TGO"; "TON"; "TTO"; "TUN"; "TUR"; "TKM"; "TUV"; "TWN";
  "UGA"; "UKR"; "ARE"; "GBR"; "TZA"; "USA"; "URY"; "UZB"; "VUT"; "VEN";
  "VNM"; "YEM"; "ZMB"; "ZWE"; "D<<"
]%string.

Definition VALID_DOCUMENT_TYPES : list string := ["P"; "A"; "C"; "I"; "V"]%string.

(** [s in table] for a set of string literals. *)
Definition in_table (s : str) (table : list string) : bool :=
  existsb (fun t => Py.str_eqb s (py t)) table.

(** [errors.append(msg)] *)
Definition append (errors : list str) (msg : str) : list str := errors ++ [msg].

(** Truthiness of an optional string: [None] and [''] are false. *)
Definition truthy (s : option str) : bool :=
  match s with Some (_ :: _) => true | _ => false end.

(** [not v] for what [check_details.get(k)] gives: a missing key is [None]. *)
Definition falsy (v : option bool) : bool :=
  match v with Some true => false | _ => true end.

Section WithUnicode.
Context {U : Unicode}.

Definition check_document_type (data : ParsedRecord) (errors : list str) : list str :=
  if negb (in_table (document_type data) VALID_DOCUMENT_TYPES)
  then append errors (py "Invalid document type: " ++ document_type data)
  else errors.

Definition check_issuing_country (data : ParsedRecord) (errors : list str) : list str :=
  let issuing_country := Py.upper (issuing_country data) in
  match issuing_country with
  | [] => errors
  | _ => if negb (in_table issuing_country VALID_COUNTRY_CODES)
         then append errors (py "Invalid issuing country code: " ++ issuing_country)
         else errors
  end.

Definition check_nationality (data : ParsedRecord) (errors : list str) : list str :=
  let nationality := Py.upper (nationality data) in
  match nationality with
  | [] => errors
  | _ => if negb (in_table nationality VALID_COUNTRY_CODES)
         then append errors (py "Invalid nationality code: " ++ nationality)
         else errors
  end.

(** The dictionary [critical_checks], in the order it is written. *)
Definition critical_checks (check_details : gmap string bool)
  : list (string * option bool) :=
  [("passport_number", check_details !! "passport_number");
   ("date_of_birth", check_details !! "date_of_birth");
   ("date_of_expiry", check_details !! "date_of_expiry")]%string.

Definition failed_critical (check_details : gmap string bool) : list string :=
  map fst (List.filter (fun kv => falsy (snd kv)) (critical_checks check_details)).

(** The personal-number and composite outcomes are read after this and
    nothing is done with them. *)
Definition check_checksums (data : ParsedRecord) (errors : list str) : list str :=
  match failed_critical (check_digits data) with
  | [] => errors
  | failed =>
      append errors
        (py "Critical MRZ checksum validation failed: "
         ++ Py.join (py ", ") (map py failed))
  end.

Definition check_date_of_birth (data : ParsedRecord) (today : Datetime.datetime)
    (errors : list str) : list str :=
  if truthy (date_of_birth data)
  then
    let dob_str := default [] (date_of_birth data) in
    match Datetime.strptime_ymd dob_str with
    | Some dob =>
        let errors :=
          if Datetime.gtb dob today
          then append errors (py "Date of birth is in the future") else errors in
        match Datetime.new 1900 1 1 with
        | Some epoch =>
            if Datetime.ltb dob epoch
            then append errors (py "Date of birth is too far in the past")
            else errors
        | None => append errors (py "Invalid date of birth format: " ++ dob_str)
        end
    | None => append errors (py "Invalid date of birth format: " ++ dob_str)
    end
  else append errors (py "Missing date of birth").

Definition check_date_of_expiry (data : ParsedRecord) (today : Datetime.datetime)
    (errors : list str) : list str :=
  if truthy (date_of_expiry data)
  then
    let expiry_str := default [] (date_of_expiry data) in
    match Datetime.strptime_ymd expiry_str with
    | Some expiry =>
        if Datetime.ltb expiry today
        then append errors (py "Passport has expired") else errors
    | None => append errors (py "Invalid expiry date format: " ++ expiry_str)
    end
  else append errors (py "Missing expiry date").

Definition check_required (field : string) (value : str) (errors : list str)
  : list str :=
  match value with
  | [] => append errors (py "Missing required field: " ++ py field)
  | _ => errors
  end.

(** [validate_passport(data)]; [today] is what [datetime.now()] returns
    when the function runs. *)
Definition validate_passport (data : ParsedRecord) (today : Datetime.datetime)
  : bool * list str :=
  let errors := [] in
  let errors := check_document_type data errors in
  let errors := check_issuing_country data errors in
  let errors := check_nationality data errors in
  let errors := check_checksums data errors in
  let errors := check_date_of_birth data today errors in
  let errors := check_date_of_expiry data today errors in
  let errors := check_required "surname" (surname data) errors in
  let errors := check_required "passport_number" (passport_number data) errors in
  (match errors with [] => true | _ => false end, errors).

End WithUnicode.
End PassportValidator.

(** ** [class PassportOCR] *)

Module PassportOCR.
Import MRZParser.

(** The dictionary [process_image] returns. The keys that are not always
    set are optional; the decoded fields are spliced in as they are. *)
Record Result := {
  success : bool;
  error : option str;
  valid_passport : bool;
  parsed : option ParsedRecord;
  validation_errors : option (list str);
  mrz_text : option str
}.

Section Pipeline.
Context {U : Unicode}.

(** What the pipeline takes from outside: the image with its shape, the
    contours OpenCV finds in it, and the text the OCR engine reads in a
    region of it ([None] when the engine raises). *)
Variable Image : Type.
Variable shape : Image -> Z * Z.
Variable find_contours : Image -> list MRZDetector.Rect.
Variable extract_mrz_text : Image -> MRZDetector.Region -> option str.

Definition detect_mrz (image : Image) : option MRZDetector.Region :=
  MRZDetector.detect_mrz (fst (shape image)) (snd (shape image))
    (find_contours image).

(** [process_image(image)]: [None] when an exception leaves the function. *)
Definition process_image (debug : bool) (today : Datetime.datetime)
    (image : Image) : option Result :=
  match detect_mrz image with
  | None =>
      Some {| success := false;
              error := Some (py "Could not detect MRZ region in image");
              valid_passport := false; parsed := None;
              validation_errors := None; mrz_text := None |}
  | Some mrz_roi =>
      text ← extract_mrz_text image mrz_roi;
      match parse_mrz text with
      | None =>
          Some {| success := false;
                  error := Some (py "Could not parse MRZ text");
                  valid_passport := false; parsed := None;
                  validation_errors := None; mrz_text := Some text |}
      | Some parsed_data =>
          let '(is_valid, errors) :=
            PassportValidator.validate_passport parsed_data today in
          Some {| success := true;
                  error := None;
                  valid_passport := is_valid;
                  parsed := Some parsed_data;
                  validation_errors :=
                    match errors with [] => None | _ => Some errors end;
                  mrz_text := if debug then Some text else None |}
      end
  end.

End Pipeline.
End PassportOCR.

(** A table that classifies nothing above 127: enough to run the model on
    the ASCII texts of the examples, whose results no table changes. *)
Definition ascii_only : Unicode.
Proof.
  refine {| uni_decimal := fun _ => None;
            uni_digit := fun _ => false;
            uni_numeric := fun _ => false;
            uni_alpha := fun _ => false;
            uni_upper := fun c => [c] |}.
  intros c d H; discriminate H.
Defined.

(** ** The specification's own wording, for comparison with the code *)

Module Spec.

(** The MRZ alphabet: the filler, the ten digits and the capital letters. *)
Definition mrz_char (c : char) : bool :=
  char_eqb c (ch "<") || between (ch "0") (ch "9") c || between (ch "A") (ch "Z") c.

(** value(filler) = 0, value(digit) = digit, value(letter) = 10 + rank. *)
Definition value (c : char) : Z :=
  if char_eqb c (ch "<") then 0
  else if between (ch "0") (ch "9") c then ord c - ord (ch "0")
  else 10 + (ord c - ord (ch "A")).

Definition weight (i : nat) : Z :=
  match (i mod 3)%nat with O => 7 | 1%nat => 3 | _ => 1 end.

Definition zsum (l : list Z) : Z := foldr Z.add 0 l.

(** checksum = (sum of value * weight) mod 10. *)
Definition checksum (s : str) : Z :=
  zsum (imap (fun i c => value c * weight i) s) mod 10.

(** A calendar date: the month is one of the twelve and the day exists in
    it, February having 29 days in leap years. *)
Definition leap_year (y : Z) : Prop :=
  (y mod 4 = 0 /\ y mod 100 <> 0) \/ y mod 400 = 0.

Definition month_length (y m : Z) : Z :=
  if decide (m = 2) then (if decide (leap_year y) then 29 else 28)
  else if decide (m = 4 \/ m = 6 \/ m = 9 \/ m = 11) then 30
  else 31.

Definition calendar_valid (y m d : Z) : Prop :=
  1 <= m <= 12 /\ 1 <= d <= month_length y m.

(** The century window: 2000 + YY below 50, 1900 + YY from 50 on. *)
Definition century (yy : Z) : Z := if decide (yy < 50) then 2000 + yy else 1900 + yy.

(** The violation of the checksum rule, recognised by how its message
    starts, and the message of an expired document. *)
Definition checksum_message_prefix : str :=
  py "Critical MRZ checksum validation failed: ".

Definition is_checksum_violation (msg : str) : bool :=
  Py.startswith checksum_message_prefix msg.

Definition expired_message : str := py "Passport has expired".

(** The three checks the validator calls critical. *)
Definition critical_names : list string :=
  ["passport_number"; "date_of_birth"; "date_of_expiry"]%string.

(** Whether a message starts with one of the characters [cs]. *)
Definition starts_with_one_of (cs : str) (msg : str) : bool :=
  match msg with
  | c :: _ => char_in c cs
  | [] => false
  end.

(** Every message of [msgs] starts with one of the characters [cs]. *)
Definition heads (cs : string) (msgs : list str) : Prop :=
  Forall (fun m => starts_with_one_of (py cs) m = true) msgs.

(** Dates compared day by day, and the time of day. *)
Definition date_before (a b : Datetime.datetime) : Prop :=
  Datetime.year a < Datetime.year b
  \/ (Datetime.year a = Datetime.year b
      /\ (Datetime.month a < Datetime.month b
          \/ (Datetime.month a = Datetime.month b
              /\ Datetime.day a < Datetime.day b))).

Definition same_date (a b : Datetime.datetime) : Prop :=
  Datetime.year a = Datetime.year b
  /\ Datetime.month a = Datetime.month b
  /\ Datetime.day a = Datetime.day b.

Definition wellformed_time (t : Datetime.datetime) : Prop :=
  0 <= Datetime.hour t /\ 0 <= Datetime.minute t
  /\ 0 <= Datetime.second t /\ 0 <= Datetime.microsecond t.

Definition past_midnight (t : Datetime.datetime) : Prop :=
  0 < Datetime.hour t \/ 0 < Datetime.minute t
  \/ 0 < Datetime.second t \/ 0 < Datetime.microsecond t.

End Spec.

(** ** Inputs of the examples *)

Module Examples.

(** The two lines of the specimen the tests decode. *)
Definition td3_line1 : str := py "P<GBRJENNINGS<<PAUL<MICHAEL<<<<<<<<<<<<<<<<".
Definition td3_line2 : str := py "0123456784GBR8411025M08100504<<<<<<<<<<<<<<02".

(** The same two lines as one text, a line break between them. *)
Definition td3_text : str := td3_line1 ++ [10%N] ++ td3_line2.

(** A second line with no personal number and a [7] in column 42, where the
    check digit of an empty field would be [0]. *)
Definition td3_line2_no_personal : str :=
  py "L898902C<3UTO6908061F9406236<<<<<<<<<<<<<<78".

(** A normalized line of 40 characters of which 36, nine tenths exactly,
    are alphanumeric or fillers. *)
Definition line_90_percent : str :=
  py "P<GBRJENNINGS<<PAUL<MICHAEL<<<<<<<<<....".

(** The two lines of the ICAO 9303 specimen, whose check digits are all
    right. *)
Definition icao_line1 : str := py "P<UTOERIKSSON<<ANNA<MARIA<<<<<<<<<<<<<<<<<<<".
Definition icao_line2 : str := py "L898902C<3UTO6908061F9406236ZE184226B<<<<<14".

(** A contour that has the place and the shape of an MRZ line in an image
    of 800 rows and 600 columns. *)
Definition band : MRZDetector.Rect :=
  {| MRZDetector.rx := 50; MRZDetector.ry := 600;
     MRZDetector.rw := 500; MRZDetector.rh := 40 |}.

(** A contour too small to be an MRZ candidate in any image. *)
Definition speck : MRZDetector.Rect :=
  {| MRZDetector.rx := 5; MRZDetector.ry := 5;
     MRZDetector.rw := 10; MRZDetector.rh := 10 |}.

(** A record like those of the validator's tests, with a chosen expiry
    date and every check passed. *)
Definition sample_record (expiry : str) : MRZParser.ParsedRecord :=
  {| MRZParser.document_type := py "P";
     MRZParser.issuing_country := py "USA";
     MRZParser.surname := py "SMITH";
     MRZParser.given_names := py "JOHN";
     MRZParser.passport_number := py "123456789";
     MRZParser.nationality := py "USA";
     MRZParser.date_of_birth := Some (py "1985-01-15");
     MRZParser.sex := py "M";
     MRZParser.date_of_expiry := Some expiry;
     MRZParser.personal_number := [];
     MRZParser.check_digits :=
       {[ "passport_number"%string := true; "date_of_birth"%string := true;
          "date_of_expiry"%string := true; "personal_number"%string := true;
          "composite"%string := true ]};
     MRZParser.valid_mrz_checksum := true |}.

(** Half past ten in the morning of 15 June 2030. *)
Definition morning : Datetime.datetime :=
  {| Datetime.year := 2030; Datetime.month := 6; Datetime.day := 15;
     Datetime.hour := 10; Datetime.minute := 30;
     Datetime.second := 0; Datetime.microsecond := 0 |}.

(** A scanned page as the pipeline sees it: its shape, the contours found
    in it, and the text the OCR engine reads in any region of it. *)
Record Scan := {
  scan_shape : Z * Z;
  scan_contours : list MRZDetector.Rect;
  scan_text : option str
}.

Definition specimen_scan : Scan :=
  {| scan_shape := (800, 600);
     scan_contours := [speck];
     scan_text := Some td3_text |}.

End Examples.

(** ** Checking a range of integers by computation *)

(** [all_from n h p]: [p] holds on the [n] integers from [h] on. *)
Fixpoint all_from (n : nat) (h : Z) (p : Z -> bool) : bool :=
  match n with
  | O => true
  | S k => if p h then all_from k (h + 1) p else false
  end.

(** ** [str.lower]

    On a string of ASCII characters [lower] maps the capital letters to
    the small ones. On any other string it is the interpreter's, which
    looks at the neighbours of some characters; it is the parameter
    [uni_lower]. *)

Class UnicodeLower := { uni_lower : str -> str }.

Module PyLower.

Definition lower_char (c : char) : char :=
  if between (ch "A") (ch "Z") c then (c + 32)%N else c.

Definition lower {L : UnicodeLower} (s : str) : str :=
  if forallb is_ascii s then map lower_char s else uni_lower s.

End PyLower.

(** The lower-casing that leaves every string with a character above 127
    as it is: enough to run the model on ASCII names. *)
Definition ascii_lower_only : UnicodeLower := {| uni_lower := fun s => s |}.

(** ** [PassportOCR.process_file]

    The file system, OpenCV's reader, the ZIP and PDF libraries and the
    clock are outside the program. A call that may raise returns an
    [outcome]: its value, or the text of the exception. *)

Module FileProcessing.
Import PassportOCR.

Inductive outcome (A : Type) : Type :=
| Returned (a : A)
| Raised (msg : str).
Arguments Returned {A} a.
Arguments Raised {A} msg.

(** The dictionary of a failure: [success] false, the reason, and
    [valid_passport] false. *)
Definition failure (msg : str) : Result :=
  {| success := false; error := Some msg; valid_passport := false;
     parsed := None; validation_errors := None; mrz_text := None |}.

Definition str_in (s : str) (table : list string) : bool :=
  existsb (fun t => Py.str_eqb s (py t)) table.

(** The two shapes of a result: a success carries a record and no reason,
    with violations attached exactly when it is not valid; a failure
    carries a reason and nothing else. *)
Definition well_formed (r : Result) : Prop :=
  if success r
  then error r = None
       /\ is_Some (parsed r)
       /\ (valid_passport r = true <-> validation_errors r = None)
       /\ validation_errors r <> Some []
  else is_Some (error r)
       /\ valid_passport r = false
       /\ parsed r = None
       /\ validation_errors r = None.

Section Files.
Context {U : Unicode} {L : UnicodeLower}.

Variable Image : Type.
Variable shape : Image -> Z * Z.
Variable find_contours : Image -> list MRZDetector.Rect.
Variable extract_mrz_text : Image -> MRZDetector.Region -> option str.

(** The text of the exception [process_image] lets through on an image,
    the instant at which an image is validated, and the [debug] flag of
    the object. *)
Variable ocr_error : Image -> str.
Variable now : Image -> Datetime.datetime.
Variable debug : bool.

(** Paths: their text, whether the file exists, and its suffix. *)
Variable Path : Type.
Variable path_text : Path -> str.
Variable path_exists : Path -> bool.
Variable suffix : Path -> str.

(** [cv2.imread]: [None] when the file is no image it can read. *)
Variable imread : Path -> option Image.

(** A ZIP archive extracted to a temporary directory: what [rglob] finds
    there for a pattern; the extraction may raise. *)
Variable unzip : Path -> outcome (str -> list Path).

(** The first page of a PDF as images, and its conversion to OpenCV's
    format; both may raise. *)
Variable Page : Type.
Variable convert_from_path : Path -> outcome (list Page).
Variable page_image : Page -> outcome Image.

(** [self.process_image(image)] inside the [try] of [process_file]. *)
Definition run_image (image : Image) : outcome Result :=
  match process_image Image shape find_contours extract_mrz_text
          debug (now image) image with
  | Some result => Returned result
  | None => Raised (ocr_error image)
  end.

(** The loop over the images of an archive. *)
Fixpoint first_success (image_files : list Path) : outcome Result :=
  match image_files with
  | [] => Returned (failure (py "No valid passport found in ZIP"))
  | img_file :: rest =>
      match imread img_file with
      | None => first_success rest
      | Some image =>
          match run_image image with
          | Raised msg => Raised msg
          | Returned result =>
              if success result then Returned result else first_success rest
          end
      end
  end.

Definition image_extensions : list string :=
  [".jpg"; ".jpeg"; ".png"; ".bmp"; ".tiff"]%string.

Definition zip_image_extensions : list string :=
  [".jpg"; ".jpeg"; ".png"; ".bmp"]%string.

(** The body of the [try]. *)
Definition process_by_extension (file_path : Path) (ext : str) : outcome Result :=
  if str_in ext image_extensions then
    match imread file_path with
    | None => Returned (failure (py "Could not read image file"))
    | Some image => run_image image
    end
  else if Py.str_eqb ext (py ".zip") then
    match unzip file_path with
    | Raised msg => Raised msg
    | Returned rglob =>
        let image_files :=
          flat_map (fun img_ext => rglob (py "*" ++ py img_ext))
            zip_image_extensions in
        match image_files with
        | [] => Returned (failure (py "No image files found in ZIP"))
        | _ => first_success image_files
        end
    end
  else if Py.str_eqb ext (py ".pdf") then
    match convert_from_path file_path with
    | Raised msg => Raised msg
    | Returned images =>
        match images with
        | [] => Returned (failure (py "Could not extract images from PDF"))
        | pil_image :: _ =>
            match page_image pil_image with
            | Raised msg => Raised msg
            | Returned image => run_image image
            end
        end
    end
  else Returned (failure (py "Unsupported file format: " ++ ext)).

Definition process_file (file_path : Path) : Result :=
  if negb (path_exists file_path)
  then failure (py "File not found: " ++ path_text file_path)
  else
    let ext := PyLower.lower (suffix file_path) in
    match process_by_extension file_path ext with
    | Returned result => result
    | Raised msg => failure (py "Error processing file: " ++ msg)
    end.

(** An image of an archive the loop passes over: OpenCV cannot read it,
    or no passport is found in it. *)
Definition skipped (img_file : Path) : Prop :=
  match imread img_file with
  | None => True
  | Some image =>
      exists result, run_image image = Returned result /\ success result = false
  end.

End Files.
End FileProcessing.

(** ** [app_fastapi.py]: the response built from a result, and the checks
    of the upload endpoint *)

Module App.
Import PassportOCR.

(** The dictionary under ["data"]. *)
Record PassportData := {
  passport_number : option str;
  full_name : str;
  given_names : option str;
  surname : option str;
  nationality : option str;
  issuing_country : option str;
  date_of_birth : option str;
  date_of_expiry : option str;
  sex : option str;
  document_type : option str;
  personal_number : option str;
  is_valid : bool;
  mrz_checksum_valid : bool
}.

(** [response_data]: the two shapes, by ["status"]. *)
Inductive ResponseData :=
| StatusSuccess (data : PassportData) (validation_is_valid : bool)
    (validation_errors : list str) (raw_result : Result)
| StatusError (error : str) (raw_result : Result).

(** [result.get(key)] for a key of the decoded record. *)
Definition get_field (result : Result) (field : MRZParser.ParsedRecord -> str)
  : option str :=
  field <$> parsed result.

Definition get_date (result : Result)
    (field : MRZParser.ParsedRecord -> option str) : option str :=
  parsed result ≫= field.

(** The part of [process_passport_async] between the call of
    [process_file] and the publication. *)
Definition build_response (result : Result) : ResponseData :=
  if success result then
    StatusSuccess
      {| passport_number := get_field result MRZParser.passport_number;
         full_name :=
           Py.strip (default [] (get_field result MRZParser.given_names)
                     ++ py " "
                     ++ default [] (get_field result MRZParser.surname));
         given_names := get_field result MRZParser.given_names;
         surname := get_field result MRZParser.surname;
         nationality := get_field result MRZParser.nationality;
         issuing_country := get_field result MRZParser.issuing_country;
         date_of_birth := get_date result MRZParser.date_of_birth;
         date_of_expiry := get_date result MRZParser.date_of_expiry;
         sex := get_field result MRZParser.sex;
         document_type := get_field result MRZParser.document_type;
         personal_number := get_field result MRZParser.personal_number;
         is_valid := PassportOCR.valid_passport result;
         mrz_checksum_valid :=
           default false (MRZParser.valid_mrz_checksum <$> parsed result) |}
      (PassportOCR.valid_passport result)
      (default [] (PassportOCR.validation_errors result))
      result
  else
    StatusError (default (py "Unknown error occurred") (error result)) result.

(** What [extract_passport] answers before it stores the file: a 400
    with its detail, or the extension under which the file is stored. *)
Inductive UploadCheck :=
| BadRequest (detail : str)
| Accepted (file_ext : str).

Definition allowed_extensions : list string :=
  ["jpg"; "jpeg"; "png"; "pdf"; "zip"]%string.

Definition missing (v : option str) : bool :=
  match v with Some (_ :: _) => false | _ => true end.

Section Upload.
Context {L : UnicodeLower}.

Definition file_extension (filename : option str) : str :=
  match filename with
  | Some (c :: name) =>
      PyLower.lower (List.last (Py.split (py ".") (c :: name)) [])
  | _ => []
  end.

Definition check_upload (order_id traveller_id document_id filename : option str)
  : UploadCheck :=
  if missing order_id || missing traveller_id || missing document_id
  then BadRequest
         (py "order_id, traveller_id, and document_id are required as query parameters")
  else
    let file_ext := file_extension filename in
    if negb (FileProcessing.str_in file_ext allowed_extensions)
    then BadRequest
           (py "Invalid file type. Allowed: "
            ++ Py.join (py ", ") (map py allowed_extensions))
    else Accepted file_ext.

End Upload.
End App.

(** ** [PassportOCR.extract_mrz_text]: the text built from PaddleOCR's result

    The preprocessing and the recognition are OpenCV's and PaddleOCR's.
    What the function does itself is to put the recognised lines
    together. The result is [None] when [result] or [result[0]] is
    empty; an entry of [result[0]] is [None] when it is empty or has
    fewer than two parts, and otherwise the text [line[1][0]]. *)

Module Paddle.
Section WithUnicode.
Context {U : Unicode}.

(** [''.join(c for c in text_content if c.isalnum() or c == '<')] *)
Definition filtered_text (text_content : str) : str :=
  List.filter (fun c => Py.isalnum c || char_eqb c (ch "<")) text_content.

Definition text_lines (result : option (list (option str))) : list str :=
  flat_map
    (fun line =>
       match line with
       | Some text_content =>
           match filtered_text text_content with
           | [] => []
           | filtered => [filtered]
           end
       | None => []
       end)
    (default [] result).

Definition text (result : option (list (option str))) : str :=
  Py.join [10%N] (text_lines result).

End WithUnicode.
End Paddle.

(** ** [main]: the exit status of the command *)

Module Cli.
Import PassportOCR.


End Cli.

(** ** [example_usage.py]: the response of [process_passport_upload] *)

Module ExampleUsage.
Import PassportOCR.

Record ApiData := {
  passport_number : option str;
  full_name : str;
  nationality : option str;
  date_of_birth : option str;
  date_of_expiry : option str;
  sex : option str;
  issuing_country : option str;
  is_valid : bool;
  mrz_checksum_valid : option bool
}.

(** [errors] holds what [result.get] returned, which may be [None]. *)
Record ApiResponse := {
  status : str;
  timestamp : str;
  data : option ApiData;
  errors : list (option str)
}.

(** The response built from the result of [process_file]. *)
Definition api_response (result : Result) : ApiResponse :=
  {| status := if success result then py "success" else py "error";
     timestamp := py "2024-01-01T12:00:00Z";
     data :=
       if success result
       then Some
              {| passport_number := App.get_field result MRZParser.passport_number;
                 full_name :=
                   Py.strip
                     (default [] (App.get_field result MRZParser.given_names)
                      ++ py " "
                      ++ default [] (App.get_field result MRZParser.surname));
                 nationality := App.get_field result MRZParser.nationality;
                 date_of_birth := App.get_date result MRZParser.date_of_birth;
                 date_of_expiry := App.get_date result MRZParser.date_of_expiry;
                 sex := App.get_field result MRZParser.sex;
                 issuing_country :=
                   App.get_field result MRZParser.issuing_country;
                 is_valid := valid_passport result;
                 mrz_checksum_valid :=
                   MRZParser.valid_mrz_checksum <$> parsed result |}
       else None;
     errors :=
       if success result
       then if negb (valid_passport result)
            then Some <$> default [] (validation_errors result)
            else []
       else [error result] |}.

End ExampleUsage.

(** ** A small file system for the examples

    Paths are their text. Three scans: the ICAO specimen, a page on which
    the OCR engine reads nothing, and a page on which it raises. *)

Module Samples.

Definition icao_scan : Examples.Scan :=
  {| Examples.scan_shape := (800, 600);
     Examples.scan_contours := [Examples.speck];
     Examples.scan_text :=
       Some (Examples.icao_line1 ++ [10%N] ++ Examples.icao_line2) |}.

Definition blank_scan : Examples.Scan :=
  {| Examples.scan_shape := (800, 600);
     Examples.scan_contours := [Examples.speck];
     Examples.scan_text := Some [] |}.

Definition broken_scan : Examples.Scan :=
  {| Examples.scan_shape := (800, 600);
     Examples.scan_contours := [Examples.speck];
     Examples.scan_text := None |}.

(** The suffix of a path: its last dot and what follows. *)
Definition suffix (p : str) : str :=
  match rev (Py.split (py ".") p) with
  | last :: _ :: _ => py "." ++ last
  | _ => []
  end.

Definition imread (p : str) : option Examples.Scan :=
  if Py.str_eqb p (py "blank.jpg") then Some blank_scan
  else if Py.str_eqb p (py "passport.png") then Some icao_scan
  else if Py.str_eqb p (py "broken.png") then Some broken_scan
  else None.

(** An archive that holds [blank.jpg], [notes.jpg], which is no image,
    and [passport.png]. *)
Definition unzip (p : str)
  : FileProcessing.outcome (str -> list str) :=
  FileProcessing.Returned
    (fun pattern =>
       if Py.str_eqb pattern (py "*.jpg") then [py "blank.jpg"; py "notes.jpg"]
       else if Py.str_eqb pattern (py "*.png") then [py "passport.png"]
       else []).

Definition process_file : str -> PassportOCR.Result :=
  FileProcessing.process_file (U := ascii_only) (L := ascii_lower_only)
    Examples.Scan Examples.scan_shape Examples.scan_contours
    (fun image _ => Examples.scan_text image)
    (fun _ => py "OCR engine failed") (fun _ => Examples.morning) false
    str (fun p => p) (fun _ => true) suffix imread unzip
    unit (fun _ => FileProcessing.Raised (py "no PDF support"))
    (fun _ => FileProcessing.Raised (py "no PDF support")).

End Samples.

(** ** Helpers to state properties of the decoder *)

(** What the first loop of [parse_mrz] does to the characters of a line:
    the spaces go and both dashes are read as fillers. *)
Definition normalize_chars (s : str) : str :=
  Py.replace (ch "-") (py "<")
    (Py.replace 8212%N (py "<") (Py.replace (ch " ") [] s)).

(** The first and the last character of a string, if any, are no
    whitespace. *)
Definition trimmed (s : str) : Prop :=
  match s with [] => True | c :: _ => Py.isspace c = false end
  /\ match rev s with [] => True | c :: _ => Py.isspace c = false end.

(** A replacement [c -> r] that either deletes a whitespace character or
    puts one non-blank character, no line break, for another. *)
Definition mild (c : char) (r : str) : Prop :=
  c <> 10%N
  /\ ((r = [] /\ Py.isspace c = true)
      \/ (exists c', r = [c'] /\ c' <> 10%N
                     /\ Py.isspace c = false /\ Py.isspace c' = false)).


(** * Theorems *)

(** Splits a hypothesis [(x ← m; k x) = Some r] into the [Some] cases of
    its binds, one after the other. *)
Ltac split_binds H :=
  repeat match type of H with
         | mbind _ ?m = Some _ =>
             let x := fresh "c" in
             destruct m as [x|] eqn:?; cbn [mbind option_bind] in H;
             [|discriminate H]
         | match ?p with (_, _) => _ end = Some _ => destruct p
         end.

(** ** Check digits *)

Section CheckDigit.
Context {U : Unicode}.

Lemma between_spec lo hi c :
  between lo hi c = true <-> (lo <= c <= hi)%N.
Proof.
  unfold between. rewrite andb_true_iff, !N.leb_le. tauto.
Qed.

Lemma char_eqb_spec a b : char_eqb a b = true <-> a = b.
Proof. apply N.eqb_eq. Qed.

Lemma mrz_char_cases c :
  Spec.mrz_char c = true ->
  c = ch "<" \/ (ch "0" <= c <= ch "9")%N \/ (ch "A" <= c <= ch "Z")%N.
Proof.
  unfold Spec.mrz_char. rewrite !orb_true_iff, char_eqb_spec, !between_spec.
  tauto.
Qed.

Lemma char_value_mrz c :
  Spec.mrz_char c = true -> MRZParser.char_value c = Some (Spec.value c).
Proof.
  intros H. apply mrz_char_cases in H.
  unfold MRZParser.char_value, Spec.value.
  destruct (char_eqb c (ch "<")) eqn:Hlt; [reflexivity|].
  destruct H as [-> | [Hd | Hl]]; [discriminate Hlt | |].
  - assert (Hb : between (ch "0") (ch "9") c = true) by (apply between_spec; exact Hd).
    assert (Ha : is_ascii c = true).
    { apply N.ltb_lt. change (ch "9") with 57%N in Hd. lia. }
    unfold Py.isdigit, Py.isdecimal, Py.int_of_str, Py.int_digits, Py.decimal_value.
    rewrite Ha, Hb. cbn. first [reflexivity | f_equal; lia].
  - assert (Hb : between (ch "0") (ch "9") c = false).
    { apply not_true_is_false. rewrite between_spec.
      change (ch "A") with 65%N in Hl. change (ch "9") with 57%N. lia. }
    assert (Ha : is_ascii c = true).
    { apply N.ltb_lt. change (ch "Z") with 90%N in Hl. lia. }
    assert (Hu : between (ch "A") (ch "Z") c = true) by (apply between_spec; exact Hl).
    unfold Py.isdigit, Py.isdecimal, Py.decimal_value, Py.isalpha.
    rewrite Ha, Hb, Hu. cbn. first [reflexivity | f_equal; lia].
Qed.

Lemma weight_nth i : nth (i mod 3) MRZParser.weights 0 = Spec.weight i.
Proof.
  unfold Spec.weight, MRZParser.weights.
  assert (H : (i mod 3 < 3)%nat) by (apply Nat.mod_upper_bound; lia).
  destruct (i mod 3)%nat as [|[|[|n]]]; try reflexivity; lia.
Qed.

Lemma check_digit_loop_sum s : forall i total,
  Forall (fun c => Spec.mrz_char c = true) s ->
  MRZParser.check_digit_loop i total s
  = Some (total + Spec.zsum (imap (fun j c => Spec.value c * Spec.weight (i + j)) s)).
Proof.
  induction s as [|c s IH]; intros i total Hs.
  - cbn. f_equal. lia.
  - inversion Hs as [|? ? Hc Hs']; subst.
    cbn [MRZParser.check_digit_loop]. rewrite (char_value_mrz c Hc). cbn [mbind option_bind].
    rewrite IH by assumption. rewrite weight_nth.
    cbn [imap Spec.zsum foldr]. rewrite Nat.add_0_r. f_equal.
    rewrite <- Z.add_assoc. f_equal. f_equal. fold Spec.zsum. f_equal.
    apply imap_ext. intros j x _. cbn. do 2 f_equal. lia.
Qed.

(** C1: on every string over the MRZ alphabet, [calculate_check_digit]
    returns the sum of value times weight, modulo 10, with the weights
    7, 3, 1 in turn; the value is that of the specification (0 for the
    filler, the digit itself, 10 plus the rank for a letter). The right-hand
    side mentions no Unicode table and no state: the same string always
    gives the same digit. *)
Theorem calculate_check_digit_spec (s : str) :
  Forall (fun c => Spec.mrz_char c = true) s ->
  MRZParser.calculate_check_digit s = Some (Spec.checksum s).
Proof.
  intros Hs. unfold MRZParser.calculate_check_digit, Spec.checksum.
  rewrite (check_digit_loop_sum s 0 0 Hs). cbn [mbind option_bind].
  rewrite Z.add_0_l. reflexivity.
Qed.

End CheckDigit.

Lemma calculate_check_digit_spec_witness :
  Forall (fun c => Spec.mrz_char c = true) (py "L898902C<")
  /\ MRZParser.calculate_check_digit (U := ascii_only) (py "L898902C<")
     = Some (Spec.checksum (py "L898902C<")).
Proof.
  assert (H : Forall (fun c => Spec.mrz_char c = true) (py "L898902C<")).
  { apply Forall_forall. intros c Hc%list_elem_of_In. vm_compute in Hc.
    repeat (destruct Hc as [<- | Hc]; [reflexivity|]). destruct Hc. }
  split; [exact H | exact (calculate_check_digit_spec (U := ascii_only) _ H)].
Defined.

(** ** The worked examples *)

Section WorkedExamples.
Context {U : Unicode}.

(** C8, what the code computes: the check digits of the six example
    strings are 5, 0, 3, 1, 6 and 0, for any Unicode table. The
    repository's tests [test_calculate_check_digit] and
    [test_example_passport_checksums] expect 7, 6, 1 and 1 for the second,
    fourth, fifth and sixth string. *)
Theorem check_digit_examples :
  MRZParser.calculate_check_digit (py "AB2134<<<") = Some 5
  /\ MRZParser.calculate_check_digit (py "780131") = Some 0
  /\ MRZParser.calculate_check_digit (py "L898902C<") = Some 3
  /\ MRZParser.calculate_check_digit (py "690806") = Some 1
  /\ MRZParser.calculate_check_digit (py "940623") = Some 6
  /\ MRZParser.calculate_check_digit (py "ZE184226<") = Some 0.
Proof. repeat split; vm_compute; reflexivity. Qed.

(** C2, what the code decodes from the specimen: every field is the one
    listed, except the passport number, which is the nine characters of
    columns 0 to 8, [012345678], where the repository's test
    [test_parse_td3_mrz_valid] expects the ten characters [0123456784].
    The text of the two lines decodes to the same record. *)
Theorem parse_td3_specimen :
  exists r,
    MRZParser.parse_td3_mrz [Examples.td3_line1; Examples.td3_line2] = Some r
    /\ MRZParser.parse_mrz Examples.td3_text = Some r
    /\ MRZParser.document_type r = py "P"
    /\ MRZParser.issuing_country r = py "GBR"
    /\ MRZParser.surname r = py "JENNINGS"
    /\ MRZParser.given_names r = py "PAUL MICHAEL"
    /\ MRZParser.passport_number r = py "012345678"
    /\ MRZParser.nationality r = py "GBR"
    /\ MRZParser.date_of_birth r = Some (py "1984-11-02")
    /\ MRZParser.sex r = py "M"
    /\ MRZParser.date_of_expiry r = Some (py "2008-10-05").
Proof.
  assert (Ht : MRZParser.parse_mrz Examples.td3_text
               = MRZParser.parse_td3_mrz [Examples.td3_line1; Examples.td3_line2])
    by (vm_compute; reflexivity).
  assert (Hf : (r ← MRZParser.parse_td3_mrz [Examples.td3_line1; Examples.td3_line2];
                Some (MRZParser.document_type r, MRZParser.issuing_country r,
                      MRZParser.surname r, MRZParser.given_names r,
                      MRZParser.passport_number r, MRZParser.nationality r,
                      MRZParser.date_of_birth r, MRZParser.sex r,
                      MRZParser.date_of_expiry r))
               = Some (py "P", py "GBR", py "JENNINGS", py "PAUL MICHAEL",
                       py "012345678", py "GBR", Some (py "1984-11-02"),
                       py "M", Some (py "2008-10-05")))
    by (vm_compute; reflexivity).
  rewrite Ht.
  destruct (MRZParser.parse_td3_mrz _) as [r|]; [|discriminate Hf].
  exists r. cbn [mbind option_bind] in Hf.
  injection Hf as -> -> -> -> -> -> -> -> ->.
  repeat split; reflexivity.
Qed.

End WorkedExamples.

(** C8, the values that differ: on [780131], [690806], [940623] and
    [ZE184226<] the code returns 0, 1, 6 and 0, not the 7, 6, 1 and 1 of
    the claim and of the tests. *)
Lemma check_digit_examples_differ :
  (MRZParser.calculate_check_digit (U := ascii_only) (py "780131") = Some 0
   /\ Some 0 <> Some 7)
  /\ (MRZParser.calculate_check_digit (U := ascii_only) (py "690806") = Some 1
      /\ Some 1 <> Some 6)
  /\ (MRZParser.calculate_check_digit (U := ascii_only) (py "940623") = Some 6
      /\ Some 6 <> Some 1)
  /\ (MRZParser.calculate_check_digit (U := ascii_only) (py "ZE184226<") = Some 0
      /\ Some 0 <> Some 1).
Proof. repeat split; first [vm_compute; reflexivity | discriminate]. Qed.

(** C2, the field that differs: the record decoded from the specimen
    carries the passport number [012345678], not the [0123456784] of the
    claim and of the test. *)
Lemma parse_td3_specimen_passport_number :
  (r ← MRZParser.parse_td3_mrz (U := ascii_only)
         [Examples.td3_line1; Examples.td3_line2];
   Some (MRZParser.passport_number r)) = Some (py "012345678")
  /\ py "012345678" <> py "0123456784".
Proof. split; [vm_compute; reflexivity | discriminate]. Qed.
(** ** The personal-number check of the TD3 layout *)

Section PersonalNumber.
Context {U : Unicode}.

(** A field is empty once its fillers are stripped exactly when it holds
    fillers only. *)
Lemma replace_filler_nil (s : str) :
  Py.replace (ch "<") [] s = [] <-> Forall (fun x => x = ch "<") s.
Proof.
  unfold Py.replace. induction s as [|x s IH]; cbn [flat_map].
  - split; [constructor | reflexivity].
  - destruct (char_eqb x (ch "<")) eqn:E.
    + apply char_eqb_spec in E. subst x. cbn [app]. rewrite IH. split.
      * intros H. constructor; [reflexivity | exact H].
      * intros H. inversion H; assumption.
    + split; [intros H; discriminate H|].
      intros H. inversion H as [|? ? Hx _]. subst x.
      rewrite (proj2 (char_eqb_spec _ _) eq_refl) in E. discriminate E.
Qed.

(** Verification of a field over the MRZ alphabet against one character:
    the character must read, as a decimal digit, as the weighted sum of
    the field modulo 10. *)
Lemma verify_check_digit_field (field : str) (c : char) :
  Forall (fun x => Spec.mrz_char x = true) field ->
  MRZParser.verify_check_digit field [c] = true
  <-> Py.decimal_value c = Some (Spec.checksum field).
Proof.
  intros Hf.
  assert (Hc : MRZParser.calculate_check_digit field = Some (Spec.checksum field)).
  { unfold MRZParser.calculate_check_digit, Spec.checksum.
    rewrite (check_digit_loop_sum field 0 0 Hf). cbn [mbind option_bind].
    rewrite Z.add_0_l. reflexivity. }
  unfold MRZParser.verify_check_digit. rewrite Hc.
  assert (Hr : 0 <= Spec.checksum field < 10)
    by (unfold Spec.checksum; apply Z.mod_pos_bound; lia).
  change (Py.str_isdigit [c]) with (Py.isdigit c && true).
  rewrite andb_true_r.
  change (Py.int_of_str [c])
    with (d ← Py.decimal_value c; Some (10 * 0 + d)).
  destruct (Py.decimal_value c) as [d|] eqn:Ed.
  - assert (Hd : Py.isdigit c = true)
      by (unfold Py.isdigit, Py.isdecimal; rewrite Ed; reflexivity).
    rewrite Hd. cbn [mbind option_bind]. rewrite Z.eqb_eq. split.
    + intros ->. first [reflexivity | f_equal; lia].
    + intros [= ->]. first [reflexivity | lia].
  - cbn [mbind option_bind].
    destruct (Py.isdigit c); split; intros H; try discriminate H.
    apply Z.eqb_eq in H. lia.
Qed.

(** C10: for every pair of lines that decodes, look at the second line as
    the decoder pads it to 44 columns. The personal number of the record
    is columns 28 to 41 with the fillers taken out. When nothing is left,
    that is when the fourteen columns hold fillers only, the check map
    reports the personal-number check as true, whatever character stands
    in column 42. When something is left, the reported value is the
    verification of columns 28 to 41 against column 42: over the MRZ
    alphabet it is true exactly when column 42 reads as the weighted sum
    of the fourteen columns modulo 10. *)
Theorem personal_number_check_skipped (l1 l2 : str) (rest : list str)
    (line2 : str) (r : MRZParser.ParsedRecord) :
  line2 = take 44 (Py.ljust 44 (ch "<") (Py.rstrip (py "KX") (Py.strip l2))) ->
  MRZParser.parse_td3_mrz (l1 :: l2 :: rest) = Some r ->
  exists c,
    Py.index 42 line2 = Some c
    /\ MRZParser.personal_number r
       = Py.replace (ch "<") [] (Py.slice 28 42 line2)
    /\ (Py.replace (ch "<") [] (Py.slice 28 42 line2) = []
        <-> Forall (fun x => x = ch "<") (Py.slice 28 42 line2))
    /\ (Py.replace (ch "<") [] (Py.slice 28 42 line2) = [] ->
        MRZParser.check_digits r !! "personal_number"%string = Some true)
    /\ (Py.replace (ch "<") [] (Py.slice 28 42 line2) <> [] ->
        MRZParser.check_digits r !! "personal_number"%string
        = Some (MRZParser.verify_check_digit (Py.slice 28 42 line2) [c])
        /\ (Forall (fun x => Spec.mrz_char x = true) (Py.slice 28 42 line2) ->
            (MRZParser.check_digits r !! "personal_number"%string = Some true
             <-> Py.decimal_value c
                 = Some (Spec.checksum (Py.slice 28 42 line2))))).
Proof.
  intros Hl H. unfold MRZParser.parse_td3_mrz in H.
  destruct (_ || _) in H; [discriminate H|].
  split_binds H.
  injection H as <-.
  cbv beta iota delta [MRZParser.personal_number MRZParser.check_digits].
  rewrite lookup_insert_ne by discriminate.
  rewrite !(lookup_insert_ne _ _ "personal_number"%string) by discriminate.
  rewrite lookup_singleton_eq. subst line2.
  match goal with
  | |- context [match ?X with [] => true | _ :: _ => _ end] =>
      change X
        with (Py.replace (ch "<") []
                (Py.slice 28 42
                   (take 44 (Py.ljust 44 (ch "<")
                               (Py.rstrip (py "KX") (Py.strip l2))))))
  end.
  eexists. split; [eassumption|]. split; [reflexivity|].
  split; [apply replace_filler_nil|]. split.
  - intros ->. reflexivity.
  - intros Hne.
    assert (Hv : forall b,
              match Py.replace (ch "<") []
                      (Py.slice 28 42
                         (take 44 (Py.ljust 44 (ch "<")
                                     (Py.rstrip (py "KX") (Py.strip l2)))))
              with [] => true | _ :: _ => b end = b).
    { intros b. destruct (Py.replace _ _ _); [congruence | reflexivity]. }
    rewrite Hv. split; [reflexivity|].
    intros Hf. rewrite <- (verify_check_digit_field _ _ Hf).
    split; [intros [= E]; exact E | intros E; f_equal; exact E].
Qed.

End PersonalNumber.

Lemma personal_number_check_skipped_witness :
  exists r,
    MRZParser.parse_td3_mrz (U := ascii_only)
      [Examples.td3_line1; Examples.td3_line2_no_personal] = Some r
    /\ Py.replace (ch "<") [] (Py.slice 28 42 Examples.td3_line2_no_personal) = []
    /\ MRZParser.personal_number r = []
    /\ MRZParser.check_digits r !! "personal_number"%string = Some true
    /\ Py.index 42 Examples.td3_line2_no_personal = Some (ch "7")
    /\ MRZParser.verify_check_digit (U := ascii_only)
         (Py.slice 28 42 Examples.td3_line2_no_personal) (py "7") = false.
Proof.
  destruct (MRZParser.parse_td3_mrz (U := ascii_only)
              [Examples.td3_line1; Examples.td3_line2_no_personal])
    as [r|] eqn:H; [|vm_compute in H; discriminate H].
  exists r.
  assert (Hl : Examples.td3_line2_no_personal
               = take 44 (Py.ljust 44 (ch "<")
                            (Py.rstrip (py "KX")
                               (Py.strip Examples.td3_line2_no_personal))))
    by (vm_compute; reflexivity).
  assert (He : Py.replace (ch "<") []
                 (Py.slice 28 42 Examples.td3_line2_no_personal) = [])
    by (vm_compute; reflexivity).
  destruct (personal_number_check_skipped (U := ascii_only) _ _ [] _ r Hl H)
    as (c & _ & Hp & _ & Hc & _).
  split; [reflexivity|]. split; [exact He|].
  split; [rewrite Hp; exact He|].
  split; [exact (Hc He)|].
  split; vm_compute; reflexivity.
Defined.

(** ** Dates *)

Section Dates.
Context {U : Unicode}.

Lemma decimal_value_range c d : Py.decimal_value c = Some d -> 0 <= d <= 9.
Proof.
  unfold Py.decimal_value. destruct (is_ascii c).
  - destruct (between (ch "0") (ch "9") c) eqn:Hb; [|discriminate].
    apply between_spec in Hb. intros [= <-].
    change (ch "0") with 48%N in *. change (ch "9") with 57%N in Hb.
    unfold ord. change (Z.of_N 48) with 48. lia.
  - apply uni_decimal_range.
Qed.

Lemma decimal_isdigit c d : Py.decimal_value c = Some d -> Py.isdigit c = true.
Proof. intros H. unfold Py.isdigit, Py.isdecimal. rewrite H. reflexivity. Qed.

Lemma int_of_str_two a b :
  Py.int_of_str [a; b]
  = match Py.decimal_value a, Py.decimal_value b with
    | Some x, Some y => Some (10 * x + y)
    | _, _ => None
    end.
Proof.
  unfold Py.int_of_str, Py.int_digits.
  destruct (Py.decimal_value a) as [x|]; cbn; [|reflexivity].
  destruct (Py.decimal_value b) as [y|]; cbn; [|reflexivity].
  first [reflexivity | f_equal; lia].
Qed.

Lemma is_leap_spec y : Datetime.is_leap y = true <-> Spec.leap_year y.
Proof.
  unfold Datetime.is_leap, Spec.leap_year.
  rewrite andb_true_iff, orb_true_iff, negb_true_iff, Z.eqb_neq, !Z.eqb_eq.
  split.
  - intros [H4 [H100 | H400]]; [left; split; assumption | right; assumption].
  - intros [[H4 H100] | H400]; [split; [assumption | left; assumption]|].
    split; [|right; assumption].
    pose proof (Z.div_mod y 400 ltac:(lia)) as E.
    rewrite H400, Z.add_0_r in E. rewrite E.
    replace (400 * (y / 400)) with ((100 * (y / 400)) * 4) by lia.
    apply Z.mod_mul. lia.
Qed.

Lemma days_in_month_spec y m :
  1 <= m <= 12 -> Datetime.days_in_month y m = Spec.month_length y m.
Proof.
  intros Hm. unfold Datetime.days_in_month, Spec.month_length.
  assert (Hc : m = 1 \/ m = 2 \/ m = 3 \/ m = 4 \/ m = 5 \/ m = 6 \/ m = 7
               \/ m = 8 \/ m = 9 \/ m = 10 \/ m = 11 \/ m = 12) by lia.
  destruct Hc as [->|[->|[->|[->|[->|[->|[->|[->|[->|[->|[->| ->]]]]]]]]]]];
    try reflexivity.
  cbn [Z.eqb Pos.eqb andb]. destruct (decide (2 = 2)); [|congruence].
  destruct (Datetime.is_leap y) eqn:Hl.
  - apply is_leap_spec in Hl. destruct (decide (Spec.leap_year y)); [reflexivity|tauto].
  - destruct (decide (Spec.leap_year y)) as [Hs|]; [|reflexivity].
    apply is_leap_spec in Hs. congruence.
Qed.

(** [datetime(y, m, d)] succeeds exactly on the calendar dates of the
    years 1 to 9999. *)
Lemma new_calendar_valid y m d :
  1 <= y <= 9999 ->
  Datetime.new y m d
  = if decide (Spec.calendar_valid y m d)
    then Some {| Datetime.year := y; Datetime.month := m; Datetime.day := d;
                 Datetime.hour := 0; Datetime.minute := 0;
                 Datetime.second := 0; Datetime.microsecond := 0 |}
    else None.
Proof.
  intros Hy. unfold Datetime.new, Spec.calendar_valid.
  destruct (decide (1 <= m <= 12)) as [Hm|Hm].
  - rewrite (days_in_month_spec y m Hm).
    destruct (decide _) as [Hv|Hv].
    + replace (_ && _) with true; [reflexivity|].
      symmetry. rewrite !andb_true_iff, !Z.leb_le. lia.
    + replace (_ && _) with false; [reflexivity|].
      symmetry. apply not_true_is_false. rewrite !andb_true_iff, !Z.leb_le. lia.
  - destruct (decide _) as [Hv|Hv]; [lia|].
    replace (_ && _) with false; [reflexivity|].
    symmetry. apply not_true_is_false. rewrite !andb_true_iff, !Z.leb_le. lia.
Qed.

Lemma century_range yy : 0 <= yy <= 99 -> 1950 <= Spec.century yy <= 2049.
Proof. unfold Spec.century. destruct (decide _); lia. Qed.

Lemma century_code yy :
  (if yy <? 50 then 2000 + yy else 1900 + yy) = Spec.century yy.
Proof.
  unfold Spec.century. destruct (Z.ltb_spec yy 50), (decide (yy < 50)); lia.
Qed.

Lemma parse_date_six c1 c2 c3 c4 c5 c6 :
  MRZParser.parse_date [c1; c2; c3; c4; c5; c6]
  = match Py.decimal_value c1, Py.decimal_value c2, Py.decimal_value c3,
          Py.decimal_value c4, Py.decimal_value c5, Py.decimal_value c6 with
    | Some y1, Some y2, Some m1, Some m2, Some d1, Some d2 =>
        let year := Spec.century (10 * y1 + y2) in
        let mm := 10 * m1 + m2 in
        let dd := 10 * d1 + d2 in
        if decide (Spec.calendar_valid year mm dd)
        then Some (MRZParser.iso_format year mm dd) else None
    | _, _, _, _, _, _ => None
    end.
Proof.
  unfold MRZParser.parse_date.
  cbn [length Nat.eqb negb orb Py.slice Nat.sub drop take].
  rewrite !int_of_str_two.
  destruct (Py.str_isdigit _) eqn:Hd; cbn [negb].
  - destruct (Py.decimal_value c1) as [y1|] eqn:E1; [|reflexivity].
    destruct (Py.decimal_value c2) as [y2|] eqn:E2; [|reflexivity].
    destruct (Py.decimal_value c3) as [m1|] eqn:E3;
      [|destruct (Py.decimal_value c4); reflexivity].
    destruct (Py.decimal_value c4) as [m2|] eqn:E4; [|reflexivity].
    destruct (Py.decimal_value c5) as [d1|] eqn:E5;
      [|destruct (Py.decimal_value c6); reflexivity].
    destruct (Py.decimal_value c6) as [d2|] eqn:E6; [|reflexivity].
    cbv zeta. rewrite century_code.
    apply decimal_value_range in E1, E2.
    rewrite new_calendar_valid by (pose proof (century_range (10 * y1 + y2)); lia).
    destruct (decide _); reflexivity.
  - destruct (Py.decimal_value c1) as [y1|] eqn:E1; [|reflexivity].
    destruct (Py.decimal_value c2) as [y2|] eqn:E2; [|reflexivity].
    destruct (Py.decimal_value c3) as [m1|] eqn:E3; [|reflexivity].
    destruct (Py.decimal_value c4) as [m2|] eqn:E4; [|reflexivity].
    destruct (Py.decimal_value c5) as [d1|] eqn:E5; [|reflexivity].
    destruct (Py.decimal_value c6) as [d2|] eqn:E6; [|reflexivity].
    exfalso. unfold Py.str_isdigit in Hd. cbn [forallb] in Hd.
    rewrite (decimal_isdigit _ _ E1), (decimal_isdigit _ _ E2),
      (decimal_isdigit _ _ E3), (decimal_isdigit _ _ E4),
      (decimal_isdigit _ _ E5), (decimal_isdigit _ _ E6) in Hd.
    discriminate Hd.
Qed.

(** C6: a six-character input whose characters are decimal digits is read
    as YYMMDD, the century being 2000 below 50 and 1900 from 50 on, and
    [parse_date] returns the ISO text of the date exactly when year, month
    and day form a calendar date; every other input (another length, or a
    character that is no decimal digit) gives [None]. The six examples of
    the specification come out as stated. *)
Theorem parse_date_spec :
  (forall s : str,
     match s with
     | [c1; c2; c3; c4; c5; c6] =>
         match Py.decimal_value c1, Py.decimal_value c2, Py.decimal_value c3,
               Py.decimal_value c4, Py.decimal_value c5, Py.decimal_value c6 with
         | Some y1, Some y2, Some m1, Some m2, Some d1, Some d2 =>
             let year := Spec.century (10 * y1 + y2) in
             let mm := 10 * m1 + m2 in
             let dd := 10 * d1 + d2 in
             MRZParser.parse_date s
             = if decide (Spec.calendar_valid year mm dd)
               then Some (MRZParser.iso_format year mm dd) else None
         | _, _, _, _, _, _ => MRZParser.parse_date s = None
         end
     | _ => MRZParser.parse_date s = None
     end)
  /\ (forall s : str, Py.str_isdigit s = false -> MRZParser.parse_date s = None)
  /\ MRZParser.parse_date (py "840102") = Some (py "1984-01-02")
  /\ MRZParser.parse_date (py "201231") = Some (py "2020-12-31")
  /\ MRZParser.parse_date (py "000101") = Some (py "2000-01-01")
  /\ MRZParser.parse_date (py "991340") = None
  /\ MRZParser.parse_date (py "990230") = None
  /\ MRZParser.parse_date (py "abc123") = None.
Proof.
  split; [|split; [|repeat split; vm_compute; reflexivity]].
  - intros s.
    destruct s as [|c1 [|c2 [|c3 [|c4 [|c5 [|c6 [|c7 s]]]]]]]; try reflexivity.
    rewrite parse_date_six.
    destruct (Py.decimal_value c1), (Py.decimal_value c2), (Py.decimal_value c3),
      (Py.decimal_value c4), (Py.decimal_value c5), (Py.decimal_value c6);
      reflexivity.
  - intros s Hs. unfold MRZParser.parse_date. rewrite Hs, orb_true_r. reflexivity.
Qed.

End Dates.

(** ** Line selection *)

Section LineSelection.
Context {U : Unicode}.

Lemma char_in_spec c s : char_in c s = true <-> In c s.
Proof.
  unfold char_in. rewrite existsb_exists. split.
  - intros [x [Hx Heq]]. apply char_eqb_spec in Heq. subst. exact Hx.
  - intros H. exists c. split; [exact H | apply char_eqb_spec; reflexivity].
Qed.

Lemma lstrip_with_In p s x : In x (Py.lstrip_with p s) -> In x s.
Proof.
  induction s as [|c s IH]; cbn; [tauto|].
  destruct (p c); [intros H; right; exact (IH H) | cbn; tauto].
Qed.

Lemma rstrip_with_In p s x : In x (Py.rstrip_with p s) -> In x s.
Proof.
  unfold Py.rstrip_with. rewrite <- in_rev. intros H%lstrip_with_In.
  rewrite <- in_rev in H. exact H.
Qed.

Lemma lstrip_with_length p s : (length (Py.lstrip_with p s) <= length s)%nat.
Proof.
  induction s as [|c s IH]; cbn; [lia|]. destruct (p c); cbn; lia.
Qed.

Lemma rstrip_with_length p s : (length (Py.rstrip_with p s) <= length s)%nat.
Proof.
  unfold Py.rstrip_with. rewrite length_rev.
  pose proof (lstrip_with_length p (rev s)) as H. rewrite length_rev in H. exact H.
Qed.

Lemma replace_In c r s x :
  In x (Py.replace c r s) -> (In x s /\ x <> c) \/ In x r.
Proof.
  unfold Py.replace. rewrite in_flat_map. intros [y [Hy Hx]].
  destruct (char_eqb y c) eqn:E.
  - right. exact Hx.
  - left. destruct Hx as [<- | []]. split; [exact Hy|].
    intros ->. rewrite (proj2 (char_eqb_spec c c) eq_refl) in E. discriminate E.
Qed.

(** A cleaned line holds no space: the spaces are removed, and nothing
    that follows brings one back. *)
Lemma clean_line_no_space line : ~ In (ch " ") (MRZParser.clean_line line).
Proof.
  assert (H : ~ In (ch " ")
                (Py.replace (ch "-") (py "<")
                   (Py.replace 8212%N (py "<")
                      (Py.replace (ch " ") [] (Py.strip line))))).
  { intros H. apply replace_In in H as [[H _] | H].
    - apply replace_In in H as [[H _] | H].
      + apply replace_In in H as [[_ H] | []]. apply H. reflexivity.
      + destruct H as [H | []]. discriminate H.
    - destruct H as [H | []]. discriminate H. }
  unfold MRZParser.clean_line.
  destruct (_ || _); [|exact H].
  destruct (_ <? _)%nat; [|exact H].
  intros Hin. apply H. unfold Py.rstrip in Hin.
  exact (rstrip_with_In _ _ _ Hin).
Qed.

Lemma cleaned_lines_no_space text line :
  In line (MRZParser.cleaned_lines text) -> ~ In (ch " ") line.
Proof.
  unfold MRZParser.cleaned_lines. rewrite in_map_iff.
  intros [raw [<- _]]. apply clean_line_no_space.
Qed.

Lemma valid_chars_range line :
  0 <= MRZParser.valid_chars line <= Z.of_nat (length line).
Proof.
  unfold MRZParser.valid_chars.
  pose proof (List.filter_length_le
                (fun c => Py.isalnum c || char_eqb c (ch "<")) line). lia.
Qed.

(** On the lengths the filter lets through, the floating-point test
    [valid_chars / len > 0.9] is the exact one: more than nine tenths. *)
Lemma purity_table :
  forallb (fun n =>
     forallb (fun v =>
        Bool.eqb (PrimFloat.ltb 0.9%float (PyFloat.true_div v n))
                 (9 * n <? 10 * v))
       (seqZ 0 (n + 1)))
    (seqZ 35 16) = true.
Proof. vm_compute. reflexivity. Qed.

Lemma purity_exact v n :
  35 <= n <= 50 -> 0 <= v <= n ->
  PrimFloat.ltb 0.9%float (PyFloat.true_div v n) = (9 * n <? 10 * v).
Proof.
  intros Hn Hv. pose proof purity_table as T.
  rewrite forallb_forall in T.
  assert (Hin : In n (seqZ 35 16)) by (apply list_elem_of_In, elem_of_seqZ; lia).
  specialize (T n Hin). rewrite forallb_forall in T.
  assert (Hiv : In v (seqZ 0 (n + 1))) by (apply list_elem_of_In, elem_of_seqZ; lia).
  specialize (T v Hiv). apply Bool.eqb_prop in T. exact T.
Qed.

Lemma looks_like_mrz_spec line :
  ~ In (ch " ") line ->
  MRZParser.looks_like_mrz line = true
  <-> (35 <= length line <= 50)%nat
      /\ 9 * Z.of_nat (length line) < 10 * MRZParser.valid_chars line
      /\ In (ch "<") line
      /\ (MRZParser.starts_with_doc_type line = true
          \/ 5 <= Py.count (ch "<") line).
Proof.
  intros Hsp. unfold MRZParser.looks_like_mrz.
  destruct (char_in (ch " ") line) eqn:E.
  { apply char_in_spec in E. contradiction. }
  cbv zeta. pose proof (valid_chars_range line) as Hv.
  rewrite !andb_true_iff, orb_true_iff, !Z.leb_le, char_in_spec.
  split.
  - intros [[[[Hlo Hhi] Hp] Hm] Hd].
    rewrite purity_exact in Hp by lia. apply Z.ltb_lt in Hp.
    repeat split; try lia; assumption.
  - intros [Hlen [Hp [Hm Hd]]].
    repeat split; try lia; try assumption.
    rewrite purity_exact by lia. apply Z.ltb_lt. exact Hp.
Qed.

Lemma looks_like_mrz_length line :
  MRZParser.looks_like_mrz line = true -> (35 <= length line <= 50)%nat.
Proof.
  unfold MRZParser.looks_like_mrz. destruct (char_in _ _); [discriminate|].
  cbv zeta. rewrite !andb_true_iff, !Z.leb_le. lia.
Qed.

(** C5, as the code selects lines. A normalized line holds no space. It
    is kept exactly when it has 35 to 50 characters, MORE than nine tenths
    of them alphanumeric or fillers, holds a filler, and starts with one
    of P, A, C, I, V or holds five fillers or more. With fewer than two
    lines kept the decoding returns nothing; so does it when every
    normalized line is shorter than 35 characters, and so does the TD3
    decoder on a pair one of whose lines is shorter than 35. *)
Theorem mrz_line_selection :
  (forall text line, In line (MRZParser.cleaned_lines text) -> ~ In (ch " ") line)
  /\ (forall line, ~ In (ch " ") line ->
        MRZParser.looks_like_mrz line = true
        <-> (35 <= length line <= 50)%nat
            /\ 9 * Z.of_nat (length line) < 10 * MRZParser.valid_chars line
            /\ In (ch "<") line
            /\ (MRZParser.starts_with_doc_type line = true
                \/ 5 <= Py.count (ch "<") line))
  /\ (forall text line,
        In line (MRZParser.mrz_lines_of text)
        <-> In line (MRZParser.cleaned_lines text)
            /\ MRZParser.looks_like_mrz line = true)
  /\ (forall text, (length (MRZParser.mrz_lines_of text) < 2)%nat ->
        MRZParser.parse_mrz text = None)
  /\ (forall text,
        (forall line, In line (MRZParser.cleaned_lines text) ->
                      (length line < 35)%nat) ->
        MRZParser.parse_mrz text = None)
  /\ (forall l1 l2 rest,
        (length (Py.strip l1) < 35)%nat \/ (length (Py.strip l2) < 35)%nat ->
        MRZParser.parse_td3_mrz (l1 :: l2 :: rest) = None).
Proof.
  split; [exact cleaned_lines_no_space|].
  split; [exact looks_like_mrz_spec|].
  split; [intros text line; apply filter_In|].
  split; [|split].
  - intros text Hlen. unfold MRZParser.parse_mrz.
    destruct (MRZParser.mrz_lines_of text) as [|l1 [|l2 rest]];
      [reflexivity | reflexivity | cbn in Hlen; lia].
  - intros text Hshort. unfold MRZParser.parse_mrz.
    destruct (MRZParser.mrz_lines_of text) as [|l1 rest] eqn:E; [reflexivity|].
    assert (Hin : In l1 (MRZParser.mrz_lines_of text)) by (rewrite E; left; reflexivity).
    apply filter_In in Hin as [Hc Hk].
    apply looks_like_mrz_length in Hk. specialize (Hshort l1 Hc). lia.
  - intros l1 l2 rest Hshort. unfold MRZParser.parse_td3_mrz.
    replace (_ || _) with true; [reflexivity|].
    symmetry. rewrite orb_true_iff, !Nat.ltb_lt. exact Hshort.
Qed.

End LineSelection.

(** C5, at the boundary: a normalized line of 40 characters, 36 of them
    (90%) alphanumeric or fillers, with a filler and starting with P, is
    not kept. *)
Lemma line_90_percent_rejected :
  MRZParser.cleaned_lines Examples.line_90_percent
  = [Examples.line_90_percent]
  /\ length Examples.line_90_percent = 40%nat
  /\ MRZParser.valid_chars (U := ascii_only) Examples.line_90_percent = 36
  /\ 10 * 36 >= 9 * 40
  /\ char_in (ch "<") Examples.line_90_percent = true
  /\ MRZParser.starts_with_doc_type Examples.line_90_percent = true
  /\ MRZParser.looks_like_mrz (U := ascii_only) Examples.line_90_percent = false
  /\ MRZParser.mrz_lines_of (U := ascii_only) Examples.line_90_percent = [].
Proof. repeat split; first [vm_compute; reflexivity | lia]. Qed.

(** ** The fallback of the region locator *)

Section Fallback.

Lemma all_from_spec n : forall h p,
  all_from n h p = true -> forall x, h <= x < h + Z.of_nat n -> p x = true.
Proof.
  induction n as [|n IH]; intros h p H x Hx; [lia|].
  cbn [all_from] in H. destruct (p h) eqn:Hp; [|discriminate H].
  destruct (Z.eq_dec x h) as [->|Hne]; [exact Hp|].
  apply (IH (h + 1) p H). lia.
Qed.

(** Below 65536 rows (the most a JPEG image can have), [int(h * 0.15)] is
    the exact quotient of [15 * h] by [100]: the rounding of the product
    never crosses an integer. *)
Lemma bottom_height_table :
  all_from (Z.to_nat 65536) 0
    (fun h => MRZDetector.bottom_height h =? 15 * h / 100) = true.
Proof. vm_compute. reflexivity. Qed.

Lemma bottom_height_exact h :
  0 <= h < 65536 -> MRZDetector.bottom_height h = 15 * h / 100.
Proof.
  intros Hh. apply Z.eqb_eq.
  apply (all_from_spec _ _ _ bottom_height_table h). lia.
Qed.

Lemma detect_mrz_no_candidate h w contours :
  contours <> [] ->
  MRZDetector.mrz_candidates h w contours = [] ->
  MRZDetector.detect_mrz h w contours
  = if 40 <? MRZDetector.bottom_height h
    then Some {| MRZDetector.y0 := h - MRZDetector.bottom_height h;
                 MRZDetector.y1 := h;
                 MRZDetector.x0 := 0; MRZDetector.x1 := w |}
    else None.
Proof.
  intros Hne Hc. unfold MRZDetector.detect_mrz.
  destruct contours as [|c rest]; [congruence|]. rewrite Hc. reflexivity.
Qed.

(** C9, as the code falls back. When no contour passes the geometric
    filter, what the locator does depends on whether any contour was
    found at all. With none found it returns nothing, whatever the size
    of the image. With contours found, an image of [h] rows and [w]
    columns gives its bottom [int(h * 0.15)] rows, over the full width,
    when that band is MORE than 40 rows tall, and nothing otherwise. For
    an image of fewer than 65536 rows the band has [15 * h / 100] rows
    (rounded down) and is more than 40 rows tall exactly when
    [h >= 274]; so a region is returned exactly when a contour was found
    and [h >= 274]. *)
Theorem detect_mrz_fallback (h w : Z) (contours : list MRZDetector.Rect) :
  MRZDetector.mrz_candidates h w contours = [] ->
  MRZDetector.detect_mrz h w contours
  = match contours with
    | [] => None
    | _ :: _ =>
        if 40 <? MRZDetector.bottom_height h
        then Some {| MRZDetector.y0 := h - MRZDetector.bottom_height h;
                     MRZDetector.y1 := h;
                     MRZDetector.x0 := 0; MRZDetector.x1 := w |}
        else None
    end
  /\ (forall r, MRZDetector.detect_mrz h w contours = Some r ->
        contours <> []
        /\ MRZDetector.region_rows r = MRZDetector.bottom_height h
        /\ 40 < MRZDetector.region_rows r
        /\ MRZDetector.region_cols r = Z.max 0 w)
  /\ (0 <= h < 65536 ->
      MRZDetector.bottom_height h = 15 * h / 100
      /\ (40 < MRZDetector.bottom_height h <-> 274 <= h)
      /\ (is_Some (MRZDetector.detect_mrz h w contours)
          <-> contours <> [] /\ 274 <= h)).
Proof.
  intros Hc.
  assert (Hd : MRZDetector.detect_mrz h w contours
               = match contours with
                 | [] => None
                 | _ :: _ =>
                     if 40 <? MRZDetector.bottom_height h
                     then Some {| MRZDetector.y0 := h - MRZDetector.bottom_height h;
                                  MRZDetector.y1 := h;
                                  MRZDetector.x0 := 0; MRZDetector.x1 := w |}
                     else None
                 end).
  { destruct contours as [|c rest]; [reflexivity|].
    apply detect_mrz_no_candidate; [discriminate | exact Hc]. }
  split; [exact Hd|]. split.
  - intros r Hr. rewrite Hd in Hr.
    destruct contours as [|c rest]; [discriminate Hr|].
    destruct (Z.ltb_spec 40 (MRZDetector.bottom_height h)) as [Hgt|];
      [|discriminate Hr].
    injection Hr as <-. unfold MRZDetector.region_rows, MRZDetector.region_cols.
    cbn. split; [discriminate|]. repeat split; [lia | lia | f_equal; lia].
  - intros Hh. pose proof (bottom_height_exact h Hh) as Hb.
    assert (Hiff : 40 < 15 * h / 100 <-> 274 <= h).
    { split; intros H.
      - destruct (Z_lt_le_dec h 274) as [Hlt|]; [|assumption].
        assert (15 * h / 100 <= 15 * 273 / 100) by (apply Z.div_le_mono; lia).
        change (15 * 273 / 100) with 40 in *. lia.
      - assert (15 * 274 / 100 <= 15 * h / 100) by (apply Z.div_le_mono; lia).
        change (15 * 274 / 100) with 41 in *. lia. }
    split; [exact Hb|]. rewrite Hb. split; [exact Hiff|].
    rewrite Hd, Hb. destruct contours as [|c rest].
    { split; [intros [r Hr]; discriminate Hr | intros [Hne _]; congruence]. }
    destruct (Z.ltb_spec 40 (15 * h / 100)) as [Hgt|Hle]; split; intros H.
    + split; [discriminate | apply Hiff; exact Hgt].
    + eexists. reflexivity.
    + destruct H as [r Hr]. discriminate Hr.
    + destruct H as [_ H]. apply Hiff in H. lia.
Qed.

End Fallback.

Lemma detect_mrz_fallback_witness :
  MRZDetector.mrz_candidates 800 600 [Examples.speck] = []
  /\ 0 <= 800 < 65536
  /\ MRZDetector.detect_mrz 800 600 [Examples.speck]
     = Some {| MRZDetector.y0 := 680; MRZDetector.y1 := 800;
               MRZDetector.x0 := 0; MRZDetector.x1 := 600 |}.
Proof.
  assert (H2 : MRZDetector.mrz_candidates 800 600 [Examples.speck] = [])
    by (vm_compute; reflexivity).
  assert (H3 : 0 <= 800 < 65536) by lia.
  split; [exact H2|]. split; [exact H3|].
  rewrite (proj1 (detect_mrz_fallback 800 600 _ H2)).
  vm_compute. reflexivity.
Defined.

(** C9, where the claim fails. An image 267 rows tall in which a contour
    was found and none passes the filter has a bottom band of
    [int(267 * 0.15) = 40] rows, and the locator returns nothing: 40 rows
    are not enough. And an image 300 rows tall in which no contour was
    found at all has a band of 45 rows, and the locator returns nothing
    either: the fallback is never tried without a contour. *)
Lemma detect_mrz_267_not_found :
  (MRZDetector.mrz_candidates 267 400 [Examples.speck] = []
   /\ MRZDetector.bottom_height 267 = 40
   /\ 40 >= 40
   /\ MRZDetector.detect_mrz 267 400 [Examples.speck] = None)
  /\ (MRZDetector.mrz_candidates 300 400 [] = []
      /\ MRZDetector.bottom_height 300 = 45
      /\ 45 > 40
      /\ MRZDetector.detect_mrz 300 400 [] = None).
Proof. repeat split; first [vm_compute; reflexivity | lia]. Qed.

(** ** The validator *)

Section Validator.
Context {U : Unicode}.
Import MRZParser PassportValidator.

Lemma append_app errors msg : append errors msg = errors ++ [msg].
Proof. reflexivity. Qed.

(** Every rule only appends: its effect on a list is its effect on the
    empty list, put at the end. *)
Lemma check_document_type_app data errors :
  check_document_type data errors = errors ++ check_document_type data [].
Proof.
  unfold check_document_type. destruct (negb _); cbn;
    [reflexivity | rewrite app_nil_r; reflexivity].
Qed.

Lemma check_issuing_country_app data errors :
  check_issuing_country data errors = errors ++ check_issuing_country data [].
Proof.
  unfold check_issuing_country. destruct (Py.upper _); cbn;
    [rewrite app_nil_r; reflexivity|].
  destruct (negb _); cbn; [reflexivity | rewrite app_nil_r; reflexivity].
Qed.

Lemma check_nationality_app data errors :
  check_nationality data errors = errors ++ check_nationality data [].
Proof.
  unfold check_nationality. destruct (Py.upper _); cbn;
    [rewrite app_nil_r; reflexivity|].
  destruct (negb _); cbn; [reflexivity | rewrite app_nil_r; reflexivity].
Qed.

Lemma check_checksums_app data errors :
  check_checksums data errors = errors ++ check_checksums data [].
Proof.
  unfold check_checksums. destruct (failed_critical _); cbn;
    [rewrite app_nil_r; reflexivity | reflexivity].
Qed.

Lemma new_1900 :
  Datetime.new 1900 1 1
  = Some {| Datetime.year := 1900; Datetime.month := 1; Datetime.day := 1;
            Datetime.hour := 0; Datetime.minute := 0;
            Datetime.second := 0; Datetime.microsecond := 0 |}.
Proof. reflexivity. Qed.

Lemma check_date_of_birth_app data today errors :
  check_date_of_birth data today errors
  = errors ++ check_date_of_birth data today [].
Proof.
  unfold check_date_of_birth. destruct (truthy _); [|reflexivity].
  destruct (Datetime.strptime_ymd _); [|reflexivity].
  rewrite new_1900.
  destruct (Datetime.gtb _ _), (Datetime.ltb _ _); cbn;
    rewrite ?app_nil_r, ?append_app, <- ?app_assoc; reflexivity.
Qed.

Lemma check_date_of_expiry_app data today errors :
  check_date_of_expiry data today errors
  = errors ++ check_date_of_expiry data today [].
Proof.
  unfold check_date_of_expiry. destruct (truthy _); [|reflexivity].
  destruct (Datetime.strptime_ymd _); [|reflexivity].
  destruct (Datetime.ltb _ _); cbn; [reflexivity | rewrite app_nil_r; reflexivity].
Qed.

Lemma check_required_app field value errors :
  check_required field value errors = errors ++ check_required field value [].
Proof.
  unfold check_required. destruct value; cbn;
    [reflexivity | rewrite app_nil_r; reflexivity].
Qed.

(** The violations of a record, rule by rule, in the order of the rules. *)
Lemma validate_passport_errors data today :
  snd (validate_passport data today)
  = check_document_type data []
    ++ check_issuing_country data []
    ++ check_nationality data []
    ++ check_checksums data []
    ++ check_date_of_birth data today []
    ++ check_date_of_expiry data today []
    ++ check_required "surname" (surname data) []
    ++ check_required "passport_number" (passport_number data) [].
Proof.
  unfold validate_passport. cbn [snd].
  rewrite check_required_app, check_required_app, check_date_of_expiry_app,
    check_date_of_birth_app, check_checksums_app, check_nationality_app,
    check_issuing_country_app.
  rewrite <- !app_assoc. reflexivity.
Qed.

Lemma validate_passport_verdict data today :
  fst (validate_passport data today) = true
  <-> snd (validate_passport data today) = [].
Proof.
  unfold validate_passport. cbn [fst snd].
  destruct (check_required _ _ _); split; intros H; first [reflexivity | discriminate H].
Qed.

(** What each rule's messages start with. *)
Lemma heads_nil cs : Spec.heads cs [].
Proof. constructor. Qed.

Lemma heads_one cs msg :
  Spec.starts_with_one_of (py cs) msg = true -> Spec.heads cs [msg].
Proof. intros H. constructor; [exact H | constructor]. Qed.

Lemma check_document_type_heads data : Spec.heads "I" (check_document_type data []).
Proof.
  unfold check_document_type. destruct (negb _);
    [apply heads_one; reflexivity | apply heads_nil].
Qed.

Lemma check_issuing_country_heads data : Spec.heads "I" (check_issuing_country data []).
Proof.
  unfold check_issuing_country. destruct (Py.upper _); [apply heads_nil|].
  destruct (negb _); [apply heads_one; reflexivity | apply heads_nil].
Qed.

Lemma check_nationality_heads data : Spec.heads "I" (check_nationality data []).
Proof.
  unfold check_nationality. destruct (Py.upper _); [apply heads_nil|].
  destruct (negb _); [apply heads_one; reflexivity | apply heads_nil].
Qed.

Lemma check_date_of_birth_heads data today :
  Spec.heads "DIM" (check_date_of_birth data today []).
Proof.
  unfold check_date_of_birth. destruct (truthy _); [|apply heads_one; reflexivity].
  destruct (Datetime.strptime_ymd _); [|apply heads_one; reflexivity].
  rewrite new_1900.
  destruct (Datetime.gtb _ _), (Datetime.ltb _ _);
    repeat first [apply heads_nil | constructor; [reflexivity|]].
Qed.

Lemma check_date_of_expiry_heads data today :
  Spec.heads "PIM" (check_date_of_expiry data today []).
Proof.
  unfold check_date_of_expiry. destruct (truthy _); [|apply heads_one; reflexivity].
  destruct (Datetime.strptime_ymd _); [|apply heads_one; reflexivity].
  destruct (Datetime.ltb _ _); [apply heads_one; reflexivity | apply heads_nil].
Qed.

Lemma check_checksums_heads data : Spec.heads "C" (check_checksums data []).
Proof.
  unfold check_checksums. destruct (failed_critical _);
    [apply heads_nil | apply heads_one; reflexivity].
Qed.

Lemma check_required_heads field value : Spec.heads "M" (check_required field value []).
Proof.
  unfold check_required. destruct value; [apply heads_one; reflexivity | apply heads_nil].
Qed.

Lemma heads_filter_nil cs (P : str -> bool) msgs :
  Spec.heads cs msgs ->
  (forall m, Spec.starts_with_one_of (py cs) m = true -> P m = false) ->
  List.filter P msgs = [].
Proof.
  intros H HP. induction H as [|m msgs Hm _ IH]; [reflexivity|].
  cbn. rewrite (HP m Hm). exact IH.
Qed.

Lemma heads_not_In cs msg msgs :
  Spec.heads cs msgs -> Spec.starts_with_one_of (py cs) msg = false -> ~ In msg msgs.
Proof.
  intros H Hm Hin. unfold Spec.heads in H. rewrite Forall_forall in H.
  apply list_elem_of_In in Hin. rewrite (H msg Hin) in Hm. discriminate Hm.
Qed.

End Validator.

Section ValidatorRules.
Context {U : Unicode}.
Import MRZParser PassportValidator.

Lemma startswith_app p s : Py.startswith p (p ++ s) = true.
Proof.
  induction p as [|c p IH]; [reflexivity|].
  cbn. rewrite IH, andb_true_r. apply char_eqb_spec. reflexivity.
Qed.

Lemma not_checksum_violation cs m :
  char_in (ch "C") (py cs) = false ->
  Spec.starts_with_one_of (py cs) m = true ->
  Spec.is_checksum_violation m = false.
Proof.
  intros Hcs Hm. destruct m as [|c m]; [discriminate Hm|].
  cbn in Hm. unfold Spec.is_checksum_violation.
  change Spec.checksum_message_prefix
    with (ch "C" :: py "ritical MRZ checksum validation failed: ").
  cbn [Py.startswith].
  destruct (char_eqb (ch "C") c) eqn:E; [|reflexivity].
  apply char_eqb_spec in E. subst c. rewrite Hm in Hcs. discriminate Hcs.
Qed.

Lemma failed_critical_In (cd : gmap string bool) k :
  In k (failed_critical cd)
  <-> In k Spec.critical_names /\ cd !! k <> Some true.
Proof.
  unfold failed_critical, critical_checks, Spec.critical_names.
  destruct (cd !! "passport_number"%string) as [[|]|] eqn:E1;
    destruct (cd !! "date_of_birth"%string) as [[|]|] eqn:E2;
    destruct (cd !! "date_of_expiry"%string) as [[|]|] eqn:E3;
    cbn; split;
    try (intros [Hk Hne]);
    repeat match goal with
           | H : _ \/ _ |- _ => destruct H as [<- | H]
           | H : False |- _ => destruct H
           end;
    try (intros H;
         repeat match goal with
                | H : _ \/ _ |- _ => destruct H as [<- | H]
                | H : False |- _ => destruct H
                end);
    try congruence; try (split; [tauto | congruence]); tauto.
Qed.

Lemma failed_critical_nil (cd : gmap string bool) :
  failed_critical cd = []
  <-> Forall (fun k => cd !! k = Some true) Spec.critical_names.
Proof.
  unfold failed_critical, critical_checks, Spec.critical_names.
  rewrite !Forall_cons, Forall_nil.
  destruct (cd !! "passport_number"%string) as [[|]|];
    destruct (cd !! "date_of_birth"%string) as [[|]|];
    destruct (cd !! "date_of_expiry"%string) as [[|]|];
    cbn; split; intros H; first [reflexivity | discriminate H | tauto | idtac];
    try (destruct H as (H1 & H2 & H3 & _); congruence).
Qed.

(** The verdict and the violations depend on the check map through the
    three critical entries alone, and not at all on the sex, the given
    names, the personal number or the aggregate flag. *)
Lemma validate_passport_critical_only data data' today :
  document_type data' = document_type data ->
  issuing_country data' = issuing_country data ->
  nationality data' = nationality data ->
  date_of_birth data' = date_of_birth data ->
  date_of_expiry data' = date_of_expiry data ->
  surname data' = surname data ->
  passport_number data' = passport_number data ->
  (forall k, In k Spec.critical_names ->
             check_digits data' !! k = check_digits data !! k) ->
  validate_passport data' today = validate_passport data today.
Proof.
  intros Ht Hi Hn Hb He Hs Hp Hc.
  unfold validate_passport, check_document_type, check_issuing_country,
    check_nationality, check_checksums, check_date_of_birth,
    check_date_of_expiry, failed_critical, critical_checks.
  rewrite Ht, Hi, Hn, Hb, He, Hs, Hp.
  rewrite !Hc by (cbn; tauto). reflexivity.
Qed.

(** C4: in the list of violations the validator returns, the checksum
    violations are decided by the three critical outcomes alone. The
    failing fields are those of the three whose outcome is not true; when
    there is none, no checksum violation is in the list; otherwise there is
    exactly one, and it names the failing fields in order. The
    personal-number and the composite outcome cause no violation of any
    kind: whatever they are set to, and whatever the aggregate flag says,
    the validator returns the same verdict and the same list; and when the
    three critical outcomes are true the list holds the violations of the
    other rules and nothing else. *)
Theorem checksum_rule (data : ParsedRecord) (today : Datetime.datetime) :
  (forall k, In k (failed_critical (check_digits data))
             <-> In k Spec.critical_names /\ check_digits data !! k <> Some true)
  /\ (failed_critical (check_digits data) = []
      <-> Forall (fun k => check_digits data !! k = Some true) Spec.critical_names)
  /\ List.filter Spec.is_checksum_violation (snd (validate_passport data today))
     = match failed_critical (check_digits data) with
       | [] => []
       | failed =>
           [Spec.checksum_message_prefix ++ Py.join (py ", ") (map py failed)]
       end
  /\ (forall v w,
        failed_critical
          (<["personal_number"%string := v]>
             (<["composite"%string := w]> (check_digits data)))
        = failed_critical (check_digits data))
  /\ (forall v w flag,
        validate_passport
          {| document_type := document_type data;
             issuing_country := issuing_country data;
             surname := surname data;
             given_names := given_names data;
             passport_number := passport_number data;
             nationality := nationality data;
             date_of_birth := date_of_birth data;
             sex := sex data;
             date_of_expiry := date_of_expiry data;
             personal_number := personal_number data;
             check_digits :=
               <["personal_number"%string := v]>
                 (<["composite"%string := w]> (check_digits data));
             valid_mrz_checksum := flag |} today
        = validate_passport data today)
  /\ (forall other,
        (forall k, In k Spec.critical_names ->
                   check_digits other !! k = check_digits data !! k) ->
        document_type other = document_type data ->
        issuing_country other = issuing_country data ->
        nationality other = nationality data ->
        date_of_birth other = date_of_birth data ->
        date_of_expiry other = date_of_expiry data ->
        surname other = surname data ->
        passport_number other = passport_number data ->
        validate_passport other today = validate_passport data today)
  /\ (Forall (fun k => check_digits data !! k = Some true) Spec.critical_names ->
      snd (validate_passport data today)
      = check_document_type data []
        ++ check_issuing_country data []
        ++ check_nationality data []
        ++ check_date_of_birth data today []
        ++ check_date_of_expiry data today []
        ++ check_required "surname" (surname data) []
        ++ check_required "passport_number" (passport_number data) []).
Proof.
  split; [intros k; apply failed_critical_In|].
  split; [apply failed_critical_nil|].
  split.
  - rewrite validate_passport_errors, !List.filter_app.
    rewrite (heads_filter_nil "I" Spec.is_checksum_violation _ (check_document_type_heads data))
      by (intros m; apply (not_checksum_violation "I" m); reflexivity).
    rewrite (heads_filter_nil "I" Spec.is_checksum_violation _ (check_issuing_country_heads data))
      by (intros m; apply (not_checksum_violation "I" m); reflexivity).
    rewrite (heads_filter_nil "I" Spec.is_checksum_violation _ (check_nationality_heads data))
      by (intros m; apply (not_checksum_violation "I" m); reflexivity).
    rewrite (heads_filter_nil "DIM" Spec.is_checksum_violation _ (check_date_of_birth_heads data today))
      by (intros m; apply (not_checksum_violation "DIM" m); reflexivity).
    rewrite (heads_filter_nil "PIM" Spec.is_checksum_violation _ (check_date_of_expiry_heads data today))
      by (intros m; apply (not_checksum_violation "PIM" m); reflexivity).
    rewrite !(heads_filter_nil "M" Spec.is_checksum_violation _ (check_required_heads _ _))
      by (intros m; apply (not_checksum_violation "M" m); reflexivity).
    cbn [app]. rewrite !app_nil_r.
    unfold check_checksums. destruct (failed_critical _) as [|k ks]; [reflexivity|].
    unfold append. cbn [app List.filter].
    unfold Spec.is_checksum_violation at 1. rewrite startswith_app. reflexivity.
  - split.
    { intros v w. unfold failed_critical, critical_checks.
      rewrite !(lookup_insert_ne _ "personal_number"%string) by discriminate.
      rewrite !(lookup_insert_ne _ "composite"%string) by discriminate.
      reflexivity. }
    split.
    { intros v w flag. apply validate_passport_critical_only; try reflexivity.
      intros k Hk. cbn [check_digits].
      assert (k <> "personal_number"%string /\ k <> "composite"%string) as [H1 H2].
      { cbn in Hk. destruct Hk as [<- | [<- | [<- | []]]]; split; discriminate. }
      rewrite lookup_insert_ne by congruence.
      rewrite lookup_insert_ne by congruence. reflexivity. }
    split.
    { intros other Hc Ht Hi Hn Hb He Hs Hp.
      apply validate_passport_critical_only; assumption. }
    intros Hall. rewrite validate_passport_errors.
    apply failed_critical_nil in Hall. unfold check_checksums at 1.
    rewrite Hall. reflexivity.
Qed.

Lemma ltb_midnight e today :
  Datetime.hour e = 0 -> Datetime.minute e = 0 ->
  Datetime.second e = 0 -> Datetime.microsecond e = 0 ->
  Spec.wellformed_time today ->
  Datetime.ltb e today = true
  <-> Spec.date_before e today
      \/ (Spec.same_date e today /\ Spec.past_midnight today).
Proof.
  intros Hh Hm Hs Hu (Wh & Wm & Ws & Wu).
  unfold Datetime.ltb, Datetime.compare, Spec.date_before, Spec.same_date,
    Spec.past_midnight.
  rewrite Hh, Hm, Hs, Hu. cbn [Datetime.lexico].
  destruct (Z.compare_spec (Datetime.year e) (Datetime.year today));
    [|split; [intros _ | reflexivity]; lia | split; [discriminate | lia]].
  destruct (Z.compare_spec (Datetime.month e) (Datetime.month today));
    [|split; [intros _ | reflexivity]; lia | split; [discriminate | lia]].
  destruct (Z.compare_spec (Datetime.day e) (Datetime.day today));
    [|split; [intros _ | reflexivity]; lia | split; [discriminate | lia]].
  destruct (Z.compare_spec 0 (Datetime.hour today));
    [|split; [intros _ | reflexivity]; lia | split; [discriminate | lia]].
  destruct (Z.compare_spec 0 (Datetime.minute today));
    [|split; [intros _ | reflexivity]; lia | split; [discriminate | lia]].
  destruct (Z.compare_spec 0 (Datetime.second today));
    [|split; [intros _ | reflexivity]; lia | split; [discriminate | lia]].
  destruct (Z.compare_spec 0 (Datetime.microsecond today));
    [|split; [intros _ | reflexivity]; lia | split; [discriminate | lia]].
  split; [discriminate | lia].
Qed.

Lemma new_midnight y m d e :
  Datetime.new y m d = Some e ->
  Datetime.hour e = 0 /\ Datetime.minute e = 0
  /\ Datetime.second e = 0 /\ Datetime.microsecond e = 0.
Proof.
  unfold Datetime.new. destruct (_ && _); [|discriminate].
  intros [= <-]. repeat split.
Qed.

Lemma strptime_midnight s e :
  Datetime.strptime_ymd s = Some e ->
  s <> []
  /\ Datetime.hour e = 0 /\ Datetime.minute e = 0
  /\ Datetime.second e = 0 /\ Datetime.microsecond e = 0.
Proof.
  intros H. split; [intros ->; discriminate H|].
  unfold Datetime.strptime_ymd in H.
  destruct s as [|y1 [|y2 [|y3 [|y4 rest]]]]; try discriminate H.
  split_binds H.
  match type of H with
  | match ?l with [] => _ | _ :: _ => _ end = _ =>
      destruct l; [|discriminate H]
  end.
  exact (new_midnight _ _ _ _ H).
Qed.

End ValidatorRules.

Section Expiry.
Context {U : Unicode}.
Import MRZParser PassportValidator.

Lemma expired_In_errors data today :
  In Spec.expired_message (snd (validate_passport data today))
  <-> In Spec.expired_message (check_date_of_expiry data today []).
Proof.
  rewrite validate_passport_errors, !in_app_iff.
  pose proof (heads_not_In "I" Spec.expired_message _
                (check_document_type_heads data) eq_refl).
  pose proof (heads_not_In "I" Spec.expired_message _
                (check_issuing_country_heads data) eq_refl).
  pose proof (heads_not_In "I" Spec.expired_message _
                (check_nationality_heads data) eq_refl).
  pose proof (heads_not_In "C" Spec.expired_message _
                (check_checksums_heads data) eq_refl).
  pose proof (heads_not_In "DIM" Spec.expired_message _
                (check_date_of_birth_heads data today) eq_refl).
  pose proof (heads_not_In "M" Spec.expired_message _
                (check_required_heads "surname" (surname data)) eq_refl).
  pose proof (heads_not_In "M" Spec.expired_message _
                (check_required_heads "passport_number" (passport_number data))
                eq_refl).
  tauto.
Qed.

Lemma check_date_of_expiry_parsed data today s e :
  date_of_expiry data = Some s ->
  Datetime.strptime_ymd s = Some e ->
  check_date_of_expiry data today []
  = if Datetime.ltb e today then [Spec.expired_message] else [].
Proof.
  intros Hs He. unfold check_date_of_expiry. rewrite Hs.
  destruct (strptime_midnight s e He) as [Hne _].
  destruct s as [|c s]; [congruence|].
  cbn [truthy]. change (default [] (Some (c :: s))) with (c :: s).
  cbv zeta. rewrite He. reflexivity.
Qed.

(** C7, as the code compares. For a record whose expiry date is present
    and parses, the violation "Passport has expired" is in the validator's
    list exactly when the expiry date, taken at midnight, is earlier than
    the instant of validation: always when the date is before the current
    date (yesterday), never when it is after (tomorrow), and, when it is
    the current date, as soon as the clock is past midnight. *)
Theorem expiry_rule (data : ParsedRecord) (today : Datetime.datetime)
    (s : str) (e : Datetime.datetime) :
  date_of_expiry data = Some s ->
  Datetime.strptime_ymd s = Some e ->
  Spec.wellformed_time today ->
  (In Spec.expired_message (snd (validate_passport data today))
   <-> Datetime.ltb e today = true)
  /\ (Spec.date_before e today ->
      In Spec.expired_message (snd (validate_passport data today)))
  /\ (Spec.date_before today e ->
      ~ In Spec.expired_message (snd (validate_passport data today)))
  /\ (Spec.same_date e today ->
      (In Spec.expired_message (snd (validate_passport data today))
       <-> Spec.past_midnight today)).
Proof.
  intros Hs He Hw.
  destruct (strptime_midnight s e He) as (_ & Hh & Hm & Hsec & Hu).
  pose proof (ltb_midnight e today Hh Hm Hsec Hu Hw) as Hlt.
  assert (Hin : In Spec.expired_message (snd (validate_passport data today))
                <-> Datetime.ltb e today = true).
  { rewrite expired_In_errors, (check_date_of_expiry_parsed data today s e Hs He).
    destruct (Datetime.ltb e today); cbn; split; intros H;
      first [reflexivity | discriminate H | tauto | left; reflexivity]. }
  split; [exact Hin|].
  unfold Spec.date_before, Spec.same_date, Spec.past_midnight in *.
  split; [intros Hb; apply Hin, Hlt; left; exact Hb|].
  split.
  - intros Hb Hi. apply Hin, Hlt in Hi. lia.
  - intros Hsame. rewrite Hin, Hlt. split; [|tauto].
    intros [Hb | [_ Hp]]; [lia | exact Hp].
Qed.

End Expiry.

Lemma expiry_rule_witness :
  MRZParser.date_of_expiry (Examples.sample_record (py "2030-06-14"))
  = Some (py "2030-06-14")
  /\ Datetime.strptime_ymd (U := ascii_only) (py "2030-06-14")
     = Datetime.new 2030 6 14
  /\ Spec.wellformed_time Examples.morning
  /\ In Spec.expired_message
       (snd (PassportValidator.validate_passport (U := ascii_only)
               (Examples.sample_record (py "2030-06-14")) Examples.morning)).
Proof.
  assert (Hs : MRZParser.date_of_expiry (Examples.sample_record (py "2030-06-14"))
               = Some (py "2030-06-14")) by reflexivity.
  assert (He : Datetime.strptime_ymd (U := ascii_only) (py "2030-06-14")
               = Datetime.new 2030 6 14) by (vm_compute; reflexivity).
  assert (Hw : Spec.wellformed_time Examples.morning)
    by (unfold Spec.wellformed_time; cbn; lia).
  split; [exact Hs|]. split; [exact He|]. split; [exact Hw|].
  apply (proj1 (proj2 (expiry_rule (U := ascii_only) _ _ _ _ Hs He Hw))).
  unfold Spec.date_before. cbn. lia.
Defined.

(** C7, on the day of expiry: a document that expires on 15 June 2030,
    validated that day at half past ten, gets the violation, though its
    expiry date is not earlier than the current date. *)
Lemma expiry_today_flagged :
  Datetime.strptime_ymd (U := ascii_only) (py "2030-06-15")
  = Datetime.new 2030 6 15
  /\ (Datetime.year Examples.morning, Datetime.month Examples.morning,
      Datetime.day Examples.morning) = (2030, 6, 15)
  /\ snd (PassportValidator.validate_passport (U := ascii_only)
            (Examples.sample_record (py "2030-06-15")) Examples.morning)
     = [Spec.expired_message]
  /\ fst (PassportValidator.validate_passport (U := ascii_only)
            (Examples.sample_record (py "2030-06-15")) Examples.morning)
     = false.
Proof. repeat split; vm_compute; reflexivity. Qed.

(** ** The pipeline *)

Section Pipeline.
Context {U : Unicode}.
Variable Image : Type.
Variable shape : Image -> Z * Z.
Variable find_contours : Image -> list MRZDetector.Rect.
Variable extract_mrz_text : Image -> MRZDetector.Region -> option str.

(** C3: when the region is located, the text is read and the decoding
    succeeds, [process_image] returns a result with [success] true that
    carries the decoded record. Its validity flag is the validator's
    verdict, which is false exactly when there are violations, and the
    violations, in the validator's order, are attached whenever there are
    any. No validation outcome makes the result a failure. *)
Theorem validation_is_data (debug : bool) (today : Datetime.datetime)
    (image : Image) (roi : MRZDetector.Region) (text : str)
    (record : MRZParser.ParsedRecord) :
  PassportOCR.detect_mrz Image shape find_contours image = Some roi ->
  extract_mrz_text image roi = Some text ->
  MRZParser.parse_mrz text = Some record ->
  exists res,
    PassportOCR.process_image Image shape find_contours extract_mrz_text
      debug today image = Some res
    /\ PassportOCR.success res = true
    /\ PassportOCR.error res = None
    /\ PassportOCR.parsed res = Some record
    /\ PassportOCR.valid_passport res
       = fst (PassportValidator.validate_passport record today)
    /\ (PassportOCR.valid_passport res = false
        <-> snd (PassportValidator.validate_passport record today) <> [])
    /\ (snd (PassportValidator.validate_passport record today) <> [] ->
        PassportOCR.validation_errors res
        = Some (snd (PassportValidator.validate_passport record today)))
    /\ (snd (PassportValidator.validate_passport record today) = [] ->
        PassportOCR.validation_errors res = None).
Proof.
  intros Hd Ht Hp. unfold PassportOCR.process_image.
  rewrite Hd, Ht. cbn [mbind option_bind]. rewrite Hp.
  pose proof (validate_passport_verdict record today) as Hv.
  destruct (PassportValidator.validate_passport record today) as [is_valid errors].
  cbn [fst snd] in *. eexists. split; [reflexivity|].
  cbn [PassportOCR.success PassportOCR.error PassportOCR.parsed
       PassportOCR.valid_passport PassportOCR.validation_errors].
  repeat split; try reflexivity.
  - intros Hf He. apply Hv in He. congruence.
  - intros Hne. destruct is_valid; [|reflexivity].
    exfalso. apply Hne, Hv. reflexivity.
  - destruct errors; [congruence | reflexivity].
  - intros ->. reflexivity.
Qed.

End Pipeline.

Lemma validation_is_data_witness :
  exists res,
    PassportOCR.process_image (U := ascii_only) Examples.Scan
      Examples.scan_shape Examples.scan_contours
      (fun image _ => Examples.scan_text image)
      false Examples.morning Examples.specimen_scan = Some res
    /\ PassportOCR.success res = true
    /\ PassportOCR.valid_passport res = false
    /\ PassportOCR.validation_errors res
       = Some [py "Critical MRZ checksum validation failed: date_of_birth";
               Spec.expired_message].
Proof.
  assert (He : (r ← MRZParser.parse_mrz (U := ascii_only) Examples.td3_text;
                Some (PassportValidator.validate_passport (U := ascii_only)
                        r Examples.morning))
               = Some (false,
                       [py "Critical MRZ checksum validation failed: date_of_birth";
                        Spec.expired_message]))
    by (vm_compute; reflexivity).
  destruct (PassportOCR.detect_mrz Examples.Scan Examples.scan_shape
              Examples.scan_contours Examples.specimen_scan) as [roi|] eqn:Hd;
    [|vm_compute in Hd; discriminate Hd].
  destruct (MRZParser.parse_mrz (U := ascii_only) Examples.td3_text)
    as [record|] eqn:Hp; [|discriminate He].
  cbn [mbind option_bind] in He.
  assert (He' : PassportValidator.validate_passport (U := ascii_only)
                  record Examples.morning
                = (false,
                   [py "Critical MRZ checksum validation failed: date_of_birth";
                    Spec.expired_message])) by congruence.
  clear He.
  destruct (validation_is_data (U := ascii_only) Examples.Scan Examples.scan_shape
              Examples.scan_contours (fun image _ => Examples.scan_text image)
              false Examples.morning Examples.specimen_scan roi Examples.td3_text
              record Hd eq_refl Hp)
    as (res & Hres & Hok & _ & _ & Hvalid & _ & Herrs & _).
  rewrite He' in Hvalid, Herrs. cbn [fst snd] in Hvalid, Herrs.
  exists res. split; [exact Hres|]. split; [exact Hok|].
  split; [exact Hvalid | apply Herrs; discriminate].
Defined.

(** ** Further properties of the decoder, the locator and the validator *)

Section Totality.
Context {U : Unicode}.

Lemma ljust_take_length n fill s : length (take n (Py.ljust n fill s)) = n.
Proof.
  unfold Py.ljust. rewrite length_take, length_app, length_replicate. lia.
Qed.

Lemma index_is_Some i s : (i < length s)%nat -> exists c, Py.index i s = Some c.
Proof.
  intros H. unfold Py.index.
  destruct (nth_error s i) as [c|] eqn:E; [exists c; reflexivity|].
  apply nth_error_None in E. lia.
Qed.

(** X1: the fixed-width extraction never raises: a pair of lines decodes
    exactly when both lines, stripped, have at least 35 characters. *)
Theorem parse_td3_mrz_total (l1 l2 : str) (rest : list str) :
  is_Some (MRZParser.parse_td3_mrz (l1 :: l2 :: rest))
  <-> (35 <= length (Py.strip l1))%nat /\ (35 <= length (Py.strip l2))%nat.
Proof.
  unfold MRZParser.parse_td3_mrz.
  destruct (_ || _) eqn:E.
  - apply orb_true_iff in E. rewrite !Nat.ltb_lt in E.
    split; [intros [r Hr]; discriminate Hr | lia].
  - apply orb_false_iff in E. rewrite !Nat.ltb_ge in E.
    split; [intros _; exact E | intros _].
    set (line1 := take 44 (Py.ljust 44 (ch "<") (Py.rstrip (py "KX") (Py.strip l1)))).
    set (line2 := take 44 (Py.ljust 44 (ch "<") (Py.rstrip (py "KX") (Py.strip l2)))).
    assert (H1 : length line1 = 44%nat) by apply ljust_take_length.
    assert (H2 : length line2 = 44%nat) by apply ljust_take_length.
    destruct (index_is_Some 0 line1 ltac:(lia)) as [c0 ->].
    destruct (index_is_Some 9 line2 ltac:(lia)) as [c9 ->].
    destruct (index_is_Some 19 line2 ltac:(lia)) as [c19 ->].
    destruct (index_is_Some 20 line2 ltac:(lia)) as [c20 ->].
    destruct (index_is_Some 27 line2 ltac:(lia)) as [c27 ->].
    destruct (index_is_Some 42 line2 ltac:(lia)) as [c42 ->].
    destruct (index_is_Some 43 line2 ltac:(lia)) as [c43 ->].
    cbn [mbind option_bind]. eexists. reflexivity.
Qed.

Lemma forallb_snd_Forall (l : list (string * bool)) :
  forallb snd l = true
  <-> Forall (uncurry (fun (_ : string) (v : bool) => v = true)) l.
Proof.
  induction l as [|[k v] l IH]; cbn.
  - split; [constructor | reflexivity].
  - rewrite andb_true_iff, Forall_cons, IH. reflexivity.
Qed.

(** X2: the aggregate flag of a decoded record is the conjunction of the five
    outcomes of its check map. *)
Theorem valid_mrz_checksum_all (lines : list str) (r : MRZParser.ParsedRecord) :
  MRZParser.parse_td3_mrz lines = Some r ->
  MRZParser.valid_mrz_checksum r = true
  <-> Forall (fun k => MRZParser.check_digits r !! k = Some true)
        ["passport_number"; "date_of_birth"; "date_of_expiry";
         "personal_number"; "composite"]%string.
Proof.
  intros H. unfold MRZParser.parse_td3_mrz in H.
  destruct lines as [|l1 [|l2 rest]]; try discriminate H.
  destruct (_ || _) in H; [discriminate H|].
  split_binds H.
  injection H as <-.
  cbn [MRZParser.valid_mrz_checksum MRZParser.check_digits].
  rewrite forallb_snd_Forall, <- map_Forall_to_list.
  rewrite !map_Forall_insert by (simplify_map_eq; reflexivity).
  rewrite map_Forall_singleton.
  rewrite !Forall_cons, Forall_nil.
  rewrite lookup_insert_eq.
  rewrite !(lookup_insert_ne _ "composite"%string) by discriminate.
  rewrite lookup_insert_eq.
  rewrite !(lookup_insert_ne _ "passport_number"%string) by discriminate.
  rewrite lookup_insert_eq.
  rewrite !(lookup_insert_ne _ "date_of_birth"%string) by discriminate.
  rewrite lookup_insert_eq.
  rewrite !(lookup_insert_ne _ "date_of_expiry"%string) by discriminate.
  rewrite lookup_singleton_eq.
  split; intros H; repeat split; try (f_equal; tauto); try tauto.
  all: decompose [and] H; congruence.
Qed.

End Totality.

Lemma valid_mrz_checksum_all_witness :
  exists r,
    MRZParser.parse_td3_mrz (U := ascii_only)
      [Examples.icao_line1; Examples.icao_line2] = Some r
    /\ MRZParser.valid_mrz_checksum r = true
    /\ Forall (fun k => MRZParser.check_digits r !! k = Some true)
         ["passport_number"; "date_of_birth"; "date_of_expiry";
          "personal_number"; "composite"]%string.
Proof.
  destruct (MRZParser.parse_td3_mrz (U := ascii_only)
              [Examples.icao_line1; Examples.icao_line2])
    as [r|] eqn:H; [|vm_compute in H; discriminate H].
  exists r.
  assert (Hv : MRZParser.valid_mrz_checksum r = true).
  { vm_compute in H. injection H as <-. reflexivity. }
  split; [reflexivity|]. split; [exact Hv|].
  exact (proj1 (valid_mrz_checksum_all (U := ascii_only) _ r H) Hv).
Defined.

Section CheckDigitRange.
Context {U : Unicode}.

(** The check digit, when the computation does not raise, is a digit from
    0 to 9. *)
Lemma calculate_check_digit_range (data : str) (d : Z) :
  MRZParser.calculate_check_digit data = Some d -> 0 <= d <= 9.
Proof.
  unfold MRZParser.calculate_check_digit.
  destruct (MRZParser.check_digit_loop 0 0 data) as [total|]; [|discriminate].
  cbn [mbind option_bind]. intros [= <-].
  pose proof (Z.mod_pos_bound total 10 ltac:(lia)). lia.
Qed.

End CheckDigitRange.

Section Locator.

(** X5: whatever region the locator returns starts inside the image and does
    not reach beyond its last row and column. *)
Theorem detect_mrz_within_image (h w : Z) (contours : list MRZDetector.Rect)
    (r : MRZDetector.Region) :
  0 <= h < 65536 ->
  MRZDetector.detect_mrz h w contours = Some r ->
  0 <= MRZDetector.y0 r /\ MRZDetector.y1 r <= h
  /\ 0 <= MRZDetector.x0 r /\ MRZDetector.x1 r <= w.
Proof.
  intros Hh. unfold MRZDetector.detect_mrz.
  destruct contours as [|c0 cs]; [discriminate|].
  destruct (MRZDetector.mrz_candidates h w (c0 :: cs)) as [|c rest].
  - rewrite (bottom_height_exact h Hh).
    destruct (40 <? 15 * h / 100); [|discriminate].
    intros [= <-]. cbn.
    assert (15 * h / 100 <= h)
      by (apply Z.div_le_upper_bound; lia).
    lia.
  - intros [= <-]. cbn. lia.
Qed.

End Locator.

Lemma detect_mrz_within_image_witness :
  0 <= 800 < 65536
  /\ MRZDetector.detect_mrz 800 600 [Examples.speck; Examples.band]
     = Some {| MRZDetector.y0 := 558; MRZDetector.y1 := 646;
               MRZDetector.x0 := 40; MRZDetector.x1 := 560 |}
  /\ (0 <= 558 /\ 646 <= 800 /\ 0 <= 40 /\ 560 <= 600).
Proof.
  assert (Hh : 0 <= 800 < 65536) by lia.
  assert (Hd : MRZDetector.detect_mrz 800 600 [Examples.speck; Examples.band]
               = Some {| MRZDetector.y0 := 558; MRZDetector.y1 := 646;
                         MRZDetector.x0 := 40; MRZDetector.x1 := 560 |})
    by (vm_compute; reflexivity).
  split; [exact Hh|]. split; [exact Hd|].
  exact (detect_mrz_within_image 800 600 _ _ Hh Hd).
Defined.

Section DateRoundTrip.
Context {U : Unicode}.

(** Over the years of the century window, the ISO text [parse_date] builds
    reads back, with the validator's [strptime], as the date it states. *)
Lemma iso_format_table :
  all_from 100 1950 (fun y =>
    all_from 12 1 (fun m =>
      all_from 31 1 (fun d =>
        match Datetime.strptime_ymd (MRZParser.iso_format y m d),
              Datetime.new y m d with
        | Some a, Some b =>
            (Datetime.year a =? Datetime.year b)
            && (Datetime.month a =? Datetime.month b)
            && (Datetime.day a =? Datetime.day b)
        | _, None => true
        | None, Some _ => false
        end))) = true.
Proof. vm_compute. reflexivity. Qed.

Lemma iso_format_strptime y m d e :
  1950 <= y <= 2049 -> 1 <= m <= 12 -> 1 <= d <= 31 ->
  Datetime.new y m d = Some e ->
  Datetime.strptime_ymd (MRZParser.iso_format y m d) = Some e.
Proof.
  intros Hy Hm Hd He.
  pose proof (all_from_spec _ _ _ iso_format_table y ltac:(lia)) as T.
  pose proof (all_from_spec _ _ _ T m ltac:(lia)) as T'.
  pose proof (all_from_spec _ _ _ T' d ltac:(lia)) as T''.
  cbv beta in T''. rewrite He in T''.
  destruct (Datetime.strptime_ymd _) as [a|] eqn:Ha; [|discriminate T''].
  rewrite !andb_true_iff, !Z.eqb_eq in T''. destruct T'' as [[Ty Tm] Td].
  destruct (strptime_midnight _ _ Ha) as (_ & Hh & Hmi & Hs & Hu).
  destruct (new_midnight _ _ _ _ He) as (Hh' & Hmi' & Hs' & Hu').
  f_equal. destruct a, e. cbn in *. congruence.
Qed.

(** X7: a date the decoder returns is one the validator can read: it parses
    back to a day of the years 1950 to 2049, so a decoded record never
    gets an "Invalid ... format" violation for it. *)
Theorem parse_date_reads_back (s d : str) :
  MRZParser.parse_date s = Some d ->
  exists e, Datetime.strptime_ymd d = Some e
            /\ 1950 <= Datetime.year e <= 2049.
Proof.
  intros H.
  destruct s as [|c1 [|c2 [|c3 [|c4 [|c5 [|c6 [|c7 s]]]]]]]; try discriminate H.
  rewrite parse_date_six in H.
  destruct (Py.decimal_value c1) as [y1|] eqn:E1; [|discriminate H].
  destruct (Py.decimal_value c2) as [y2|] eqn:E2; [|discriminate H].
  destruct (Py.decimal_value c3) as [m1|] eqn:E3; [|discriminate H].
  destruct (Py.decimal_value c4) as [m2|] eqn:E4; [|discriminate H].
  destruct (Py.decimal_value c5) as [d1|] eqn:E5; [|discriminate H].
  destruct (Py.decimal_value c6) as [d2|] eqn:E6; [|discriminate H].
  cbv zeta in H.
  destruct (decide _) as [Hv|]; [|discriminate H]. injection H as <-.
  apply decimal_value_range in E1, E2.
  pose proof (century_range (10 * y1 + y2) ltac:(lia)) as Hy.
  destruct Hv as [Hm Hd].
  assert (Hd' : 1 <= 10 * d1 + d2 <= 31).
  { split; [lia|]. etransitivity; [exact (proj2 Hd)|].
    unfold Spec.month_length. repeat destruct (decide _); lia. }
  pose proof (new_calendar_valid (Spec.century (10 * y1 + y2))
                (10 * m1 + m2) (10 * d1 + d2) ltac:(lia)) as Hn.
  destruct (decide _) as [_|Hn']; [|exfalso; apply Hn'; split; assumption].
  eexists. split; [exact (iso_format_strptime _ _ _ _ Hy Hm Hd' Hn)|].
  cbn. exact Hy.
Qed.

End DateRoundTrip.

Lemma parse_date_reads_back_witness :
  MRZParser.parse_date (U := ascii_only) (py "840229") = Some (py "1984-02-29")
  /\ exists e, Datetime.strptime_ymd (U := ascii_only) (py "1984-02-29") = Some e
               /\ 1950 <= Datetime.year e <= 2049.
Proof.
  assert (H : MRZParser.parse_date (U := ascii_only) (py "840229")
              = Some (py "1984-02-29")) by (vm_compute; reflexivity).
  split; [exact H | exact (parse_date_reads_back (U := ascii_only) _ _ H)].
Defined.

(** ** Further properties of the check digit *)

Section CheckDigitMore.
Context {U : Unicode}.

Lemma zsum_app l1 l2 : Spec.zsum (l1 ++ l2) = Spec.zsum l1 + Spec.zsum l2.
Proof.
  unfold Spec.zsum. induction l1 as [|x l1 IH]; cbn; [reflexivity|].
  rewrite IH. lia.
Qed.

(** The weighted sum of a string, split around one of its characters. *)
Lemma check_digit_split pre c post :
  Forall (fun x => Spec.mrz_char x = true) (pre ++ c :: post) ->
  exists rest,
    MRZParser.calculate_check_digit (pre ++ c :: post)
    = Some ((rest + Spec.value c * Spec.weight (length pre)) mod 10)
    /\ forall c', Spec.mrz_char c' = true ->
         MRZParser.calculate_check_digit (pre ++ c' :: post)
         = Some ((rest + Spec.value c' * Spec.weight (length pre)) mod 10).
Proof.
  intros H.
  assert (Hpre : Forall (fun x => Spec.mrz_char x = true) pre)
    by (apply Forall_app in H; tauto).
  assert (Hpost : Forall (fun x => Spec.mrz_char x = true) post).
  { apply Forall_app in H as [_ H]. inversion H; assumption. }
  assert (Hgen : forall x, Spec.mrz_char x = true ->
            MRZParser.calculate_check_digit (pre ++ x :: post)
            = Some ((Spec.zsum (imap (fun j y => Spec.value y * Spec.weight (0 + j)) pre)
                     + Spec.zsum (imap (fun j y => Spec.value y
                                             * Spec.weight (0 + (length pre + S j))) post)
                     + Spec.value x * Spec.weight (length pre)) mod 10)).
  { intros x Hx. unfold MRZParser.calculate_check_digit.
    rewrite check_digit_loop_sum
      by (apply Forall_app; split; [assumption | constructor; assumption]).
    cbn [mbind option_bind]. f_equal. f_equal.
    rewrite imap_app, zsum_app. cbn [imap]. unfold Spec.zsum at 2. cbn [foldr].
    fold (Spec.zsum (imap ((fun n y => Spec.value y * Spec.weight (0 + (length pre + n))) ∘ S) post)).
    rewrite Nat.add_0_r. cbn [Nat.add].
    replace (imap ((fun n y => Spec.value y * Spec.weight (length pre + n)) ∘ S) post)
      with (imap (fun j y => Spec.value y * Spec.weight (length pre + S j)) post)
      by (apply imap_ext; intros; reflexivity).
    lia. }
  eexists. split; [apply Hgen | exact Hgen].
  apply Forall_app in H as [_ H]. inversion H; assumption.
Qed.

Lemma weight_cases i : Spec.weight i = 7 \/ Spec.weight i = 3 \/ Spec.weight i = 1.
Proof.
  unfold Spec.weight. destruct (i mod 3)%nat as [|[|n]]; tauto.
Qed.

Lemma digit_value a :
  between (ch "0") (ch "9") a = true ->
  Spec.mrz_char a = true /\ Spec.value a = ord a - 48 /\ 0 <= Spec.value a <= 9.
Proof.
  intros Ha. pose proof Ha as Hb. apply between_spec in Hb.
  change (ch "0") with 48%N in Hb. change (ch "9") with 57%N in Hb.
  assert (Hv : Spec.value a = ord a - 48).
  { unfold Spec.value. rewrite Ha.
    destruct (char_eqb a (ch "<")) eqn:E; [|reflexivity].
    apply char_eqb_spec in E. subst a. change (ch "<") with 60%N in Hb. lia. }
  split; [unfold Spec.mrz_char; rewrite Ha, orb_true_r; reflexivity|].
  split; [exact Hv|]. rewrite Hv. unfold ord. lia.
Qed.

(** X8: the check digit notices any single digit read as another digit:
    in a string over the MRZ alphabet, replacing one digit by a different
    digit changes the check digit, so a field that verified against its
    check digit no longer does. *)
Theorem check_digit_detects_digit_change (pre post : str) (a b : char)
    (check_digit : str) :
  Forall (fun c => Spec.mrz_char c = true) pre ->
  Forall (fun c => Spec.mrz_char c = true) post ->
  between (ch "0") (ch "9") a = true ->
  between (ch "0") (ch "9") b = true ->
  a <> b ->
  MRZParser.calculate_check_digit (pre ++ a :: post)
  <> MRZParser.calculate_check_digit (pre ++ b :: post)
  /\ (MRZParser.verify_check_digit (pre ++ a :: post) check_digit = true ->
      MRZParser.verify_check_digit (pre ++ b :: post) check_digit = false).
Proof.
  intros Hpre Hpost Ha Hb Hne.
  destruct (digit_value a Ha) as (Ma & Va & Ra).
  destruct (digit_value b Hb) as (Mb & Vb & Rb).
  destruct (check_digit_split pre a post) as (rest & Ea & Eall).
  { apply Forall_app; split; [assumption | constructor; assumption]. }
  pose proof (Eall b Mb) as Eb.
  assert (Hdiff : (rest + Spec.value a * Spec.weight (length pre)) mod 10
                  <> (rest + Spec.value b * Spec.weight (length pre)) mod 10).
  { assert (Hv : Spec.value a <> Spec.value b).
    { rewrite Va, Vb. unfold ord. intros Heq. apply Hne. lia. }
    intros Heq.
    destruct (weight_cases (length pre)) as [W | [W | W]];
      rewrite W in Heq; apply Hv; Z.div_mod_to_equations; lia. }
  assert (Hcalc : MRZParser.calculate_check_digit (pre ++ a :: post)
                  <> MRZParser.calculate_check_digit (pre ++ b :: post)).
  { rewrite Ea, Eb. intros [= Heq]. exact (Hdiff Heq). }
  split; [exact Hcalc|].
  unfold MRZParser.verify_check_digit. rewrite Ea, Eb.
  destruct (Py.str_isdigit check_digit).
  - destruct (Py.int_of_str check_digit) as [actual|]; [|discriminate].
    rewrite Z.eqb_eq. intros <-. apply Z.eqb_neq. intros Heq.
    apply Hdiff. symmetry. exact Heq.
  - rewrite Z.eqb_eq. intros Heq.
    pose proof (Z.mod_pos_bound (rest + Spec.value a * Spec.weight (length pre)) 10
                  ltac:(lia)). lia.
Qed.

(** X9: verification accepts exactly the digit strings that [int] reads
    as the computed check digit: strings of decimal digits, at most 4300
    of them, whose value is that digit. A check position that holds a
    filler, a letter or any other non-digit never verifies, whatever the
    data, and neither does a string of more than 4300 digits, on which
    [int] raises. *)
Theorem verify_check_digit_exact (data check_digit : str) :
  (MRZParser.verify_check_digit data check_digit = true
   <-> exists d, MRZParser.calculate_check_digit data = Some d
                 /\ Py.str_isdigit check_digit = true
                 /\ Z.of_nat (length check_digit) <= Py.max_str_digits
                 /\ Py.int_digits 0 check_digit = Some d)
  /\ (Py.str_isdigit check_digit = false ->
      MRZParser.verify_check_digit data check_digit = false)
  /\ MRZParser.verify_check_digit data (py "<") = false
  /\ (Py.max_str_digits < Z.of_nat (length check_digit) ->
      MRZParser.verify_check_digit data check_digit = false)
  /\ (forall d, MRZParser.calculate_check_digit data = Some d -> 0 <= d <= 9).
Proof.
  assert (Hfalse : forall chk, Py.str_isdigit chk = false ->
                     MRZParser.verify_check_digit data chk = false).
  { intros chk Hd. unfold MRZParser.verify_check_digit.
    destruct (MRZParser.calculate_check_digit data) as [e|] eqn:E; [|reflexivity].
    rewrite Hd. apply Z.eqb_neq.
    pose proof (calculate_check_digit_range data e E). lia. }
  assert (Hint : Py.int_of_str check_digit
                 = match check_digit with
                   | [] => None
                   | _ => if Py.max_str_digits <? Z.of_nat (length check_digit)
                          then None else Py.int_digits 0 check_digit
                   end) by reflexivity.
  split; [|split; [apply Hfalse | split; [apply Hfalse; reflexivity|]]];
    [| split; [|apply calculate_check_digit_range]].
  - split.
    + intros H. destruct (Py.str_isdigit check_digit) eqn:Hd;
        [|rewrite (Hfalse _ Hd) in H; discriminate H].
      unfold MRZParser.verify_check_digit in H.
      destruct (MRZParser.calculate_check_digit data) as [e|]; [|discriminate H].
      rewrite Hd, Hint in H.
      destruct check_digit as [|c chk]; [discriminate H|].
      destruct (Z.ltb_spec Py.max_str_digits (Z.of_nat (length (c :: chk))))
        as [Hlong | Hshort]; [discriminate H|].
      destruct (Py.int_digits 0 (c :: chk)) as [actual|]; [|discriminate H].
      apply Z.eqb_eq in H. subst. exists actual. repeat split. exact Hshort.
    + intros (d & Hc & Hd & Hl & Hi). unfold MRZParser.verify_check_digit.
      rewrite Hc, Hd, Hint.
      destruct check_digit as [|c chk]; [discriminate Hd|].
      rewrite (proj2 (Z.ltb_ge _ _) Hl), Hi. apply Z.eqb_refl.
  - intros Hlong.
    destruct (Py.str_isdigit check_digit) eqn:Hd; [|exact (Hfalse _ Hd)].
    unfold MRZParser.verify_check_digit.
    destruct (MRZParser.calculate_check_digit data) as [e|]; [|reflexivity].
    rewrite Hd, Hint. destruct check_digit as [|c chk]; [reflexivity|].
    rewrite (proj2 (Z.ltb_lt _ _) Hlong). reflexivity.
Qed.

End CheckDigitMore.

Lemma check_digit_detects_digit_change_witness :
  MRZParser.calculate_check_digit (U := ascii_only) (py "6908" ++ ch "0" :: py "6")
  <> MRZParser.calculate_check_digit (U := ascii_only) (py "6908" ++ ch "8" :: py "6")
  /\ (MRZParser.verify_check_digit (U := ascii_only)
        (py "6908" ++ ch "0" :: py "6") (py "1") = true ->
      MRZParser.verify_check_digit (U := ascii_only)
        (py "6908" ++ ch "8" :: py "6") (py "1") = false).
Proof.
  apply (check_digit_detects_digit_change (U := ascii_only)
           (py "6908") (py "6") (ch "0") (ch "8") (py "1")).
  - repeat constructor.
  - repeat constructor.
  - reflexivity.
  - reflexivity.
  - discriminate.
Defined.

(** ** Stripping and replacing *)

Section Strings.

Lemma lstrip_with_head p s :
  match Py.lstrip_with p s with [] => True | c :: _ => p c = false end.
Proof.
  induction s as [|c s IH]; cbn; [exact I|].
  destruct (p c) eqn:E; [exact IH | exact E].
Qed.

Lemma lstrip_with_id p s :
  match s with [] => True | c :: _ => p c = false end ->
  Py.lstrip_with p s = s.
Proof. destruct s as [|c s]; cbn; [reflexivity|]. intros ->. reflexivity. Qed.

Lemma lstrip_with_suffix p s : exists pre, s = pre ++ Py.lstrip_with p s.
Proof.
  induction s as [|c s [pre IH]]; cbn; [exists []; reflexivity|].
  destruct (p c); [exists (c :: pre); cbn; f_equal; exact IH | exists []; reflexivity].
Qed.

Lemma rstrip_with_prefix p s : exists suf, s = Py.rstrip_with p s ++ suf.
Proof.
  unfold Py.rstrip_with. destruct (lstrip_with_suffix p (rev s)) as [pre H].
  exists (rev pre). rewrite <- rev_app_distr, <- H, rev_involutive. reflexivity.
Qed.

Lemma rstrip_with_last p s :
  match rev (Py.rstrip_with p s) with [] => True | c :: _ => p c = false end.
Proof. unfold Py.rstrip_with. rewrite rev_involutive. apply lstrip_with_head. Qed.

Lemma rstrip_with_keeps_head p s :
  match s with [] => True | c :: _ => p c = false end ->
  match Py.rstrip_with p s with [] => True | c :: _ => p c = false end.
Proof.
  intros H. destruct (rstrip_with_prefix p s) as [suf E].
  destruct (Py.rstrip_with p s) as [|c t]; [exact I|].
  rewrite E in H. exact H.
Qed.

Lemma strip_trimmed s : trimmed (Py.strip s).
Proof.
  unfold trimmed, Py.strip. split.
  - apply rstrip_with_keeps_head, lstrip_with_head.
  - apply rstrip_with_last.
Qed.

Lemma rstrip_with_id p s :
  match rev s with [] => True | c :: _ => p c = false end ->
  Py.rstrip_with p s = s.
Proof.
  intros H. unfold Py.rstrip_with. rewrite (lstrip_with_id p (rev s) H).
  apply rev_involutive.
Qed.

Lemma strip_id s : trimmed s -> Py.strip s = s.
Proof.
  intros [Hh Hl]. unfold Py.strip.
  rewrite (lstrip_with_id _ s Hh). apply rstrip_with_id. exact Hl.
Qed.

Lemma replace_length_le c s : (length (Py.replace c [] s) <= length s)%nat.
Proof.
  unfold Py.replace. induction s as [|x s IH]; cbn; [lia|].
  destruct (char_eqb x c); cbn; lia.
Qed.

Lemma replace_nil_not_In c s : ~ In c (Py.replace c [] s).
Proof. intros H. apply replace_In in H as [[_ H] | []]. apply H. reflexivity. Qed.

Lemma slice_length a b s : (length (Py.slice a b s) <= b - a)%nat.
Proof. unfold Py.slice. rewrite length_take. lia. Qed.

End Strings.

(** ** What a decoded record can hold *)

Section RecordShape.
Context {U : Unicode}.

Lemma fix_country_code_shape code :
  length (MRZParser.fix_country_code code) = length code
  /\ forall x, In x (MRZParser.fix_country_code code) -> In x code \/ x = ch "I".
Proof.
  unfold MRZParser.fix_country_code.
  change (py "1") with [49%N]. change (py "I") with [73%N].
  change (ch "I") with 73%N.
  destruct code as [|a [|b [|c [|d code]]]]; cbn -[char_eqb];
    rewrite ?andb_false_r; cbn -[char_eqb]; try (split; [reflexivity | tauto]).
  destruct (char_eqb 49 a); cbn -[char_eqb]; destruct (char_eqb 49 c);
    cbn -[char_eqb];
    (split; [reflexivity | intros x Hx; cbn in Hx |- *; intuition auto]).
Qed.

Lemma name_part_no_filler s : ~ In (ch "<") (MRZParser.name_part s).
Proof.
  unfold MRZParser.name_part, Py.strip. intros H.
  apply rstrip_with_In, lstrip_with_In, replace_In in H.
  destruct H as [[_ H] | [H | []]]; [apply H; reflexivity | discriminate H].
Qed.

Lemma country_no_filler s :
  ~ In (ch "<") (MRZParser.fix_country_code (Py.replace (ch "<") [] s)).
Proof.
  intros H. apply (proj2 (fix_country_code_shape _)) in H as [H | H];
    [exact (replace_nil_not_In _ _ H) | discriminate H].
Qed.

Lemma country_length a s :
  (length (MRZParser.fix_country_code
             (Py.replace (ch "<") [] (Py.slice a (a + 3) s))) <= 3)%nat.
Proof.
  rewrite (proj1 (fix_country_code_shape _)).
  pose proof (replace_length_le (ch "<") (Py.slice a (a + 3) s)).
  pose proof (slice_length a (a + 3) s). lia.
Qed.

(** X10: in every decoded record the document type is one character, the
    sex is M, F or X, no text field holds a filler, the passport number has
    at most 9 characters, each country code at most 3 and the personal
    number at most 14, and the two names carry no whitespace at either
    end. *)
Theorem parsed_record_shape (lines : list str) (r : MRZParser.ParsedRecord) :
  MRZParser.parse_td3_mrz lines = Some r ->
  length (MRZParser.document_type r) = 1%nat
  /\ (MRZParser.sex r = py "M" \/ MRZParser.sex r = py "F"
      \/ MRZParser.sex r = py "X")
  /\ Forall (fun field => ~ In (ch "<") field)
       [MRZParser.issuing_country r; MRZParser.surname r;
        MRZParser.given_names r; MRZParser.passport_number r;
        MRZParser.nationality r; MRZParser.personal_number r]
  /\ (length (MRZParser.passport_number r) <= 9)%nat
  /\ (length (MRZParser.issuing_country r) <= 3)%nat
  /\ (length (MRZParser.nationality r) <= 3)%nat
  /\ (length (MRZParser.personal_number r) <= 14)%nat
  /\ trimmed (MRZParser.surname r)
  /\ trimmed (MRZParser.given_names r).
Proof.
  intros H. unfold MRZParser.parse_td3_mrz in H.
  destruct lines as [|l1 [|l2 rest]]; try discriminate H.
  destruct (_ || _) in H; [discriminate H|].
  split_binds H. injection H as <-.
  cbn [MRZParser.document_type MRZParser.sex MRZParser.issuing_country
       MRZParser.surname MRZParser.given_names MRZParser.passport_number
       MRZParser.nationality MRZParser.personal_number].
  split; [reflexivity|]. split.
  { match goal with
    | |- context [if ?b then [_] else _] => destruct b eqn:E
    end; [|tauto].
    rewrite !orb_true_iff in E.
    destruct E as [E | [E | [E | E]]]; try discriminate E;
      apply char_eqb_spec in E; subst;
      [left | right; left | right; right]; reflexivity. }
  split.
  { repeat apply Forall_cons_2; try apply Forall_nil_2.
    - apply country_no_filler.
    - destruct (Py.split _ _); [tauto | apply name_part_no_filler].
    - destruct (Py.split _ _) as [|? [|? ?]]; try tauto. apply name_part_no_filler.
    - apply replace_nil_not_In.
    - apply country_no_filler.
    - apply replace_nil_not_In. }
  split.
  { eapply Nat.le_trans; [apply replace_length_le|].
    eapply Nat.le_trans; [apply (slice_length 0 9) | lia]. }
  split; [apply (country_length 2)|].
  split; [apply (country_length 10)|].
  split.
  { eapply Nat.le_trans; [apply replace_length_le|].
    eapply Nat.le_trans; [apply (slice_length 28 42) | lia]. }
  split.
  - destruct (Py.split _ _); [split; exact I | apply strip_trimmed].
  - destruct (Py.split _ _) as [|? [|? ?]]; try (split; exact I). apply strip_trimmed.
Qed.

End RecordShape.

Lemma parsed_record_shape_witness :
  exists r,
    MRZParser.parse_td3_mrz (U := ascii_only)
      [Examples.icao_line1; Examples.icao_line2] = Some r
    /\ MRZParser.sex r = py "F"
    /\ (length (MRZParser.passport_number r) <= 9)%nat
    /\ ~ In (ch "<") (MRZParser.passport_number r)
    /\ trimmed (MRZParser.given_names r).
Proof.
  destruct (MRZParser.parse_td3_mrz (U := ascii_only)
              [Examples.icao_line1; Examples.icao_line2])
    as [r|] eqn:H; [|vm_compute in H; discriminate H].
  exists r.
  assert (Hs : MRZParser.sex r = py "F").
  { vm_compute in H. injection H as <-. reflexivity. }
  pose proof (parsed_record_shape (U := ascii_only) _ r H)
    as (_ & _ & Hf & Hp & _ & _ & _ & _ & Hg).
  split; [reflexivity|]. split; [exact Hs|]. split; [exact Hp|].
  split; [|exact Hg].
  inversion Hf as [|? ? _ Hf1]. inversion Hf1 as [|? ? _ Hf2].
  inversion Hf2 as [|? ? _ Hf3]. inversion Hf3 as [|? ? Hpn _]. exact Hpn.
Defined.

(** ** Spaces and dashes in the recognised text *)

Section Normalisation.
Context {U : Unicode}.

Lemma replace_cons c r x s :
  Py.replace c r (x :: s)
  = (if char_eqb x c then r else [x]) ++ Py.replace c r s.
Proof. reflexivity. Qed.

Lemma replace_app c r s t :
  Py.replace c r (s ++ t) = Py.replace c r s ++ Py.replace c r t.
Proof. unfold Py.replace. apply flat_map_app. Qed.

Lemma mild_rev c r : mild c r -> rev r = r.
Proof. intros [_ [[-> _] | (c' & -> & _)]]; reflexivity. Qed.

Lemma replace_rev c r s :
  mild c r -> Py.replace c r (rev s) = rev (Py.replace c r s).
Proof.
  intros Hm. induction s as [|x s IH]; [reflexivity|].
  cbn [rev]. rewrite replace_app, IH.
  rewrite (replace_cons c r x s), rev_app_distr. f_equal.
  rewrite (replace_cons c r x []). change (Py.replace c r []) with (@nil char).
  rewrite app_nil_r.
  destruct (char_eqb x c); [symmetry; apply (mild_rev c); exact Hm | reflexivity].
Qed.

Lemma lstrip_replace c r s :
  mild c r ->
  Py.lstrip_with Py.isspace (Py.replace c r s)
  = Py.replace c r (Py.lstrip_with Py.isspace s).
Proof.
  intros Hm. induction s as [|x s IH]; [reflexivity|].
  rewrite replace_cons. cbn [Py.lstrip_with].
  destruct (char_eqb x c) eqn:E.
  - apply char_eqb_spec in E. subst x.
    destruct Hm as [Hn [[-> Hs] | (c' & -> & Hn' & Hs & Hs')]].
    + rewrite Hs. exact IH.
    + rewrite Hs. cbn [app Py.lstrip_with]. rewrite Hs'.
      rewrite replace_cons.
      rewrite (proj2 (char_eqb_spec c c) eq_refl). reflexivity.
  - cbn [app Py.lstrip_with]. destruct (Py.isspace x); [exact IH|].
    rewrite replace_cons, E. reflexivity.
Qed.

Lemma strip_replace c r s :
  mild c r -> Py.strip (Py.replace c r s) = Py.replace c r (Py.strip s).
Proof.
  intros Hm. unfold Py.strip, Py.rstrip_with.
  rewrite lstrip_replace, <- replace_rev, lstrip_replace, replace_rev
    by exact Hm.
  reflexivity.
Qed.

Lemma split_go_replace c r s : mild c r -> forall cur,
  Py.split_go [10%N] 0 (rev (Py.replace c r (rev cur))) (Py.replace c r s)
  = map (Py.replace c r) (Py.split_go [10%N] 0 cur s).
Proof.
  intros Hm. induction s as [|x s IH]; intros cur.
  - cbn. rewrite rev_involutive. reflexivity.
  - assert (Hstep : forall (y : char) (t cur' : str), y <> 10%N ->
              Py.split_go [10%N] 0 cur' (y :: t)
              = Py.split_go [10%N] 0 (y :: cur') t).
    { intros y t cur' Hy. cbn [Py.split_go Py.startswith].
      destruct (char_eqb 10 y) eqn:E; [|reflexivity].
      apply char_eqb_spec in E. congruence. }
    assert (Hcur : forall y : char, rev (Py.replace c r (rev (y :: cur)))
                   = rev (if char_eqb y c then r else [y])
                     ++ rev (Py.replace c r (rev cur))).
    { intros y. cbn [rev]. rewrite replace_app, rev_app_distr. f_equal.
      rewrite (replace_cons c r y []). change (Py.replace c r []) with (@nil char).
      rewrite app_nil_r. reflexivity. }
    rewrite replace_cons. destruct (char_eqb x c) eqn:E.
    + apply char_eqb_spec in E. subst x. pose proof Hm as Hm'.
      destruct Hm' as [Hn [[-> Hs] | (c' & -> & Hn' & Hs & Hs')]].
      * cbn [app]. rewrite (Hstep c s cur Hn).
        rewrite <- IH, Hcur, (proj2 (char_eqb_spec c c) eq_refl). reflexivity.
      * cbn [app]. rewrite (Hstep c' _ _ Hn'), (Hstep c s cur Hn).
        rewrite <- IH, Hcur, (proj2 (char_eqb_spec c c) eq_refl). reflexivity.
    + cbn [app]. destruct (N.eq_dec x 10%N) as [-> | Hx].
      * cbn [Py.split_go Py.startswith].
        rewrite (proj2 (char_eqb_spec 10%N 10%N) eq_refl). cbn [andb length Nat.sub map].
        rewrite rev_involutive. f_equal. apply (IH []).
      * rewrite (Hstep x _ _ Hx), (Hstep x s cur Hx).
        rewrite <- IH, Hcur, E. reflexivity.
Qed.

Lemma split_replace c r s :
  mild c r ->
  Py.split [10%N] (Py.replace c r s) = map (Py.replace c r) (Py.split [10%N] s).
Proof. intros Hm. exact (split_go_replace c r s Hm []). Qed.

Lemma mild_space : mild (ch " ") [].
Proof. split; [discriminate | left; split; reflexivity]. Qed.

Lemma mild_em_dash : mild 8212%N (py "<").
Proof.
  split; [discriminate|]. right. exists (ch "<").
  repeat split; first [reflexivity | discriminate].
Qed.

Lemma mild_dash : mild (ch "-") (py "<").
Proof.
  split; [discriminate|]. right. exists (ch "<").
  repeat split; first [reflexivity | discriminate].
Qed.

Lemma strip_normalize s :
  Py.strip (normalize_chars s) = normalize_chars (Py.strip s).
Proof.
  unfold normalize_chars.
  rewrite (strip_replace _ _ _ mild_dash), (strip_replace _ _ _ mild_em_dash),
    (strip_replace _ _ _ mild_space). reflexivity.
Qed.

Lemma split_normalize s :
  Py.split [10%N] (normalize_chars s) = map normalize_chars (Py.split [10%N] s).
Proof.
  unfold normalize_chars.
  rewrite (split_replace _ _ _ mild_dash), (split_replace _ _ _ mild_em_dash),
    (split_replace _ _ _ mild_space), !map_map. reflexivity.
Qed.

Lemma replace_absent c r s : ~ In c s -> Py.replace c r s = s.
Proof.
  induction s as [|x s IH]; intros H; [reflexivity|].
  rewrite replace_cons. destruct (char_eqb x c) eqn:E.
  - apply char_eqb_spec in E. subst. exfalso. apply H. left. reflexivity.
  - cbn [app]. f_equal. apply IH. intros Hin. apply H. right. exact Hin.
Qed.

Lemma normalize_In x s :
  In x (normalize_chars s) ->
  x <> ch " " /\ x <> 8212%N /\ x <> ch "-".
Proof.
  unfold normalize_chars. intros H.
  apply replace_In in H as [[H Hd] | [<- | []]];
    [|repeat split; discriminate].
  apply replace_In in H as [[H He] | [<- | []]];
    [|repeat split; discriminate].
  apply replace_In in H as [[_ Hs] | []].
  repeat split; assumption.
Qed.

Lemma normalize_idempotent s :
  normalize_chars (normalize_chars s) = normalize_chars s.
Proof.
  unfold normalize_chars at 1.
  rewrite (replace_absent (ch " ") [] (normalize_chars s)),
    (replace_absent 8212%N (py "<") (normalize_chars s)),
    (replace_absent (ch "-") (py "<") (normalize_chars s));
    [reflexivity | | |]; intros H; apply normalize_In in H; tauto.
Qed.

Lemma empty_normalize s :
  trimmed s -> normalize_chars s = [] -> s = [].
Proof.
  intros [Hh _] H. destruct s as [|c s]; [reflexivity|]. exfalso.
  unfold normalize_chars in H.
  rewrite !replace_cons in H.
  destruct (char_eqb c (ch " ")) eqn:E.
  - apply char_eqb_spec in E. subst c. discriminate Hh.
  - cbn [app] in H. rewrite replace_cons in H.
    destruct (char_eqb c 8212) eqn:E2; cbn [app py map list_ascii_of_string] in H.
    + rewrite !replace_cons in H. cbn in H. discriminate H.
    + rewrite replace_cons in H.
      destruct (char_eqb c (ch "-")); cbn in H; discriminate H.
Qed.

Lemma is_blank_normalize l :
  MRZParser.is_blank (normalize_chars l) = MRZParser.is_blank l.
Proof.
  unfold MRZParser.is_blank. rewrite strip_normalize.
  destruct (Py.strip l) as [|c s] eqn:E; [reflexivity|].
  destruct (normalize_chars (c :: s)) eqn:E'; [|reflexivity].
  apply empty_normalize in E'; [discriminate E'|].
  rewrite <- E. apply strip_trimmed.
Qed.

Lemma clean_line_normalize l :
  MRZParser.clean_line (normalize_chars l) = MRZParser.clean_line l.
Proof.
  unfold MRZParser.clean_line.
  fold (normalize_chars (Py.strip (normalize_chars l))).
  fold (normalize_chars (Py.strip l)).
  rewrite strip_normalize, normalize_idempotent. reflexivity.
Qed.

Lemma filter_map_comm {A B} (f : A -> B) (p : B -> bool) l :
  List.filter p (map f l) = map f (List.filter (fun x => p (f x)) l).
Proof.
  induction l as [|x l IH]; [reflexivity|]. cbn.
  destruct (p (f x)); cbn; rewrite IH; reflexivity.
Qed.

Lemma cleaned_lines_normalize text :
  MRZParser.cleaned_lines (normalize_chars text) = MRZParser.cleaned_lines text.
Proof.
  unfold MRZParser.cleaned_lines.
  rewrite strip_normalize, split_normalize, filter_map_comm, map_map.
  rewrite (List.filter_ext _ (fun line => negb (MRZParser.is_blank line)))
    by (intros l; rewrite is_blank_normalize; reflexivity).
  apply map_ext. intros l. apply clean_line_normalize.
Qed.

(** X11: the decoding does not depend on the spaces of the text, nor on
    whether a filler was read as a dash: a text and the same text with its
    spaces removed and its dashes turned into fillers decode alike, and so
    do any two texts that differ in this way only. *)
Theorem parse_mrz_normalize (text : str) :
  MRZParser.parse_mrz (normalize_chars text) = MRZParser.parse_mrz text
  /\ forall text', normalize_chars text' = normalize_chars text ->
       MRZParser.parse_mrz text' = MRZParser.parse_mrz text.
Proof.
  assert (H : forall t, MRZParser.parse_mrz (normalize_chars t)
                        = MRZParser.parse_mrz t).
  { intros t. unfold MRZParser.parse_mrz, MRZParser.mrz_lines_of.
    rewrite cleaned_lines_normalize. reflexivity. }
  split; [apply H|].
  intros text' E. rewrite <- (H text'), E. apply H.
Qed.

End Normalisation.
(** ** The locator: which contour is cut out *)

Section LowestCandidate.
Import MRZDetector.

Lemma lowest_In first rest : In (lowest first rest) (first :: rest).
Proof.
  unfold lowest. revert first. induction rest as [|c rest IH]; intros first.
  - left. reflexivity.
  - cbn [fold_left]. destruct (ry first <? ry c).
    + right. apply IH.
    + destruct (IH first) as [H | H]; [left; exact H | right; right; exact H].
Qed.

Lemma lowest_ge_first first rest : ry first <= ry (lowest first rest).
Proof.
  unfold lowest. revert first. induction rest as [|c rest IH]; intros first.
  - cbn. lia.
  - cbn [fold_left]. destruct (Z.ltb_spec (ry first) (ry c)) as [H|H].
    + specialize (IH c). lia.
    + apply IH.
Qed.

Lemma lowest_max first rest c :
  In c (first :: rest) -> ry c <= ry (lowest first rest).
Proof.
  revert first. induction rest as [|x rest IH]; intros first Hin.
  - destruct Hin as [<- | []]. cbn. lia.
  - unfold lowest. cbn [fold_left].
    fold (lowest (if ry first <? ry x then x else first) rest).
    destruct (Z.ltb_spec (ry first) (ry x)) as [H|H].
    + destruct Hin as [<- | [<- | Hin]].
      * pose proof (lowest_ge_first x rest). lia.
      * apply lowest_ge_first.
      * apply IH. right. exact Hin.
    + destruct Hin as [<- | [<- | Hin]].
      * apply lowest_ge_first.
      * pose proof (lowest_ge_first first rest). lia.
      * apply IH. right. exact Hin.
Qed.

(** X4: when some contour passes the filter, the locator always returns a
    region, and it is cut around one contour of the image that passes the
    filter and that no other passing contour lies below. The region is at
    most 20 columns wider and 48 rows taller than this contour, and when
    the contour lies inside the image the region contains it whole. *)
Theorem detect_mrz_lowest_candidate (h w : Z) (contours : list Rect) :
  mrz_candidates h w contours <> [] ->
  exists m r,
    detect_mrz h w contours = Some r
    /\ In m contours
    /\ is_candidate h w m = true
    /\ (forall c, In c contours -> is_candidate h w c = true -> ry c <= ry m)
    /\ x1 r - x0 r <= rw m + 20
    /\ y1 r - y0 r <= rh m + 48
    /\ (0 <= rx m -> 0 <= ry m -> rx m + rw m <= w -> ry m + rh m <= h ->
        0 <= rw m -> 0 <= rh m ->
        x0 r <= rx m /\ rx m + rw m <= x1 r
        /\ y0 r <= ry m /\ ry m + rh m <= y1 r).
Proof.
  intros Hne. unfold detect_mrz.
  destruct contours as [|c0 cs]; [exfalso; apply Hne; reflexivity|].
  destruct (mrz_candidates h w (c0 :: cs)) as [|c rest] eqn:E;
    [exfalso; apply Hne; reflexivity|].
  assert (Hin : In (lowest c rest) (mrz_candidates h w (c0 :: cs))).
  { rewrite E. apply lowest_In. }
  unfold mrz_candidates in Hin. apply filter_In in Hin as [Hin Hc].
  exists (lowest c rest). eexists. split; [reflexivity|].
  split; [exact Hin|]. split; [exact Hc|]. split.
  - intros c' Hin' Hc'. apply lowest_max. rewrite <- E.
    unfold mrz_candidates. apply filter_In. split; assumption.
  - cbn [x0 x1 y0 y1]. unfold padding_horizontal, padding_vertical_up,
      padding_vertical_down. repeat split; lia.
Qed.

End LowestCandidate.

Lemma detect_mrz_lowest_candidate_witness :
  MRZDetector.mrz_candidates 800 600 [Examples.speck; Examples.band] <> []
  /\ exists m r,
       MRZDetector.detect_mrz 800 600 [Examples.speck; Examples.band] = Some r
       /\ In m [Examples.speck; Examples.band]
       /\ MRZDetector.is_candidate 800 600 m = true
       /\ MRZDetector.x1 r - MRZDetector.x0 r <= MRZDetector.rw m + 20
       /\ MRZDetector.y1 r - MRZDetector.y0 r <= MRZDetector.rh m + 48.
Proof.
  assert (Hne : MRZDetector.mrz_candidates 800 600
                  [Examples.speck; Examples.band] <> [])
    by (vm_compute; discriminate).
  split; [exact Hne|].
  destruct (detect_mrz_lowest_candidate 800 600 _ Hne)
    as (m & r & Hr & Hin & Hc & _ & Hw & Hh & _).
  exists m, r. repeat split; assumption.
Defined.
(** ** The validator: what a valid verdict takes *)

Section ValidVerdict.
Context {U : Unicode}.
Import MRZParser PassportValidator.

Lemma check_document_type_nil data :
  check_document_type data [] = []
  <-> in_table (document_type data) VALID_DOCUMENT_TYPES = true.
Proof.
  unfold check_document_type.
  destruct (in_table _ _); cbn; split; intros H;
    first [reflexivity | discriminate H].
Qed.

Lemma check_issuing_country_nil data :
  check_issuing_country data [] = []
  <-> Py.upper (issuing_country data) = []
      \/ in_table (Py.upper (issuing_country data)) VALID_COUNTRY_CODES = true.
Proof.
  unfold check_issuing_country.
  destruct (Py.upper (issuing_country data)) as [|c s];
    [split; [left|]; reflexivity|].
  destruct (in_table _ _); cbn; split; intros H;
    first [reflexivity | discriminate H | right; reflexivity
          | destruct H as [H|H]; discriminate H].
Qed.

Lemma check_nationality_nil data :
  check_nationality data [] = []
  <-> Py.upper (nationality data) = []
      \/ in_table (Py.upper (nationality data)) VALID_COUNTRY_CODES = true.
Proof.
  unfold check_nationality.
  destruct (Py.upper (nationality data)) as [|c s];
    [split; [left|]; reflexivity|].
  destruct (in_table _ _); cbn; split; intros H;
    first [reflexivity | discriminate H | right; reflexivity
          | destruct H as [H|H]; discriminate H].
Qed.

Lemma check_checksums_nil data :
  check_checksums data [] = []
  <-> Forall (fun k => check_digits data !! k = Some true) Spec.critical_names.
Proof.
  rewrite <- failed_critical_nil. unfold check_checksums.
  destruct (failed_critical _); cbn; split; intros H;
    first [reflexivity | discriminate H].
Qed.

Lemma truthy_Some (v : option str) :
  truthy v = true <-> exists s, v = Some s /\ s <> [].
Proof.
  destruct v as [[|c s]|]; cbn; split; intros H;
    first [discriminate H | reflexivity | idtac].
  - destruct H as (s & [= <-] & Hs). exfalso. apply Hs. reflexivity.
  - exists (c :: s). split; [reflexivity | discriminate].
  - destruct H as (s & H & _). discriminate H.
Qed.

Lemma new_fields y m d e :
  Datetime.new y m d = Some e ->
  1 <= Datetime.month e /\ 1 <= Datetime.day e.
Proof.
  unfold Datetime.new. destruct (_ && _) eqn:E; [|discriminate].
  intros [= <-]. cbn. rewrite !andb_true_iff, !Z.leb_le in E. lia.
Qed.

Lemma strptime_fields s e :
  Datetime.strptime_ymd s = Some e ->
  1 <= Datetime.month e /\ 1 <= Datetime.day e.
Proof.
  intros H. unfold Datetime.strptime_ymd in H.
  destruct s as [|y1 [|y2 [|y3 [|y4 rest]]]]; try discriminate H.
  split_binds H.
  match type of H with
  | match ?l with [] => _ | _ :: _ => _ end = _ =>
      destruct l; [|discriminate H]
  end.
  exact (new_fields _ _ _ _ H).
Qed.

(** A date read by [strptime] is before 1 January 1900 exactly when its
    year is. *)
Lemma ltb_epoch s dob epoch :
  Datetime.strptime_ymd s = Some dob ->
  Datetime.new 1900 1 1 = Some epoch ->
  Datetime.ltb dob epoch = false <-> 1900 <= Datetime.year dob.
Proof.
  intros Hs He. rewrite new_1900 in He. injection He as <-.
  destruct (strptime_midnight _ _ Hs) as (_ & Hh & Hmi & Hse & Hu).
  destruct (strptime_fields _ _ Hs) as [Hm Hd].
  unfold Datetime.ltb, Datetime.compare. cbn [Datetime.year Datetime.month
    Datetime.day Datetime.hour Datetime.minute Datetime.second
    Datetime.microsecond]. rewrite Hh, Hmi, Hse, Hu. cbn [Datetime.lexico].
  destruct (Z.compare_spec (Datetime.year dob) 1900);
    destruct (Z.compare_spec (Datetime.month dob) 1);
    destruct (Z.compare_spec (Datetime.day dob) 1);
    cbn; split; intros; first [reflexivity | discriminate | lia].
Qed.

Lemma check_date_of_birth_nil data today :
  check_date_of_birth data today [] = []
  <-> exists s dob,
        date_of_birth data = Some s
        /\ Datetime.strptime_ymd s = Some dob
        /\ Datetime.gtb dob today = false
        /\ 1900 <= Datetime.year dob.
Proof.
  unfold check_date_of_birth.
  destruct (date_of_birth data) as [[|c s]|];
    cbn [truthy default from_option id].
  - split; [intros H; discriminate H|].
    intros (s & dob & [= <-] & H & _). discriminate H.
  - cbv zeta.
    destruct (Datetime.strptime_ymd (c :: s)) as [dob|] eqn:E.
    + pose proof (ltb_epoch _ _ _ E new_1900) as Hep. rewrite new_1900.
      split.
      * intros H. exists (c :: s), dob.
        destruct (Datetime.gtb dob today), (Datetime.ltb dob _);
          cbn in H; try discriminate H.
        repeat split; [exact E | apply Hep; reflexivity].
      * intros (s' & dob' & Hs' & Hp & G & Y). injection Hs' as <-.
        rewrite E in Hp. injection Hp as <-.
        apply Hep in Y. rewrite G, Y. reflexivity.
    + split; [intros H; discriminate H|].
      intros (s' & dob' & [= <-] & H & _). rewrite E in H. discriminate H.
  - split; [intros H; discriminate H|].
    intros (s & dob & H & _). discriminate H.
Qed.

Lemma check_date_of_expiry_nil data today :
  check_date_of_expiry data today [] = []
  <-> exists s expiry,
        date_of_expiry data = Some s
        /\ Datetime.strptime_ymd s = Some expiry
        /\ Datetime.ltb expiry today = false.
Proof.
  unfold check_date_of_expiry.
  destruct (date_of_expiry data) as [[|c s]|];
    cbn [truthy default from_option id].
  - split; [intros H; discriminate H|].
    intros (s & e & [= <-] & H & _). discriminate H.
  - cbv zeta.
    destruct (Datetime.strptime_ymd (c :: s)) as [e|] eqn:E.
    + split.
      * intros H. exists (c :: s), e.
        destruct (Datetime.ltb e today); cbn in H; [discriminate H|].
        repeat split. exact E.
      * intros (s' & e' & Hs' & Hp & L). injection Hs' as <-.
        rewrite E in Hp. injection Hp as <-. rewrite L. reflexivity.
    + split; [intros H; discriminate H|].
      intros (s' & e' & [= <-] & H & _). rewrite E in H. discriminate H.
  - split; [intros H; discriminate H|].
    intros (s & e & H & _). discriminate H.
Qed.

Lemma check_required_nil field value :
  check_required field value [] = [] <-> value <> [].
Proof.
  unfold check_required. destruct value; cbn; split; intros H;
    first [discriminate H | reflexivity | discriminate | idtac].
  exfalso. apply H. reflexivity.
Qed.

(** X6: a record is given the verdict valid exactly when its document
    type is one of the five known, its issuing country and its nationality
    are each empty or a known code, the three critical check digits
    verified, its date of birth reads as a date from 1 January 1900 to the
    instant of the validation, its expiry date reads as a date not before
    that instant, and it has a surname and a passport number. The sex, the
    given names, the personal number and the two other check outcomes play
    no part. *)
Theorem valid_verdict_exact (data : ParsedRecord) (today : Datetime.datetime) :
  fst (validate_passport data today) = true
  <-> in_table (document_type data) VALID_DOCUMENT_TYPES = true
      /\ (Py.upper (issuing_country data) = []
          \/ in_table (Py.upper (issuing_country data)) VALID_COUNTRY_CODES = true)
      /\ (Py.upper (nationality data) = []
          \/ in_table (Py.upper (nationality data)) VALID_COUNTRY_CODES = true)
      /\ Forall (fun k => check_digits data !! k = Some true)
           ["passport_number"; "date_of_birth"; "date_of_expiry"]%string
      /\ (exists s dob,
            date_of_birth data = Some s
            /\ Datetime.strptime_ymd s = Some dob
            /\ Datetime.gtb dob today = false
            /\ 1900 <= Datetime.year dob)
      /\ (exists s expiry,
            date_of_expiry data = Some s
            /\ Datetime.strptime_ymd s = Some expiry
            /\ Datetime.ltb expiry today = false)
      /\ surname data <> []
      /\ passport_number data <> [].
Proof.
  rewrite validate_passport_verdict, validate_passport_errors.
  rewrite !app_nil.
  rewrite check_document_type_nil, check_issuing_country_nil,
    check_nationality_nil, check_checksums_nil, check_date_of_birth_nil,
    check_date_of_expiry_nil, !check_required_nil.
  reflexivity.
Qed.

End ValidVerdict.
(** ** [process_file]: the shape of its result and the archive loop *)

Set Warnings "-notation-for-abbreviation".

Section FileResults.
Context {U : Unicode} {L : UnicodeLower}.
Import PassportOCR FileProcessing.

Variable Image : Type.
Variable shape : Image -> Z * Z.
Variable find_contours : Image -> list MRZDetector.Rect.
Variable extract_mrz_text : Image -> MRZDetector.Region -> option str.
Variable ocr_error : Image -> str.
Variable now : Image -> Datetime.datetime.
Variable debug : bool.
Variable Path : Type.
Variable path_text : Path -> str.
Variable path_exists : Path -> bool.
Variable suffix : Path -> str.
Variable imread : Path -> option Image.
Variable unzip : Path -> outcome (str -> list Path).
Variable Page : Type.
Variable convert_from_path : Path -> outcome (list Page).
Variable page_image : Page -> outcome Image.

Notation run_image :=
  (run_image Image shape find_contours extract_mrz_text ocr_error now debug).
Notation first_success :=
  (first_success Image shape find_contours extract_mrz_text ocr_error now debug
     Path imread).
Notation process_by_extension :=
  (process_by_extension Image shape find_contours extract_mrz_text ocr_error
     now debug Path imread unzip Page convert_from_path page_image).
Notation process_file :=
  (process_file Image shape find_contours extract_mrz_text ocr_error now debug
     Path path_text path_exists suffix imread unzip Page convert_from_path
     page_image).
Notation skipped :=
  (skipped Image shape find_contours extract_mrz_text ocr_error now debug
     Path imread).

Lemma failure_well_formed msg : well_formed (failure msg).
Proof. unfold well_formed. cbn. repeat split. eexists. reflexivity. Qed.

Lemma process_image_well_formed today image r :
  process_image Image shape find_contours extract_mrz_text debug today image
  = Some r ->
  well_formed r.
Proof.
  unfold process_image.
  destruct (detect_mrz _ _ _ _) as [roi|];
    [|intros [= <-]; apply (failure_well_formed _)].
  destruct (extract_mrz_text image roi) as [text|]; [|discriminate].
  cbn [mbind option_bind].
  destruct (MRZParser.parse_mrz text) as [record|].
  - pose proof (validate_passport_verdict record today) as Hv.
    destruct (PassportValidator.validate_passport record today)
      as [is_valid errors].
    cbn [fst snd] in Hv. intros [= <-]. unfold well_formed. cbn.
    split; [reflexivity|]. split; [eexists; reflexivity|].
    destruct errors as [|e errors]; split.
    + rewrite Hv. split; reflexivity.
    + discriminate.
    + rewrite Hv. split; discriminate.
    + discriminate.
  - intros [= <-]. unfold well_formed. cbn. repeat split. eexists. reflexivity.
Qed.

(** A property of the results of [process_image] and of the failures
    [process_file] reports itself is a property of every result of
    [process_file]. The failure for an unknown extension is only needed
    when the extension is unknown. *)
Section Invariant.
Variable P : Result -> Prop.
Hypothesis P_image : forall today image r,
  process_image Image shape find_contours extract_mrz_text debug today image
  = Some r -> P r.

Lemma run_image_inv image r : run_image image = Returned r -> P r.
Proof.
  unfold FileProcessing.run_image.
  destruct (process_image _ _ _ _ _ _ _) as [res|] eqn:E; [|discriminate].
  intros [= <-]. exact (P_image _ _ _ E).
Qed.

Lemma first_success_inv image_files r :
  P (failure (py "No valid passport found in ZIP")) ->
  first_success image_files = Returned r -> P r.
Proof.
  intros Hnone.
  induction image_files as [|f rest IH]; cbn [FileProcessing.first_success].
  - intros [= <-]. exact Hnone.
  - destruct (imread f) as [image|]; [|exact IH].
    destruct (run_image image) as [res|msg] eqn:E; [|discriminate].
    destruct (success res); [|exact IH].
    intros [= <-]. exact (run_image_inv _ _ E).
Qed.

Lemma process_by_extension_inv file_path ext r :
  P (failure (py "Could not read image file")) ->
  P (failure (py "No image files found in ZIP")) ->
  P (failure (py "No valid passport found in ZIP")) ->
  P (failure (py "Could not extract images from PDF")) ->
  (str_in ext image_extensions = false -> Py.str_eqb ext (py ".zip") = false ->
   Py.str_eqb ext (py ".pdf") = false ->
   P (failure (py "Unsupported file format: " ++ ext))) ->
  process_by_extension file_path ext = Returned r -> P r.
Proof.
  intros Hread Hempty Hnone Hpdf Hunknown.
  unfold FileProcessing.process_by_extension.
  destruct (str_in ext image_extensions).
  { destruct (imread file_path) as [image|];
      [apply run_image_inv | intros [= <-]; exact Hread]. }
  destruct (Py.str_eqb ext (py ".zip")).
  { destruct (unzip file_path) as [rglob|msg]; [|discriminate].
    destruct (flat_map _ _) as [|f rest];
      [intros [= <-]; exact Hempty | apply first_success_inv; exact Hnone]. }
  destruct (Py.str_eqb ext (py ".pdf")).
  { destruct (convert_from_path file_path) as [[|page pages]|msg];
      [intros [= <-]; exact Hpdf | | discriminate].
    destruct (page_image page) as [image|msg]; [|discriminate].
    apply run_image_inv. }
  intros [= <-]. apply Hunknown; reflexivity.
Qed.

Lemma process_file_inv file_path :
  (forall msg, P (failure msg)) -> P (process_file file_path).
Proof.
  intros Hfail. unfold FileProcessing.process_file.
  destruct (negb (path_exists file_path)); [apply Hfail|].
  destruct (process_by_extension file_path _) as [r|msg] eqn:E;
    [|apply Hfail].
  apply (process_by_extension_inv _ _ _ (Hfail _) (Hfail _) (Hfail _) (Hfail _)
           (fun _ _ _ => Hfail _) E).
Qed.

End Invariant.

Lemma process_file_well_formed file_path : well_formed (process_file file_path).
Proof.
  apply process_file_inv;
    [exact process_image_well_formed | exact failure_well_formed].
Qed.

(** X12: whatever the file, and whatever the libraries do with it, the
    result of [process_file] has one of two shapes. A success has no
    [error], holds a decoded record, is valid exactly when no violation is
    attached, and never has an empty list of violations attached. A
    failure has an [error], is not valid, and holds neither a record nor
    violations. *)
Theorem process_file_result_shape (file_path : Path) :
  (success (process_file file_path) = true ->
   error (process_file file_path) = None
   /\ is_Some (parsed (process_file file_path))
   /\ (valid_passport (process_file file_path) = true
       <-> validation_errors (process_file file_path) = None)
   /\ validation_errors (process_file file_path) <> Some [])
  /\ (success (process_file file_path) = false ->
      is_Some (error (process_file file_path))
      /\ valid_passport (process_file file_path) = false
      /\ parsed (process_file file_path) = None
      /\ validation_errors (process_file file_path) = None).
Proof.
  pose proof (process_file_well_formed file_path) as H.
  unfold well_formed in H.
  destruct (success (process_file file_path)); split; intros E;
    first [exact H | discriminate E].
Qed.

Lemma first_success_skip pre rest :
  Forall skipped pre -> first_success (pre ++ rest) = first_success rest.
Proof.
  induction 1 as [|f pre Hf _ IH]; [reflexivity|].
  cbn [app FileProcessing.first_success].
  unfold FileProcessing.skipped in Hf.
  destruct (imread f) as [image|]; [|exact IH].
  destruct Hf as (res & -> & ->). exact IH.
Qed.

(** X13: an archive is searched in the order the files were found. The
    images that cannot be read and those in which no passport is found
    are passed over, and the result of the first image that succeeds is
    the result of the archive, whatever comes after it. If reading the
    text of an image raises before that, the archive as a whole fails
    with that error, even when a later image would have succeeded; and
    when every image is passed over, no passport was found. *)
Theorem process_file_zip (file_path : Path) (rglob : str -> list Path)
    (pre post : list Path) :
  path_exists file_path = true ->
  PyLower.lower (suffix file_path) = py ".zip" ->
  unzip file_path = Returned rglob ->
  flat_map (fun img_ext => rglob (py "*" ++ py img_ext)) zip_image_extensions
  = pre ++ post ->
  Forall skipped pre ->
  match post with
  | [] =>
      process_file file_path
      = failure (if decide (pre = [])
                 then py "No image files found in ZIP"
                 else py "No valid passport found in ZIP")
  | f :: _ =>
      forall image, imread f = Some image ->
        (forall result, run_image image = Returned result ->
           success result = true -> process_file file_path = result)
        /\ (forall msg, run_image image = Raised msg ->
              process_file file_path
              = failure (py "Error processing file: " ++ msg))
  end.
Proof.
  intros He Hs Hu Hf Hpre. unfold FileProcessing.process_file.
  rewrite He, Hs. cbn [negb].
  unfold FileProcessing.process_by_extension.
  change (str_in (py ".zip") image_extensions) with false.
  change (Py.str_eqb (py ".zip") (py ".zip")) with true.
  cbv iota. rewrite Hu, Hf.
  destruct post as [|f post].
  - rewrite app_nil_r. destruct pre as [|g pre]; [reflexivity|].
    rewrite <- (app_nil_r (g :: pre)), (first_success_skip _ [] Hpre).
    destruct (decide _) as [E|_]; [discriminate E | reflexivity].
  - intros image Hi.
    assert (Hne : exists x l, pre ++ f :: post = x :: l).
    { destruct pre; eexists; eexists; reflexivity. }
    destruct Hne as (x & l & Hne).
    assert (Hgo : match pre ++ f :: post with
                  | [] => Returned (failure (py "No image files found in ZIP"))
                  | _ => first_success (pre ++ f :: post)
                  end = first_success (f :: post)).
    { rewrite Hne, <- Hne. apply first_success_skip. exact Hpre. }
    rewrite Hgo. cbn [FileProcessing.first_success]. rewrite Hi.
    split.
    + intros result -> ->. reflexivity.
    + intros msg ->. reflexivity.
Qed.

(** *** The upload endpoint and the response *)

Lemma process_image_error today image r :
  process_image Image shape find_contours extract_mrz_text debug today image
  = Some r ->
  error r = None
  \/ error r = Some (py "Could not detect MRZ region in image")
  \/ error r = Some (py "Could not parse MRZ text").
Proof.
  unfold process_image.
  destruct (detect_mrz _ _ _ _) as [roi|];
    [|intros [= <-]; right; left; reflexivity].
  destruct (extract_mrz_text image roi) as [text|]; [|discriminate].
  cbn [mbind option_bind].
  destruct (MRZParser.parse_mrz text) as [record|].
  - destruct (PassportValidator.validate_passport record today).
    intros [= <-]. left. reflexivity.
  - intros [= <-]. right. right. reflexivity.
Qed.

Lemma process_image_parsed today image r record :
  process_image Image shape find_contours extract_mrz_text debug today image
  = Some r ->
  parsed r = Some record ->
  exists text, MRZParser.parse_mrz text = Some record.
Proof.
  unfold process_image.
  destruct (detect_mrz _ _ _ _) as [roi|]; [|intros [= <-]; discriminate].
  destruct (extract_mrz_text image roi) as [text|]; [|discriminate].
  cbn [mbind option_bind].
  destruct (MRZParser.parse_mrz text) as [rec|] eqn:E.
  - destruct (PassportValidator.validate_passport rec today).
    intros [= <-] [= <-]. exists text. exact E.
  - intros [= <-]. discriminate.
Qed.

Lemma parse_mrz_names_trimmed text record :
  MRZParser.parse_mrz text = Some record ->
  trimmed (MRZParser.surname record) /\ trimmed (MRZParser.given_names record).
Proof.
  unfold MRZParser.parse_mrz.
  destruct (MRZParser.mrz_lines_of text) as [|l0 lines0]; [discriminate|].
  generalize (l0 :: lines0). intros lines H.
  unfold MRZParser.parse_td3_mrz in H.
  destruct lines as [|l1 [|l2 rest]]; try discriminate H.
  destruct (_ || _) in H; [discriminate H|].
  split_binds H. injection H as <-.
  cbn [MRZParser.surname MRZParser.given_names]. split.
  - destruct (Py.split _ _); [split; exact I | apply strip_trimmed].
  - destruct (Py.split _ _) as [|? [|? ?]]; try (split; exact I).
    apply strip_trimmed.
Qed.

Lemma strip_space_between (given surname : str) :
  trimmed given -> trimmed surname ->
  Py.strip (given ++ py " " ++ surname)
  = match given, surname with
    | [], _ => surname
    | _, [] => given
    | _, _ => given ++ py " " ++ surname
    end.
Proof.
  intros [Hg Hg'] [Hs Hs']. change (py " ") with [32%N].
  destruct given as [|a g].
  - cbn [app]. unfold Py.strip. cbn [Py.lstrip_with].
    change (Py.isspace 32) with true. cbv iota.
    rewrite (lstrip_with_id _ surname Hs). apply rstrip_with_id. exact Hs'.
  - destruct surname as [|b t].
    + cbn [app]. unfold Py.strip. cbn [Py.lstrip_with]. rewrite Hg.
      unfold Py.rstrip_with. change (a :: g ++ [32%N]) with ((a :: g) ++ [32%N]).
      rewrite rev_app_distr.
      change (rev [32%N] ++ rev (a :: g)) with (32%N :: rev (a :: g)).
      cbn [Py.lstrip_with]. change (Py.isspace 32) with true. cbv iota.
      rewrite (lstrip_with_id _ _ Hg'). apply rev_involutive.
    + apply strip_id. split; [exact Hg|].
      rewrite !rev_app_distr.
      destruct (rev (b :: t)) as [|x u] eqn:E.
      * apply (f_equal (@length _)) in E. rewrite length_rev in E.
        discriminate E.
      * exact Hs'.
Qed.

(** X14: the result handed to the publisher says as much as the result
    of [process_file]. An error response carries the reason
    [process_file] gave, never the stand-in text. A success response
    carries the fields of a record decoded from some text, its two
    validity flags agree, it lists no violation exactly when it is valid,
    and its full name is the given names and the surname with one space
    between them, or the one of them that is not empty. *)
Theorem response_of_process_file (file_path : Path) :
  match App.build_response (process_file file_path) with
  | App.StatusSuccess data is_valid errors raw =>
      raw = process_file file_path
      /\ success raw = true
      /\ App.is_valid data = is_valid
      /\ (is_valid = true <-> errors = [])
      /\ exists record text,
           MRZParser.parse_mrz text = Some record
           /\ parsed raw = Some record
           /\ App.passport_number data = Some (MRZParser.passport_number record)
           /\ App.date_of_expiry data = MRZParser.date_of_expiry record
           /\ App.mrz_checksum_valid data = MRZParser.valid_mrz_checksum record
           /\ App.full_name data
              = match MRZParser.given_names record, MRZParser.surname record with
                | [], surname => surname
                | given, [] => given
                | given, surname => given ++ py " " ++ surname
                end
  | App.StatusError e raw =>
      raw = process_file file_path
      /\ success raw = false
      /\ error raw = Some e
  end.
Proof.
  pose proof (process_file_well_formed file_path) as W.
  assert (O : forall record, parsed (process_file file_path) = Some record ->
                exists text, MRZParser.parse_mrz text = Some record).
  { apply (process_file_inv
             (fun r => forall record, parsed r = Some record ->
                         exists text, MRZParser.parse_mrz text = Some record)).
    - intros today image r H record. exact (process_image_parsed _ _ _ _ H).
    - intros msg record H. discriminate H. }
  unfold App.build_response, well_formed in *.
  destruct (success (process_file file_path)) eqn:S.
  - destruct W as (_ & [record Hr] & Hv & Hn).
    destruct (O record Hr) as [text Ht].
    split; [reflexivity|]. split; [exact S|]. split; [reflexivity|]. split.
    + rewrite Hv. destruct (validation_errors _) as [[|e es]|]; cbn;
        split; intros H; first [reflexivity | discriminate H | congruence].
    + exists record, text. split; [exact Ht|]. split; [exact Hr|].
      destruct (parse_mrz_names_trimmed _ _ Ht) as [Hs Hg].
      cbn [App.passport_number App.date_of_expiry App.mrz_checksum_valid
           App.full_name].
      unfold App.get_field, App.get_date. rewrite Hr.
      cbn [fmap option_fmap option_map mbind option_bind default from_option id].
      repeat split. rewrite strip_space_between by assumption.
      destruct (MRZParser.given_names record), (MRZParser.surname record);
        reflexivity.
  - destruct W as ([e He] & _). rewrite He. cbn.
    repeat split; assumption.
Qed.

Lemma allowed_extension_cases (file_ext : str) :
  str_in file_ext App.allowed_extensions = true ->
  file_ext = py "jpg" \/ file_ext = py "jpeg" \/ file_ext = py "png"
  \/ file_ext = py "pdf" \/ file_ext = py "zip".
Proof.
  unfold str_in, App.allowed_extensions, Py.str_eqb. cbn [existsb].
  rewrite !orb_true_iff, !bool_decide_eq_true. intuition discriminate.
Qed.

(** X15: a file the upload endpoint accepts is one [process_file] has a
    branch for. The endpoint accepts a file only with the three
    identifiers given and one of five extensions, in any case of the
    letters, and it stores the file under a name that ends with a dot and
    that extension in small letters; of such a file [process_file] never
    reports an unsupported format. *)
Theorem accepted_upload_is_supported
    (order_id traveller_id document_id filename : option str)
    (file_ext : str) (file_path : Path) :
  App.check_upload order_id traveller_id document_id filename
  = App.Accepted file_ext ->
  path_exists file_path = true ->
  suffix file_path = py "." ++ file_ext ->
  In file_ext [py "jpg"; py "jpeg"; py "png"; py "pdf"; py "zip"]
  /\ App.missing order_id = false /\ App.missing traveller_id = false
  /\ App.missing document_id = false
  /\ forall ext,
       error (process_file file_path)
       <> Some (py "Unsupported file format: " ++ ext).
Proof.
  intros Hc He Hs. unfold App.check_upload in Hc.
  destruct (App.missing order_id); [discriminate Hc|].
  destruct (App.missing traveller_id); [discriminate Hc|].
  destruct (App.missing document_id); [discriminate Hc|].
  cbn [orb] in Hc. cbv zeta in Hc.
  destruct (str_in (App.file_extension filename) App.allowed_extensions) eqn:E;
    [|discriminate Hc].
  cbn [negb] in Hc. injection Hc as Hc. rewrite Hc in E. clear Hc.
  apply allowed_extension_cases in E.
  split; [cbn [In]; intuition congruence|]. repeat split.
  unfold FileProcessing.process_file. rewrite He, Hs. cbn [negb].
  assert (Hl : PyLower.lower (py "." ++ file_ext) = py "." ++ file_ext
               /\ (str_in (py "." ++ file_ext) image_extensions
                   || Py.str_eqb (py "." ++ file_ext) (py ".zip")
                   || Py.str_eqb (py "." ++ file_ext) (py ".pdf")) = true).
  { destruct E as [-> | [-> | [-> | [-> | ->]]]]; split; reflexivity. }
  destruct Hl as [-> Hd].
  destruct (process_by_extension file_path (py "." ++ file_ext))
    as [r|msg] eqn:Hr.
  - revert Hr.
    apply (process_by_extension_inv
             (fun r => forall ext,
                error r <> Some (py "Unsupported file format: " ++ ext))).
    + intros today image r' H ext.
      destruct (process_image_error _ _ _ H) as [-> | [-> | ->]];
        intros H'; vm_compute in H'; discriminate H'.
    + intros ext H'; vm_compute in H'; discriminate H'.
    + intros ext H'; vm_compute in H'; discriminate H'.
    + intros ext H'; vm_compute in H'; discriminate H'.
    + intros ext H'; vm_compute in H'; discriminate H'.
    + intros H1 H2 H3. rewrite H1, H2, H3 in Hd. discriminate Hd.
  - intros ext H'. vm_compute in H'. discriminate H'.
Qed.

Lemma Forall_is_Some_fmap {A} (l : list A) : Forall is_Some (Some <$> l).
Proof.
  induction l as [|x l IH]; cbn; constructor;
    [eexists; reflexivity | exact IH].
Qed.


(** X17: in the response of the example endpoint the list of errors is
    empty exactly when a passport was decoded and found valid, and it
    never holds a missing entry. For a failure it is the one reason
    [process_file] gave; for a success it is the list of violations,
    whether or not the validity flag is looked at first. *)
Theorem api_response_errors (file_path : Path) :
  (ExampleUsage.errors (ExampleUsage.api_response (process_file file_path)) = []
   <-> success (process_file file_path) = true
       /\ valid_passport (process_file file_path) = true)
  /\ Forall is_Some
       (ExampleUsage.errors (ExampleUsage.api_response (process_file file_path)))
  /\ (success (process_file file_path) = false ->
      ExampleUsage.data (ExampleUsage.api_response (process_file file_path))
      = None
      /\ exists reason,
           error (process_file file_path) = Some reason
           /\ ExampleUsage.errors
                (ExampleUsage.api_response (process_file file_path))
              = [Some reason])
  /\ (success (process_file file_path) = true ->
      ExampleUsage.errors (ExampleUsage.api_response (process_file file_path))
      = Some <$> default [] (validation_errors (process_file file_path))).
Proof.
  pose proof (process_file_well_formed file_path) as W.
  unfold well_formed in W. unfold ExampleUsage.api_response.
  cbn [ExampleUsage.errors ExampleUsage.data].
  destruct (success (process_file file_path)).
  - destruct W as (_ & _ & Hv & Hn).
    destruct (valid_passport (process_file file_path)); cbn [negb].
    + rewrite (proj1 Hv eq_refl). cbn.
      repeat split; first [constructor | discriminate | reflexivity].
    + destruct (validation_errors (process_file file_path)) as [[|e es]|] eqn:E;
        [exfalso; apply Hn; reflexivity | | discriminate (proj2 Hv eq_refl)].
      change (default [] (Some (e :: es))) with (e :: es).
      split; [split; [intros H; discriminate H | intros [_ H]; discriminate H]|].
      split; [apply Forall_is_Some_fmap|].
      split; [intros H; discriminate H | reflexivity].
  - destruct W as ([reason He] & _). rewrite He.
    split; [split; [intros H; discriminate H | intros [H _]; discriminate H]|].
    split; [repeat constructor; eexists; reflexivity|].
    split; [|intros H; discriminate H].
    intros _. split; [reflexivity|]. exists reason. split; reflexivity.
Qed.

End FileResults.


Lemma process_file_zip_witness :
  exists result,
    Samples.process_file (py "upload.zip") = result
    /\ PassportOCR.success result = true
    /\ PassportOCR.valid_passport result = false.
Proof.
  pose proof (process_file_zip (U := ascii_only) (L := ascii_lower_only)
                Examples.Scan Examples.scan_shape Examples.scan_contours
                (fun image _ => Examples.scan_text image)
                (fun _ => py "OCR engine failed") (fun _ => Examples.morning)
                false str (fun p => p) (fun _ => true) Samples.suffix
                Samples.imread Samples.unzip unit
                (fun _ => FileProcessing.Raised (py "no PDF support"))
                (fun _ => FileProcessing.Raised (py "no PDF support"))
                (py "upload.zip")
                (fun pattern =>
                   if Py.str_eqb pattern (py "*.jpg")
                   then [py "blank.jpg"; py "notes.jpg"]
                   else if Py.str_eqb pattern (py "*.png")
                        then [py "passport.png"] else [])
                [py "blank.jpg"; py "notes.jpg"] [py "passport.png"]
                eq_refl) as H.
  specialize (H ltac:(vm_compute; reflexivity) eq_refl
                ltac:(vm_compute; reflexivity)).
  assert (Hpre : Forall
            (FileProcessing.skipped (U := ascii_only) Examples.Scan
               Examples.scan_shape Examples.scan_contours
               (fun image _ => Examples.scan_text image)
               (fun _ => py "OCR engine failed") (fun _ => Examples.morning)
               false str Samples.imread)
            [py "blank.jpg"; py "notes.jpg"]).
  { repeat constructor. unfold FileProcessing.skipped.
    change (Samples.imread (py "blank.jpg")) with (Some Samples.blank_scan).
    eexists. split; vm_compute; reflexivity. }
  specialize (H Hpre Samples.icao_scan eq_refl). destruct H as [H _].
  destruct (FileProcessing.run_image (U := ascii_only) Examples.Scan
              Examples.scan_shape Examples.scan_contours
              (fun image _ => Examples.scan_text image)
              (fun _ => py "OCR engine failed") (fun _ => Examples.morning)
              false Samples.icao_scan) as [result|msg] eqn:Hr;
    [|vm_compute in Hr; discriminate Hr].
  assert (Hs : PassportOCR.success result = true
               /\ PassportOCR.valid_passport result = false).
  { vm_compute in Hr. injection Hr as <-. split; reflexivity. }
  exists result. split; [exact (H result eq_refl (proj1 Hs)) | exact Hs].
Defined.

Lemma accepted_upload_is_supported_witness :
  App.check_upload (L := ascii_lower_only) (Some (py "order-1"))
    (Some (py "traveller-1")) (Some (py "document-1")) (Some (py "Scan.PNG"))
  = App.Accepted (py "png")
  /\ In (py "png") [py "jpg"; py "jpeg"; py "png"; py "pdf"; py "zip"]
  /\ forall ext,
       PassportOCR.error (Samples.process_file (py "passport.png"))
       <> Some (py "Unsupported file format: " ++ ext).
Proof.
  assert (Hc : App.check_upload (L := ascii_lower_only) (Some (py "order-1"))
                 (Some (py "traveller-1")) (Some (py "document-1"))
                 (Some (py "Scan.PNG"))
               = App.Accepted (py "png")) by (vm_compute; reflexivity).
  split; [exact Hc|].
  destruct (accepted_upload_is_supported (U := ascii_only)
              (L := ascii_lower_only)
              Examples.Scan Examples.scan_shape Examples.scan_contours
              (fun image _ => Examples.scan_text image)
              (fun _ => py "OCR engine failed") (fun _ => Examples.morning)
              false str (fun p => p) (fun _ => true) Samples.suffix
              Samples.imread Samples.unzip unit
              (fun _ => FileProcessing.Raised (py "no PDF support"))
              (fun _ => FileProcessing.Raised (py "no PDF support"))
              _ _ _ _ (py "png") (py "passport.png") Hc eq_refl
              ltac:(vm_compute; reflexivity))
    as (Hin & _ & _ & _ & Hu).
  split; [exact Hin | exact Hu].
Defined.
(** ** The text read by PaddleOCR and the purity test *)

Section PaddleText.
Context {U : Unicode}.

Lemma join_In sep parts c :
  In c (Py.join sep parts) -> In c sep \/ exists p, In p parts /\ In c p.
Proof.
  induction parts as [|p [|q rest] IH]; cbn [Py.join].
  - intros [].
  - intros H. right. exists p. split; [left; reflexivity | exact H].
  - rewrite !in_app_iff. intros [H | [H | H]].
    + right. exists p. split; [left; reflexivity | exact H].
    + left. exact H.
    + destruct (IH H) as [Hs | (p' & Hp & Hc)]; [left; exact Hs|].
      right. exists p'. split; [right; exact Hp | exact Hc].
Qed.

(** The pieces between line breaks hold characters of the text, and no
    line break. *)
Lemma split_go_lines_In s : forall cur piece c,
  In piece (Py.split_go [10%N] 0 cur s) -> In c piece ->
  In c cur \/ (In c s /\ c <> 10%N).
Proof.
  induction s as [|x s IH]; intros cur piece c.
  - cbn. intros [<- | []]. rewrite <- in_rev. tauto.
  - cbn [Py.split_go Py.startswith length Nat.sub].
    destruct (char_eqb 10 x) eqn:E; cbn [andb].
    + intros [<- | H] Hc.
      * rewrite <- in_rev in Hc. left. exact Hc.
      * destruct (IH _ _ _ H Hc) as [[] | [Hin Hne]].
        right. split; [right; exact Hin | exact Hne].
    + intros H Hc. destruct (IH _ _ _ H Hc) as [[<- | Hin] | [Hin Hne]].
      * right. split; [left; reflexivity|]. intros ->.
        rewrite (proj2 (char_eqb_spec 10%N 10%N) eq_refl) in E. discriminate E.
      * left. exact Hin.
      * right. split; [right; exact Hin | exact Hne].
Qed.

Lemma clean_line_In line c :
  In c (MRZParser.clean_line line) -> In c line \/ c = ch "<".
Proof.
  assert (H : In c (Py.replace (ch "-") (py "<")
                      (Py.replace 8212%N (py "<")
                         (Py.replace (ch " ") [] (Py.strip line)))) ->
              In c line \/ c = ch "<").
  { intros H. apply replace_In in H as [[H _] | [<- | []]]; [|right; reflexivity].
    apply replace_In in H as [[H _] | [<- | []]]; [|right; reflexivity].
    apply replace_In in H as [[H _] | []].
    left. unfold Py.strip in H.
    exact (lstrip_with_In _ _ _ (rstrip_with_In _ _ _ H)). }
  unfold MRZParser.clean_line. cbv zeta.
  destruct (_ || _); [|exact H].
  destruct (_ <? _)%nat; [|exact H].
  intros Hc. apply H. unfold Py.rstrip in Hc.
  exact (rstrip_with_In _ _ _ Hc).
Qed.

Lemma filter_all_length {A} (p : A -> bool) (l : list A) :
  (forall x, In x l -> p x = true) -> length (List.filter p l) = length l.
Proof.
  induction l as [|x l IH]; intros H; [reflexivity|]. cbn.
  rewrite (H x (or_introl eq_refl)). cbn. f_equal.
  apply IH. intros y Hy. apply H. right. exact Hy.
Qed.

Lemma paddle_text_chars result c :
  In c (Paddle.text result) ->
  c = 10%N \/ Py.isalnum c || char_eqb c (ch "<") = true.
Proof.
  unfold Paddle.text. intros H.
  apply join_In in H as [[<- | []] | (p & Hp & Hc)]; [left; reflexivity|].
  right. unfold Paddle.text_lines in Hp. apply in_flat_map in Hp as (e & _ & Hp).
  destruct e as [text_content|]; [|destruct Hp].
  destruct (Paddle.filtered_text text_content) as [|a t] eqn:E; [destruct Hp|].
  destruct Hp as [<- | []]. rewrite <- E in Hc.
  unfold Paddle.filtered_text in Hc. apply filter_In in Hc as [_ Hc]. exact Hc.
Qed.

(** X3: on a text put together from PaddleOCR's result, the purity test
    rejects nothing: every character of every cleaned line counts as
    valid, so a line is kept exactly when it has 35 to 50 characters, a
    filler among them, and either a document type letter at its start or
    at least five fillers. *)
Theorem paddle_text_purity (result : option (list (option str))) (line : str) :
  In line (MRZParser.cleaned_lines (Paddle.text result)) ->
  MRZParser.valid_chars line = Z.of_nat (length line)
  /\ (MRZParser.looks_like_mrz line = true
      <-> (35 <= length line <= 50)%nat
          /\ In (ch "<") line
          /\ (MRZParser.starts_with_doc_type line = true
              \/ 5 <= Py.count (ch "<") line)).
Proof.
  intros Hin.
  assert (Hv : MRZParser.valid_chars line = Z.of_nat (length line)).
  { unfold MRZParser.valid_chars. f_equal. apply filter_all_length.
    intros c Hc. unfold MRZParser.cleaned_lines in Hin.
    apply in_map_iff in Hin as (raw & <- & Hraw).
    apply filter_In in Hraw as [Hraw _].
    apply clean_line_In in Hc as [Hc | ->];
      [|rewrite (proj2 (char_eqb_spec _ _) eq_refl); apply orb_true_r].
    destruct (split_go_lines_In _ _ _ _ Hraw Hc) as [[] | [Ht Hne]].
    unfold Py.strip in Ht.
    apply rstrip_with_In, lstrip_with_In, paddle_text_chars in Ht.
    destruct Ht as [-> | Ht]; [exfalso; apply Hne; reflexivity | exact Ht]. }
  split; [exact Hv|].
  rewrite (looks_like_mrz_spec line (cleaned_lines_no_space _ _ Hin)), Hv.
  split.
  - intros (Hl & _ & Hm & Hd). repeat split; try assumption; lia.
  - intros (Hl & Hm & Hd). repeat split; try assumption; lia.
Qed.

End PaddleText.

Lemma paddle_text_purity_witness :
  In Examples.icao_line1
    (MRZParser.cleaned_lines
       (Paddle.text (U := ascii_only)
          (Some [Some (py "P<UTO ERIKSSON<<ANNA<MARIA<<<<<<<<<<<<<<<<<<<.");
                 None; Some (py "...");
                 Some (py "L898902C<3UTO6908061F9406236ZE184226B<<<<<14")])))
  /\ MRZParser.valid_chars (U := ascii_only) Examples.icao_line1 = 44
  /\ MRZParser.looks_like_mrz (U := ascii_only) Examples.icao_line1 = true.
Proof.
  assert (Hin : In Examples.icao_line1
            (MRZParser.cleaned_lines
               (Paddle.text (U := ascii_only)
                  (Some [Some (py "P<UTO ERIKSSON<<ANNA<MARIA<<<<<<<<<<<<<<<<<<<.");
                         None; Some (py "...");
                         Some (py "L898902C<3UTO6908061F9406236ZE184226B<<<<<14")]))))
    by (vm_compute; left; reflexivity).
  split; [exact Hin|].
  destruct (paddle_text_purity (U := ascii_only) _ _ Hin) as [Hv Hl].
  split; [exact Hv|]. apply Hl.
  split; [vm_compute; split; apply Nat.leb_le; reflexivity|].
  split; [apply char_in_spec; vm_compute; reflexivity|].
  left. vm_compute. reflexivity.
Defined.
